(** * Roster of an armor event: the signup view of cogs/armor_events.py

    The development embeds [EventSignupView] and the callbacks of its
    components.  A callback is a function from the view (and the state of
    the secondary view it belongs to) to the response it sends and the view
    it leaves behind.  Crew dicts are shared objects: a slot of [crews_a] or
    [crews_b] holds a reference to a dict, and secondary views keep such a
    reference after the slot has been cleared; the dicts live in a store.

    Role synchronisation and the database are collaborators that never
    touch the roster fields; their calls are left out of the callbacks,
    except in [EndEventButton_callback], where their failure decides whether
    the components get disabled and the roles removed are counted.  The two
    functions that give and take the roles of an event are embedded on their
    own in [Roles].

    The refresh of the embed fails on a crew with a member that is [None].
    It is part of [join_with_crew], which writes such a member when the
    guild does not resolve an id of the saved crew, and of
    [EndEventButton_callback], which builds the embed itself.  The other
    callbacks are embedded without it: their answers are those the program
    gives while no slot holds a crew with such a member, or while the
    message is not set; their effect on the view does not depend on it.
    Calls to Discord made for the answer or for the edit of the message are
    taken to go through. *)

From Stdlib Require Import ZArith String List Bool Lia.
From stdpp Require Import base list.
Import ListNotations.

Local Open Scope nat_scope.

(** ** Data model *)

(** A [discord.Member]; members compare by their id. *)
Abbreviation User := Z (only parsing).

Inductive Team := TeamA | TeamB.

(** A reference to a crew dict: its index in the store. *)
Abbreviation ref := nat (only parsing).

(** The dict written into a slot. *)
Record Crew := mkCrew {
  commander : option User;
  crew_name : string;
  gunner : option User;
  driver : option User;
  persistent_crew_id : option Z
}.

(** A row of the persistent crew table, as [get_user_crews] returns it. *)
Record PersistentCrew := mkPersistentCrew {
  pc_id : Z;
  pc_crew_name : string;
  commander_id : Z;
  gunner_id : option Z;
  driver_id : option Z
}.

Inductive ItemKind :=
| CommanderSelect | JoinCrewAButton | JoinCrewBButton | JoinWithCrewButton
| RecruitMeButton | RecruitPlayersButton | EditCrewButton | LeaveEventButton
| EndEventButton.

Record Item := mkItem { kind : ItemKind; disabled : bool }.

Record EventSignupView := mkView {
  event_id : option Z;
  commander_a : option User;
  commander_b : option User;
  crews_a : list (option ref);
  crews_b : list (option ref);
  recruits : list User;
  children : list Item;
  dicts : list Crew
}.

Inductive PyExn := IndexError | ValueError | TypeError | AttributeError.

Inductive Position := Gunner | Driver.

(** State of the secondary views. *)
Record CrewSelectView := mkCrewSelectView {
  csv_team : Team;
  csv_commander : User;
  csv_gunner : option User
}.

Record RecruitSelectionView := mkRecruitSelectionView {
  rsv_commander : User;
  rsv_selected_recruit : option User;
  rsv_crew : option ref;
  rsv_team : option Team;
  rsv_slot_index : option nat
}.

Record EditCrewView := mkEditCrewView {
  ecv_crew : ref;
  ecv_team : Team;
  ecv_slot_index : nat
}.

(** The object a position select holds as its [view_parent].  [main_view],
    [crew] and [team] are attributes of an [EditCrewView]; an
    [EditGunnerView] and an [EditDriverView] have a [parent] and none of
    these. *)
Inductive ViewParent :=
| AnEditCrewView (ev : EditCrewView)
| AnEditGunnerView (parent : EditCrewView)
| AnEditDriverView (parent : EditCrewView).

(** What a callback answers. *)
Inductive Response :=
| AlreadyRegistered
| NowCommander (t : Team)
| ShowCrewSelectView (pv : CrewSelectView)
| UserAlreadyRegistered
| ShowDriverSelectView
| ShowCrewNameModal (drv : User)
| CrewRegistered (name : string) (t : Team)
| TeamFull
| MemberAlreadyRegistered (m : User)
| CrewJoined (name : string) (t : Team)
| AddedToRecruitPool
| OnlyCommandersRecruit
| NoRecruitsAvailable
| ShowRecruitSelectionView (rv : RecruitSelectionView)
| RecruitNotFound
| ShowPositionSelectView
| Recruited (r : option User) (p : Position)
| MustBeCommander
| ShowEditCrewView (ev : EditCrewView)
| PositionUpdated (p : Position) (u : User)
| PositionCleared (p : Position)
| RemovedFromEvent
| NotRegistered
| OnlyAdmins
| EventEndedSuccessfully (participants roles_removed channels_deleted : nat)
| ErrorEndingEvent.

Inductive Outcome := Sent (r : Response) | Raised (e : PyExn).

(** ** Field updates *)

Definition set_commander_a (x : option User) (v : EventSignupView) :=
  mkView (event_id v) x (commander_b v) (crews_a v) (crews_b v) (recruits v) (children v) (dicts v).
Definition set_commander_b (x : option User) (v : EventSignupView) :=
  mkView (event_id v) (commander_a v) x (crews_a v) (crews_b v) (recruits v) (children v) (dicts v).
Definition set_crews_a (x : list (option ref)) (v : EventSignupView) :=
  mkView (event_id v) (commander_a v) (commander_b v) x (crews_b v) (recruits v) (children v) (dicts v).
Definition set_crews_b (x : list (option ref)) (v : EventSignupView) :=
  mkView (event_id v) (commander_a v) (commander_b v) (crews_a v) x (recruits v) (children v) (dicts v).
Definition set_recruits (x : list User) (v : EventSignupView) :=
  mkView (event_id v) (commander_a v) (commander_b v) (crews_a v) (crews_b v) x (children v) (dicts v).
Definition set_children (x : list Item) (v : EventSignupView) :=
  mkView (event_id v) (commander_a v) (commander_b v) (crews_a v) (crews_b v) (recruits v) x (dicts v).
Definition set_dicts (x : list Crew) (v : EventSignupView) :=
  mkView (event_id v) (commander_a v) (commander_b v) (crews_a v) (crews_b v) (recruits v) (children v) x.

Definition set_gunner (x : option User) (c : Crew) :=
  mkCrew (commander c) (crew_name c) x (driver c) (persistent_crew_id c).
Definition set_driver (x : option User) (c : Crew) :=
  mkCrew (commander c) (crew_name c) (gunner c) x (persistent_crew_id c).

(** [slot_list = main_view.crews_a if team == "A" else main_view.crews_b] *)
Definition slot_list (t : Team) (v : EventSignupView) : list (option ref) :=
  match t with TeamA => crews_a v | TeamB => crews_b v end.

(** [slot_list[i] = x], the list being the one of team [t]. *)
Definition set_slot_list (t : Team) (x : list (option ref)) (v : EventSignupView) :=
  match t with TeamA => set_crews_a x v | TeamB => set_crews_b x v end.

(** ** Python primitives *)

(** [a == b] on values that are a member or [None]. *)
Definition member_eqb (a b : option User) : bool :=
  match a, b with
  | Some x, Some y => Z.eqb x y
  | None, None => true
  | _, _ => false
  end.

(** [user in [x, y, ...]] for a member [user]. *)
Definition user_in (user : User) (l : list (option User)) : bool :=
  existsb (member_eqb (Some user)) l.

(** [user in recruits] *)
Definition in_pool (user : User) (l : list User) : bool :=
  existsb (Z.eqb user) l.

(** [recruits.remove(user)]: drops the first occurrence; [None] stands for
    the [ValueError] of an absent element. *)
Fixpoint list_remove (user : User) (l : list User) : option (list User) :=
  match l with
  | [] => None
  | x :: l' =>
      if Z.eqb x user then Some l'
      else match list_remove user l' with
           | Some r => Some (x :: r)
           | None => None
           end
  end.

(** Truth value of an id column: [None] and [0] are false. *)
Definition truthy_id (o : option Z) : bool :=
  match o with
  | Some i => negb (Z.eqb i 0)
  | None => false
  end.

(** ** EventSignupView *)

Definition all_items : list ItemKind :=
  [CommanderSelect; JoinCrewAButton; JoinCrewBButton; JoinWithCrewButton;
   RecruitMeButton; RecruitPlayersButton; EditCrewButton; LeaveEventButton;
   EndEventButton].

(** The members of the dict behind a slot; a slot that is [None] has none. *)
Definition slot_members (v : EventSignupView) (slot : option ref) : list (option User) :=
  match slot with
  | Some r =>
      match dicts v !! r with
      | Some crew => [commander crew; gunner crew; driver crew]
      | None => []
      end
  | None => []
  end.

Definition is_user_registered (v : EventSignupView) (user : User) : bool :=
  if user_in user [commander_a v; commander_b v] then true
  else if existsb (fun crew_list =>
                     existsb (fun crew => user_in user (slot_members v crew)) crew_list)
            [crews_a v; crews_b v] then true
  else in_pool user (recruits v).

(** The inner loop of [get_user_crew]: [enumerate(crew_list)] from index [i]. *)
Fixpoint find_commanded (v : EventSignupView) (user : User)
    (crew_list : list (option ref)) (i : nat) : option (ref * nat) :=
  match crew_list with
  | [] => None
  | slot :: rest =>
      match slot with
      | Some r =>
          match dicts v !! r with
          | Some crew =>
              if member_eqb (commander crew) (Some user) then Some (r, i)
              else find_commanded v user rest (S i)
          | None => find_commanded v user rest (S i)
          end
      | None => find_commanded v user rest (S i)
      end
  end.

Definition get_user_crew (v : EventSignupView) (user : User) : option (ref * Team * nat) :=
  match find_commanded v user (crews_a v) 0 with
  | Some (r, i) => Some (r, TeamA, i)
  | None =>
      match find_commanded v user (crews_b v) 0 with
      | Some (r, i) => Some (r, TeamB, i)
      | None => None
      end
  end.

Definition is_user_commander (v : EventSignupView) (user : User) : bool :=
  match get_user_crew v user with Some _ => true | None => false end.

(** [x.display_name], as far as it can fail: on [None] it raises. *)
Definition display_name_of (x : option User) : option PyExn :=
  match x with Some _ => None | None => Some AttributeError end.

(** [format_crew(slot)] of [build_embed], as far as it can fail; the text is
    left out.  It reads the display name of the commander, and that of the
    gunner and of the driver unless they equal the commander. *)
Definition format_crew (v : EventSignupView) (slot : option ref) : option PyExn :=
  match slot with
  | Some r =>
      match dicts v !! r with
      | Some crew =>
          match display_name_of (commander crew) with
          | Some e => Some e
          | None =>
              match (if negb (member_eqb (gunner crew) (commander crew))
                     then display_name_of (gunner crew) else None) with
              | Some e => Some e
              | None =>
                  if negb (member_eqb (driver crew) (commander crew))
                  then display_name_of (driver crew) else None
              end
          end
      | None => None
      end
  | None => None
  end.

(** The first exception of a list of results computed in order. *)
Fixpoint first_raised (results : list (option PyExn)) : option PyExn :=
  match results with
  | [] => None
  | Some e :: _ => Some e
  | None :: rest => first_raised rest
  end.

(** [build_embed], as far as it can fail: the commanders are read under a
    test for [None] and the recruits are members, so it is the crews of
    [crews_a] and then of [crews_b] that can make it raise. *)
Definition build_embed (v : EventSignupView) : option PyExn :=
  first_raised (map (format_crew v) (crews_a v) ++ map (format_crew v) (crews_b v)).

(** ** Event roles: [assign_event_role] and [remove_event_role] *)

Module Roles.

(** A [discord.Role]; roles compare by their id. *)
Record Role := mkRole { role_id : nat; role_name : string }.

(** The guild as the two functions see it: [guild.roles], and [user.roles]
    for each member as the ids of the roles held.  The calls that change
    roles ([guild.create_role], [user.add_roles], [user.remove_roles]) are
    modelled by what they do to the guild that later calls read. *)
Record Guild := mkGuild {
  guild_roles : list Role;
  roles_of : Z -> list nat
}.

(** What the calls to Discord do: whether each goes through, the id a
    created role gets and where [guild.roles] lists it, and, as
    [user.remove_roles] takes the roles away one request after the other, how
    many are gone when it fails. *)
Record Discord := mkDiscord {
  create_role_ok : bool;
  created_id : nat;
  created_position : nat;
  add_roles_ok : bool;
  remove_roles_ok : bool;
  removed_before_failure : nat
}.

(** [discord.utils.get(guild.roles, name=name)]: the first role of that name. *)
Definition utils_get (roles : list Role) (name : string) : option Role :=
  find (fun role => String.eqb (role_name role) name) roles.

(** [role in user.roles] *)
Definition has_role (g : Guild) (user : Z) (role : Role) : bool :=
  existsb (Nat.eqb (role_id role)) (roles_of g user).

(** The name of the role for [team]; [team] is ["A"], ["B"] or [None]. *)
Definition event_role_name (event_title : string) (team : option Team) : string :=
  match team with
  | Some TeamA => (event_title ++ " Allies")%string
  | Some TeamB => (event_title ++ " Axis")%string
  | None => (event_title ++ " Participant")%string
  end.

(** [guild.roles] once a role has been created. *)
Definition with_role (position : nat) (role : Role) (roles : list Role) : list Role :=
  firstn position roles ++ role :: skipn position roles.

Definition set_roles_of (user : Z) (ids : list nat) (g : Guild) : Guild :=
  mkGuild (guild_roles g) (fun m => if Z.eqb m user then ids else roles_of g m).

(** [assign_event_role]: the value returned and the guild afterwards. *)
Definition assign_event_role (api : Discord) (user : Z) (event_title : string)
    (team : option Team) (g : Guild) : bool * Guild :=
  let name := event_role_name event_title team in
  match utils_get (guild_roles g) name with
  | Some target_role =>
      if negb (has_role g user target_role) then
        if add_roles_ok api
        then (true, set_roles_of user (role_id target_role :: roles_of g user) g)
        else (false, g)
      else (true, g)
  | None =>
      if create_role_ok api then
        let target_role := mkRole (created_id api) name in
        let g1 := mkGuild (with_role (created_position api) target_role (guild_roles g))
                    (roles_of g) in
        if negb (has_role g1 user target_role) then
          if add_roles_ok api
          then (true, set_roles_of user (role_id target_role :: roles_of g1 user) g1)
          else (false, g1)
        else (true, g1)
      else (false, g)
  end.

(** The roles [remove_event_role] looks for, in its order. *)
Definition event_roles (event_title : string) (g : Guild) : list (option Role) :=
  [utils_get (guild_roles g) (event_title ++ " Allies")%string;
   utils_get (guild_roles g) (event_title ++ " Axis")%string;
   utils_get (guild_roles g) (event_title ++ " Participant")%string].

(** [for role in [...]: if role and role in user.roles: roles_to_remove.append(role)] *)
Fixpoint roles_to_remove (g : Guild) (user : Z) (found : list (option Role)) : list Role :=
  match found with
  | [] => []
  | Some role :: rest =>
      if has_role g user role then role :: roles_to_remove g user rest
      else roles_to_remove g user rest
  | None :: rest => roles_to_remove g user rest
  end.

(** [user.remove_roles] called with the roles to remove. *)
Definition without_roles (roles : list Role) (ids : list nat) : list nat :=
  List.filter (fun i => negb (existsb (fun role => Nat.eqb (role_id role) i) roles)) ids.

(** [remove_event_role]: [Some true], [Some false], or [None] when the
    function falls off its end. *)
Definition remove_event_role (api : Discord) (user : Z) (event_title : string)
    (g : Guild) : option bool * Guild :=
  match roles_to_remove g user (event_roles event_title g) with
  | [] => (None, g)
  | (_ :: _) as roles =>
      if remove_roles_ok api
      then (Some true, set_roles_of user (without_roles roles (roles_of g user)) g)
      else (Some false,
            set_roles_of user
              (without_roles (firstn (removed_before_failure api) roles) (roles_of g user))
              g)
  end.

(** *** Properties *)

Lemma append_inj_l (s a b : string) : (s ++ a = s ++ b)%string -> a = b.
Proof.
  induction s as [|c s IH]; simpl; [trivial|]. intros [= H]. now apply IH.
Qed.

Lemma utils_get_Some roles name role :
  utils_get roles name = Some role -> In role roles /\ role_name role = name.
Proof.
  unfold utils_get. intros H. apply find_some in H. destruct H as [Hin Hn].
  split; [exact Hin|]. now apply String.eqb_eq.
Qed.

Lemma utils_get_app roles roles' name :
  utils_get (roles ++ roles') name
  = match utils_get roles name with
    | Some role => Some role
    | None => utils_get roles' name
    end.
Proof.
  unfold utils_get. induction roles as [|r roles IH]; simpl; [reflexivity|].
  destruct (String.eqb (role_name r) name); [reflexivity|exact IH].
Qed.

Lemma utils_get_split roles name k :
  utils_get roles name
  = match utils_get (firstn k roles) name with
    | Some role => Some role
    | None => utils_get (skipn k roles) name
    end.
Proof. rewrite <- utils_get_app. now rewrite firstn_skipn. Qed.

Lemma utils_get_created roles name i k :
  utils_get roles name = None ->
  utils_get (with_role k (mkRole i name) roles) name = Some (mkRole i name).
Proof.
  intros H. rewrite (utils_get_split roles name k) in H.
  unfold with_role. rewrite utils_get_app.
  destruct (utils_get (firstn k roles) name); [discriminate|].
  unfold utils_get. simpl. now rewrite String.eqb_refl.
Qed.

Lemma utils_get_kept roles name n role i k :
  utils_get roles name = None ->
  utils_get roles n = Some role ->
  utils_get (with_role k (mkRole i name) roles) n = Some role.
Proof.
  intros Hnone H. unfold with_role. rewrite utils_get_app.
  rewrite (utils_get_split roles n k) in H.
  destruct (utils_get (firstn k roles) n); [exact H|].
  unfold utils_get at 1. simpl.
  destruct (String.eqb name n) eqn:E; [|exact H].
  apply String.eqb_eq in E. subst n.
  rewrite (utils_get_split roles name k) in Hnone.
  destruct (utils_get (firstn k roles) name); congruence.
Qed.

Lemma assign_again api user event_title team g role :
  utils_get (guild_roles g) (event_role_name event_title team) = Some role ->
  has_role g user role = true ->
  assign_event_role api user event_title team g = (true, g).
Proof.
  intros Hget Hhas. unfold assign_event_role. cbv zeta. rewrite Hget, Hhas. reflexivity.
Qed.

Lemma has_role_set_roles_of g user ids role :
  has_role (set_roles_of user ids g) user role = existsb (Nat.eqb (role_id role)) ids.
Proof. unfold has_role, set_roles_of. simpl. now rewrite Z.eqb_refl. Qed.

(** X14. The three role names of an event differ from each other.  When
    [assign_event_role] returns true, the guild has a role of the name for the
    team, the user holds the first role of that name, every role the guild
    had is still there under its name, and nobody else's roles have changed;
    assigning once more then returns true and changes nothing. *)
Theorem assign_gives_role (api : Discord) (user : Z) (event_title : string)
    (team : option Team) (g g' : Guild) :
  (forall t t', event_role_name event_title t = event_role_name event_title t' -> t = t')
  /\ (assign_event_role api user event_title team g = (true, g') ->
      (exists role,
          utils_get (guild_roles g') (event_role_name event_title team) = Some role /\
          has_role g' user role = true) /\
      (forall name role, utils_get (guild_roles g) name = Some role ->
                         utils_get (guild_roles g') name = Some role) /\
      (forall m, m <> user -> roles_of g' m = roles_of g m) /\
      (forall api', assign_event_role api' user event_title team g' = (true, g'))).
Proof.
  split.
  - intros t t' H. unfold event_role_name in H.
    destruct t as [[|]|], t' as [[|]|]; try reflexivity;
      apply append_inj_l in H; discriminate.
  - set (name := event_role_name event_title team).
    assert (Hother : forall ids g0 m, m <> user ->
               roles_of (set_roles_of user ids g0) m = roles_of g0 m).
    { intros ids g0 m Hm. simpl. destruct (Z.eqb m user) eqn:E; [|reflexivity].
      apply Z.eqb_eq in E. contradiction. }
    assert (Hadded : forall g0 role,
               has_role (set_roles_of user (role_id role :: roles_of g0 user) g0) user role
               = true).
    { intros g0 role. rewrite has_role_set_roles_of. simpl. now rewrite Nat.eqb_refl. }
    unfold assign_event_role at 1. cbv zeta. fold name.
    destruct (utils_get (guild_roles g) name) as [target|] eqn:Hget.
    + destruct (has_role g user target) eqn:Hhas; simpl.
      * intros [= <-]. split; [now exists target|]. split; [trivial|].
        split; [reflexivity|]. intros api'.
        exact (assign_again api' user event_title team g target Hget Hhas).
      * destruct (add_roles_ok api); [|discriminate]. intros [= <-].
        split; [exists target; split; [exact Hget|apply Hadded]|].
        split; [trivial|]. split; [apply Hother|]. intros api'.
        exact (assign_again api' user event_title team
                 (set_roles_of user (role_id target :: roles_of g user) g) target
                 Hget (Hadded g target)).
    + destruct (create_role_ok api); [|discriminate].
      set (target := mkRole (created_id api) name).
      set (g1 := mkGuild (with_role (created_position api) target (guild_roles g))
                   (roles_of g)).
      assert (Hget1 : utils_get (guild_roles g1) name = Some target)
        by exact (utils_get_created _ _ _ _ Hget).
      assert (Hkept : forall n role, utils_get (guild_roles g) n = Some role ->
                                     utils_get (guild_roles g1) n = Some role).
      { intros n role H. exact (utils_get_kept _ _ _ _ _ _ Hget H). }
      destruct (has_role g1 user target) eqn:Hhas; simpl.
      * intros [= <-]. split; [now exists target|]. split; [exact Hkept|].
        split; [reflexivity|]. intros api'.
        exact (assign_again api' user event_title team g1 target Hget1 Hhas).
      * destruct (add_roles_ok api); [|discriminate]. intros [= <-].
        split; [exists target; split; [exact Hget1|exact (Hadded g1 target)]|].
        split; [exact Hkept|]. split; [exact (Hother _ g1)|]. intros api'.
        exact (assign_again api' user event_title team
                 (set_roles_of user (role_id target :: roles_of g1 user) g1) target
                 Hget1 (Hadded g1 target)).
Qed.

Lemma In_roles_to_remove g user found role :
  In role (roles_to_remove g user found) <->
  In (Some role) found /\ has_role g user role = true.
Proof.
  induction found as [|[r|] found IH]; simpl.
  - split; [intros []|intros [[] _]].
  - destruct (has_role g user r) eqn:Hr; simpl; rewrite IH; split.
    + intros [<-|[H1 H2]]; [split; [now left|exact Hr]|split; [now right|exact H2]].
    + intros [[[= <-]|H1] H2]; [now left|right; now split].
    + intros [H1 H2]. split; [now right|exact H2].
    + intros [[[= <-]|H1] H2]; [congruence|now split].
  - rewrite IH. split.
    + intros [H1 H2]. split; [now right|exact H2].
    + intros [[H1|H1] H2]; [discriminate|now split].
Qed.

Lemma existsb_without_roles roles ids role :
  existsb (Nat.eqb (role_id role)) (without_roles roles ids)
  = existsb (Nat.eqb (role_id role)) ids
    && negb (existsb (fun r => Nat.eqb (role_id r) (role_id role)) roles).
Proof.
  unfold without_roles. induction ids as [|i ids IH]; [reflexivity|]. simpl.
  destruct (Nat.eqb (role_id role) i) eqn:E.
  - apply Nat.eqb_eq in E. subst i.
    destruct (existsb (fun r => Nat.eqb (role_id r) (role_id role)) roles); simpl.
    + rewrite IH. now rewrite andb_false_r.
    + now rewrite Nat.eqb_refl.
  - destruct (negb (existsb (fun r => Nat.eqb (role_id r) i) roles)); simpl;
      [rewrite E|]; exact IH.
Qed.

Lemma assign_has_role api user event_title team g g' :
  assign_event_role api user event_title team g = (true, g') ->
  exists role,
    utils_get (guild_roles g') (event_role_name event_title team) = Some role /\
    has_role g' user role = true.
Proof.
  unfold assign_event_role. set (name := event_role_name event_title team).
  destruct (utils_get (guild_roles g) name) as [target|] eqn:Hget.
  - destruct (has_role g user target) eqn:Hhas; simpl.
    + intros [= <-]. now exists target.
    + destruct (add_roles_ok api); [|discriminate]. intros [= <-].
      exists target. split; [exact Hget|]. rewrite has_role_set_roles_of. simpl.
      now rewrite Nat.eqb_refl.
  - destruct (create_role_ok api); [|discriminate]. cbv zeta.
    set (target := mkRole (created_id api) name).
    set (g1 := mkGuild (with_role (created_position api) target (guild_roles g))
                 (roles_of g)).
    assert (Hget1 : utils_get (guild_roles g1) name = Some target)
      by exact (utils_get_created _ _ _ _ Hget).
    destruct (has_role g1 user target) eqn:Hhas; simpl.
    + intros [= <-]. now exists target.
    + destruct (add_roles_ok api); [|discriminate]. intros [= <-].
      exists target. split; [exact Hget1|]. rewrite has_role_set_roles_of. simpl.
      now rewrite Nat.eqb_refl.
Qed.

Lemma In_event_roles event_title team g role :
  utils_get (guild_roles g) (event_role_name event_title team) = Some role ->
  In (Some role) (event_roles event_title g).
Proof.
  unfold event_roles, event_role_name. intros <-.
  destruct team as [[|]|]; simpl; auto.
Qed.

(** The shape of what [remove_event_role] returns. *)
Lemma remove_event_role_cases api user event_title g :
  ((forall role, In (Some role) (event_roles event_title g) ->
                 has_role g user role = false) /\
   remove_event_role api user event_title g = (None, g))
  \/ ((exists role, In (Some role) (event_roles event_title g) /\
                    has_role g user role = true) /\
      remove_roles_ok api = false /\
      exists g',
        remove_event_role api user event_title g = (Some false, g') /\
        guild_roles g' = guild_roles g /\
        (forall m, m <> user -> roles_of g' m = roles_of g m) /\
        (forall role, has_role g' user role = true -> has_role g user role = true))
  \/ ((exists role, In (Some role) (event_roles event_title g) /\
                    has_role g user role = true) /\
      remove_roles_ok api = true /\
      exists g',
        remove_event_role api user event_title g = (Some true, g') /\
        guild_roles g' = guild_roles g /\
        (forall m, m <> user -> roles_of g' m = roles_of g m) /\
        (forall role, has_role g' user role = true -> has_role g user role = true) /\
        (forall role, In (Some role) (event_roles event_title g') ->
                      has_role g' user role = false)).
Proof.
  unfold remove_event_role.
  destruct (roles_to_remove g user (event_roles event_title g)) as [|r roles] eqn:Hrm.
  - left. split; [|reflexivity]. intros role Hin.
    destruct (has_role g user role) eqn:Hhas; [|reflexivity]. exfalso.
    assert (H : In role (roles_to_remove g user (event_roles event_title g)))
      by (apply In_roles_to_remove; now split).
    rewrite Hrm in H. exact H.
  - right.
    assert (Hex : exists role, In (Some role) (event_roles event_title g) /\
                               has_role g user role = true).
    { exists r. apply In_roles_to_remove. rewrite Hrm. now left. }
    assert (Hother : forall ids m, m <> user ->
               roles_of (set_roles_of user ids g) m = roles_of g m).
    { intros ids m Hm. simpl. destruct (Z.eqb m user) eqn:E; [|reflexivity].
      apply Z.eqb_eq in E. contradiction. }
    destruct (remove_roles_ok api); [right|left]; (split; [exact Hex|]);
      (split; [reflexivity|]); eexists; (split; [reflexivity|]);
      (split; [reflexivity|]); (split; [apply Hother|]).
    + split.
      { intros role. rewrite has_role_set_roles_of, existsb_without_roles.
        intros H. apply andb_true_iff in H. exact (proj1 H). }
      intros role Hin. change (event_roles event_title _) with (event_roles event_title g) in Hin.
      rewrite has_role_set_roles_of, existsb_without_roles.
      destruct (existsb (Nat.eqb (role_id role)) (roles_of g user)) eqn:Hhas;
        [|reflexivity]. cbn [andb].
      apply negb_false_iff. apply existsb_exists. exists role.
      split; [|apply Nat.eqb_refl]. rewrite <- Hrm. apply In_roles_to_remove.
      now split.
    + intros role. rewrite has_role_set_roles_of, existsb_without_roles.
      intros H. apply andb_true_iff in H. exact (proj1 H).
Qed.

(** X15. [remove_event_role] returns no value exactly when the user holds
    none of the roles it looks for, and otherwise true or false as Discord
    lets the removal through.  In every case the roles themselves stay in the
    guild, other members keep theirs and the user gains none.  Unless it
    returns false, the user then holds none of the roles looked for, and
    removing again returns no value and changes nothing. *)
Theorem remove_clears_event_roles (api : Discord) (user : Z) (event_title : string)
    (g : Guild) :
  exists answer g',
    remove_event_role api user event_title g = (answer, g') /\
    guild_roles g' = guild_roles g /\
    (forall m, m <> user -> roles_of g' m = roles_of g m) /\
    (answer = None <->
     forall role, In (Some role) (event_roles event_title g) ->
                  has_role g user role = false) /\
    (forall role, has_role g' user role = true -> has_role g user role = true) /\
    (answer = Some false -> remove_roles_ok api = false) /\
    (answer <> Some false ->
     (forall role, In (Some role) (event_roles event_title g') ->
                   has_role g' user role = false) /\
     forall api', remove_event_role api' user event_title g' = (None, g')).
Proof.
  destruct (remove_event_role_cases api user event_title g)
    as [[Hnone ->]|[((role & Hin & Hhas) & Hok & g' & -> & Hg & Hm & Hless)|((role & Hin & Hhas) & Hok & g' & -> & Hg & Hm & Hless & Hclear)]].
  - exists None, g. split; [reflexivity|]. split; [reflexivity|]. split; [reflexivity|].
    split; [split; [intros _; exact Hnone|reflexivity]|]. split; [trivial|].
    split; [discriminate|].
    intros _. split; [exact Hnone|]. intros api'.
    destruct (remove_event_role_cases api' user event_title g)
      as [[_ H]|[((r & Hr & Hh) & _)|((r & Hr & Hh) & _)]];
      [exact H|rewrite (Hnone r Hr) in Hh; discriminate
      |rewrite (Hnone r Hr) in Hh; discriminate].
  - exists (Some false), g'. split; [reflexivity|]. split; [exact Hg|].
    split; [exact Hm|]. split.
    + split; [discriminate|]. intros H. rewrite (H role Hin) in Hhas. discriminate.
    + split; [exact Hless|]. split; [intros _; exact Hok|]. intros H. now contradiction H.
  - exists (Some true), g'. split; [reflexivity|]. split; [exact Hg|]. split; [exact Hm|].
    split.
    + split; [discriminate|]. intros H. rewrite (H role Hin) in Hhas. discriminate.
    + split; [exact Hless|]. split; [discriminate|]. intros _. split; [exact Hclear|]. intros api'.
      destruct (remove_event_role_cases api' user event_title g')
        as [[_ H]|[((r & Hr & Hh) & _)|((r & Hr & Hh) & _)]];
        [exact H|rewrite (Hclear r Hr) in Hh; discriminate
        |rewrite (Hclear r Hr) in Hh; discriminate].
Qed.

(** X16. A role given by [assign_event_role] is one [remove_event_role]
    takes back: after an assignment that returned true, a removal that
    Discord lets through returns true, and the user is left with none of the
    roles of the event. *)
Theorem assign_then_remove (api api' : Discord) (user : Z) (event_title : string)
    (team : option Team) (g g1 : Guild) :
  assign_event_role api user event_title team g = (true, g1) ->
  remove_roles_ok api' = true ->
  exists g2,
    remove_event_role api' user event_title g1 = (Some true, g2) /\
    forall t role,
      utils_get (guild_roles g2) (event_role_name event_title t) = Some role ->
      has_role g2 user role = false.
Proof.
  intros Hassign Hok.
  destruct (assign_has_role _ _ _ _ _ _ Hassign) as (role & Hget & Hhas).
  pose proof (In_event_roles _ _ _ _ Hget) as Hin.
  destruct (remove_event_role_cases api' user event_title g1)
    as [[Hnone _]|[(_ & Hno & _)|(_ & _ & g2 & Hrun & _ & _ & _ & Hclear)]].
  - rewrite (Hnone role Hin) in Hhas. discriminate.
  - congruence.
  - exists g2. split; [exact Hrun|]. intros t r Hr.
    apply Hclear. exact (In_event_roles _ _ _ _ Hr).
Qed.

End Roles.

(** ** Callbacks *)

Section Callbacks.

(** Constants of utils/config.py and functions of the libraries. *)
Variable MAX_CREWS_PER_TEAM : nat.
Variable ADMIN_ROLES : list string.
(** [guild.get_member]: the member with that id, [None] when the guild has none. *)
Variable get_member : Z -> option User.
(** [user.display_name] and [str.strip]. *)
Variable display_name : User -> string.
Variable strip : string -> string.
(** Whether [self.message] is set.  [__init__] leaves it [None] and
    [schedule_event] stores the announcement there once it is sent; no
    callback assigns it, so the callbacks take it as they find it. *)
Variable message : bool.

(** [update_embed]: [if self.message: embed = self.build_embed(); ...]. *)
Definition update_embed (v : EventSignupView) : option PyExn :=
  if message then build_embed v else None.

(** [await main_view.update_embed(interaction)] and then the answer [r]: the
    answer is sent when the refresh returns. *)
Definition refresh_then (r : Response) (v : EventSignupView) : Outcome :=
  match update_embed v with
  | Some e => Raised e
  | None => Sent r
  end.

(** [EventSignupView.__init__] *)
Definition EventSignupView_init (eid : option Z) : EventSignupView :=
  mkView eid None None
    (repeat None MAX_CREWS_PER_TEAM) (repeat None MAX_CREWS_PER_TEAM)
    [] (map (fun k => mkItem k false) all_items) [].

(** [for i in range(MAX_CREWS_PER_TEAM): if slot_list[i] is None: ...]:
    the first index of the range whose slot is [None]. *)
Fixpoint first_none (slots : list (option ref)) (range : list nat) : PyExn + option nat :=
  match range with
  | [] => inr None
  | i :: rest =>
      match slots !! i with
      | None => inl IndexError
      | Some None => inr (Some i)
      | Some (Some _) => first_none slots rest
      end
  end.

Definition CommanderSelect_callback (user : User) (team : Team)
    (v : EventSignupView) : Outcome * EventSignupView :=
  if is_user_registered v user then (Sent AlreadyRegistered, v)
  else
    match team with
    | TeamA => (Sent (NowCommander team), set_commander_a (Some user) v)
    | TeamB => (Sent (NowCommander team), set_commander_b (Some user) v)
    end.

Definition JoinCrewAButton_callback (user : User)
    (v : EventSignupView) : Outcome * EventSignupView :=
  if is_user_registered v user then (Sent AlreadyRegistered, v)
  else (Sent (ShowCrewSelectView (mkCrewSelectView TeamA user None)), v).

Definition JoinCrewBButton_callback (user : User)
    (v : EventSignupView) : Outcome * EventSignupView :=
  if is_user_registered v user then (Sent AlreadyRegistered, v)
  else (Sent (ShowCrewSelectView (mkCrewSelectView TeamB user None)), v).

(** [GunnerSelect.callback]; [value] is [self.values[0]].  The view it
    belongs to is returned next to the signup view. *)
Definition GunnerSelect_callback (value : User) (pv : CrewSelectView)
    (v : EventSignupView) : Outcome * CrewSelectView * EventSignupView :=
  if is_user_registered v value then (Sent UserAlreadyRegistered, pv, v)
  else (Sent ShowDriverSelectView,
        mkCrewSelectView (csv_team pv) (csv_commander pv) (Some value), v).

Definition DriverSelect_callback (value : User) (pv : CrewSelectView)
    (v : EventSignupView) : Outcome * EventSignupView :=
  if is_user_registered v value then (Sent UserAlreadyRegistered, v)
  else (Sent (ShowCrewNameModal value), v).

(** [CrewNameModal.on_submit]: [parent] is the crew selection view the modal
    was opened from, [drv] its [self.driver], [value] the text entered. *)
Definition CrewNameModal_on_submit (parent : CrewSelectView) (drv : User)
    (value : string) (v : EventSignupView) : Outcome * EventSignupView :=
  let name :=
    if String.eqb (strip value) ""%string
    then (display_name (csv_commander parent) ++ "'s Crew")%string
    else strip value in
  let slots := slot_list (csv_team parent) v in
  match first_none slots (seq 0 MAX_CREWS_PER_TEAM) with
  | inl e => (Raised e, v)
  | inr (Some i) =>
      let crew := mkCrew (Some (csv_commander parent)) name (csv_gunner parent) (Some drv) None in
      (Sent (CrewRegistered name (csv_team parent)),
       set_slot_list (csv_team parent) (<[i := Some (length (dicts v))]> slots)
         (set_dicts (dicts v ++ [crew]) v))
  | inr None => (Sent TeamFull, v)
  end.

(** [for member in [commander, gunner, driver]: if member and
    main_view.is_user_registered(member): ... return] *)
Fixpoint first_registered (v : EventSignupView) (members : list (option User)) : option User :=
  match members with
  | [] => None
  | Some m :: rest => if is_user_registered v m then Some m else first_registered v rest
  | None :: rest => first_registered v rest
  end.

(** The three members a profile stands for. *)
Definition profile_members (crew : PersistentCrew) : list (option User) :=
  let cmd := get_member (commander_id crew) in
  let gun := if truthy_id (gunner_id crew)
             then match gunner_id crew with Some g => get_member g | None => None end
             else cmd in
  let drv := if truthy_id (driver_id crew)
             then match driver_id crew with Some d => get_member d | None => None end
             else cmd in
  [cmd; gun; drv].

Definition JoinAlliesWithCrewButton_join_with_crew (crew : PersistentCrew) (team : Team)
    (v : EventSignupView) : Outcome * EventSignupView :=
  let cmd := get_member (commander_id crew) in
  let gun := if truthy_id (gunner_id crew)
             then match gunner_id crew with Some g => get_member g | None => None end
             else cmd in
  let drv := if truthy_id (driver_id crew)
             then match driver_id crew with Some d => get_member d | None => None end
             else cmd in
  match first_registered v [cmd; gun; drv] with
  | Some member => (Sent (MemberAlreadyRegistered member), v)
  | None =>
      let slots := slot_list team v in
      match first_none slots (seq 0 MAX_CREWS_PER_TEAM) with
      | inl e => (Raised e, v)
      | inr None => (Sent TeamFull, v)
      | inr (Some empty_slot) =>
          let entry := mkCrew cmd (pc_crew_name crew) gun drv (Some (pc_id crew)) in
          let v' := set_slot_list team (<[empty_slot := Some (length (dicts v))]> slots)
                      (set_dicts (dicts v ++ [entry]) v) in
          (refresh_then (CrewJoined (pc_crew_name crew) team) v', v')
      end
  end.

(** The Axis button carries the same body. *)
Definition JoinAxisWithCrewButton_join_with_crew (crew : PersistentCrew) (team : Team)
    (v : EventSignupView) : Outcome * EventSignupView :=
  let cmd := get_member (commander_id crew) in
  let gun := if truthy_id (gunner_id crew)
             then match gunner_id crew with Some g => get_member g | None => None end
             else cmd in
  let drv := if truthy_id (driver_id crew)
             then match driver_id crew with Some d => get_member d | None => None end
             else cmd in
  match first_registered v [cmd; gun; drv] with
  | Some member => (Sent (MemberAlreadyRegistered member), v)
  | None =>
      let slots := slot_list team v in
      match first_none slots (seq 0 MAX_CREWS_PER_TEAM) with
      | inl e => (Raised e, v)
      | inr None => (Sent TeamFull, v)
      | inr (Some empty_slot) =>
          let entry := mkCrew cmd (pc_crew_name crew) gun drv (Some (pc_id crew)) in
          let v' := set_slot_list team (<[empty_slot := Some (length (dicts v))]> slots)
                      (set_dicts (dicts v ++ [entry]) v) in
          (refresh_then (CrewJoined (pc_crew_name crew) team) v', v')
      end
  end.

(** The buttons' [callback]: [join_with_crew(interaction, "A")] and [... "B"]. *)
Definition JoinAlliesWithCrewButton_callback (crew : PersistentCrew) :=
  JoinAlliesWithCrewButton_join_with_crew crew TeamA.
Definition JoinAxisWithCrewButton_callback (crew : PersistentCrew) :=
  JoinAxisWithCrewButton_join_with_crew crew TeamB.

Definition RecruitMeButton_callback (user : User)
    (v : EventSignupView) : Outcome * EventSignupView :=
  if is_user_registered v user then (Sent AlreadyRegistered, v)
  else (Sent AddedToRecruitPool, set_recruits (recruits v ++ [user]) v).

(** [RecruitSelectionView.__init__] *)
Definition RecruitSelectionView_init (v : EventSignupView) (cmd : User) : RecruitSelectionView :=
  match get_user_crew v cmd with
  | Some (r, t, i) => mkRecruitSelectionView cmd None (Some r) (Some t) (Some i)
  | None => mkRecruitSelectionView cmd None None None None
  end.

Definition RecruitPlayersButton_callback (user : User)
    (v : EventSignupView) : Outcome * EventSignupView :=
  if negb (is_user_commander v user) then (Sent OnlyCommandersRecruit, v)
  else
    match recruits v with
    | [] => (Sent NoRecruitsAvailable, v)
    | _ :: _ => (Sent (ShowRecruitSelectionView (RecruitSelectionView_init v user)), v)
    end.

(** [RecruitSelect.callback]; [selected_id] is [int(self.values[0])]. *)
Definition RecruitSelect_callback (selected_id : Z) (rv : RecruitSelectionView)
    (v : EventSignupView) : Outcome * RecruitSelectionView * EventSignupView :=
  match find (fun recruit => Z.eqb recruit selected_id) (recruits v) with
  | None => (Sent RecruitNotFound, rv, v)
  | Some selected =>
      (Sent ShowPositionSelectView,
       mkRecruitSelectionView (rsv_commander rv) (Some selected) (rsv_crew rv)
         (rsv_team rv) (rsv_slot_index rv),
       v)
  end.

(** [crew[key] = x] through a reference to the dict. *)
Definition dict_update (r : ref) (f : Crew -> Crew) (v : EventSignupView) : EventSignupView :=
  set_dicts (alter f r (dicts v)) v.

(** [AssignGunnerButton.callback]: the dict is written first, the pool
    shrinks afterwards, and [list.remove] raises when the recruit is gone. *)
Definition AssignGunnerButton_callback (rv : RecruitSelectionView)
    (v : EventSignupView) : Outcome * EventSignupView :=
  match rsv_crew rv with
  | None => (Raised TypeError, v)
  | Some crew =>
      let v1 := dict_update crew (set_gunner (rsv_selected_recruit rv)) v in
      match rsv_selected_recruit rv with
      | None => (Raised ValueError, v1)
      | Some recruit =>
          match list_remove recruit (recruits v1) with
          | None => (Raised ValueError, v1)
          | Some pool => (Sent (Recruited (Some recruit) Gunner), set_recruits pool v1)
          end
      end
  end.

Definition AssignDriverButton_callback (rv : RecruitSelectionView)
    (v : EventSignupView) : Outcome * EventSignupView :=
  match rsv_crew rv with
  | None => (Raised TypeError, v)
  | Some crew =>
      let v1 := dict_update crew (set_driver (rsv_selected_recruit rv)) v in
      match rsv_selected_recruit rv with
      | None => (Raised ValueError, v1)
      | Some recruit =>
          match list_remove recruit (recruits v1) with
          | None => (Raised ValueError, v1)
          | Some pool => (Sent (Recruited (Some recruit) Driver), set_recruits pool v1)
          end
      end
  end.

Definition EditCrewButton_callback (user : User)
    (v : EventSignupView) : Outcome * EventSignupView :=
  match get_user_crew v user with
  | None => (Sent MustBeCommander, v)
  | Some (r, t, i) => (Sent (ShowEditCrewView (mkEditCrewView r t i)), v)
  end.

(** [crew['commander']] read through the reference. *)
Definition dict_commander (r : ref) (v : EventSignupView) : option User :=
  match dicts v !! r with
  | Some crew => commander crew
  | None => None
  end.

(** [EditGunnerView.__init__] and [EditDriverView.__init__], which the two
    buttons of the edit view call with that view: [self.parent = parent] and
    then [UpdateGunnerSelect(self)], [UpdateDriverSelect(self)].  The value is
    the [view_parent] the select is built with: the new view itself. *)
Definition EditGunnerView_init (parent : EditCrewView) : ViewParent :=
  AnEditGunnerView parent.
Definition EditDriverView_init (parent : EditCrewView) : ViewParent :=
  AnEditDriverView parent.

(** [self.view_parent.main_view], [self.view_parent.crew] and
    [self.view_parent.team]: the lookup of an attribute the object does not
    have raises. *)
Definition edit_crew_attributes (view_parent : ViewParent) : PyExn + EditCrewView :=
  match view_parent with
  | AnEditCrewView ev => inr ev
  | AnEditGunnerView _ | AnEditDriverView _ => inl AttributeError
  end.

(** [UpdateGunnerSelect.callback]; [values] is the selection, empty or one
    user.  Either branch starts by reading an attribute of [view_parent]
    ([main_view] in the first, [crew] in the second), before any check or
    write.  The answer is sent before the embed is refreshed. *)
Definition UpdateGunnerSelect_callback (values : list User) (view_parent : ViewParent)
    (v : EventSignupView) : Outcome * EventSignupView :=
  match edit_crew_attributes view_parent with
  | inl e => (Raised e, v)
  | inr ev =>
      match values with
      | new_gunner :: _ =>
          if is_user_registered v new_gunner then (Sent UserAlreadyRegistered, v)
          else (Sent (PositionUpdated Gunner new_gunner),
                dict_update (ecv_crew ev) (set_gunner (Some new_gunner)) v)
      | [] =>
          (Sent (PositionCleared Gunner),
           dict_update (ecv_crew ev) (fun crew => set_gunner (commander crew) crew) v)
      end
  end.

Definition UpdateDriverSelect_callback (values : list User) (view_parent : ViewParent)
    (v : EventSignupView) : Outcome * EventSignupView :=
  match edit_crew_attributes view_parent with
  | inl e => (Raised e, v)
  | inr ev =>
      match values with
      | new_driver :: _ =>
          if is_user_registered v new_driver then (Sent UserAlreadyRegistered, v)
          else (Sent (PositionUpdated Driver new_driver),
                dict_update (ecv_crew ev) (set_driver (Some new_driver)) v)
      | [] =>
          (Sent (PositionCleared Driver),
           dict_update (ecv_crew ev) (fun crew => set_driver (commander crew) crew) v)
      end
  end.

(** One [if isinstance(view.crews_x[i], dict): ...] of the loop of
    [LeaveEventButton.callback], on the list of team [t]; the state is the
    view together with the flag [removed]. *)
Definition leave_slot (user : User) (t : Team) (i : nat)
    (s : EventSignupView * bool) : PyExn + (EventSignupView * bool) :=
  match slot_list t (fst s) !! i with
  | None => inl IndexError
  | Some slot =>
      if user_in user (slot_members (fst s) slot)
      then inr (set_slot_list t (<[i := None]> (slot_list t (fst s))) (fst s), true)
      else inr s
  end.

Fixpoint leave_loop (user : User) (range : list nat)
    (s : EventSignupView * bool) : option PyExn * (EventSignupView * bool) :=
  match range with
  | [] => (None, s)
  | i :: rest =>
      match leave_slot user TeamA i s with
      | inl e => (Some e, s)
      | inr s1 =>
          match leave_slot user TeamB i s1 with
          | inl e => (Some e, s1)
          | inr s2 => leave_loop user rest s2
          end
      end
  end.

Definition LeaveEventButton_callback (user : User)
    (v : EventSignupView) : Outcome * EventSignupView :=
  let s0 :=
    if member_eqb (Some user) (commander_a v) then (set_commander_a None v, true)
    else if member_eqb (Some user) (commander_b v) then (set_commander_b None v, true)
    else (v, false) in
  match leave_loop user (seq 0 MAX_CREWS_PER_TEAM) s0 with
  | (Some e, (v1, _)) => (Raised e, v1)
  | (None, (v1, removed)) =>
      if in_pool user (recruits v1) then
        match list_remove user (recruits v1) with
        | Some pool => (Sent RemovedFromEvent, set_recruits pool v1)
        | None => (Raised ValueError, v1)
        end
      else if removed then (Sent RemovedFromEvent, v1)
      else (Sent NotRegistered, v1)
  end.

(** *** Ending the event *)

Inductive Role := RoleCommander | RoleGunner | RoleDriver | RoleRecruit.

(** [(user, team, role, crew_name)] *)
Definition Participant : Type := option User * option Team * Role * option string.

Definition p_user (p : Participant) : option User := fst (fst (fst p)).
Definition p_team (p : Participant) : option Team := snd (fst (fst p)).
Definition p_role (p : Participant) : Role := snd (fst p).
Definition p_crew_name (p : Participant) : option string := snd p.

(** The entries one slot of team [team] adds. *)
Definition crew_entries (v : EventSignupView) (team : Team) (slot : option ref) : list Participant :=
  match slot with
  | Some r =>
      match dicts v !! r with
      | Some crew =>
          (commander crew, Some team, RoleCommander, Some (crew_name crew))
          :: (if negb (member_eqb (gunner crew) (commander crew))
              then [(gunner crew, Some team, RoleGunner, Some (crew_name crew))] else [])
          ++ (if negb (member_eqb (driver crew) (commander crew))
              then [(driver crew, Some team, RoleDriver, Some (crew_name crew))] else [])
      | None => []
      end
  | None => []
  end.

Definition commander_entry (team : Team) (c : option User) : list Participant :=
  match c with
  | Some u => [(Some u, Some team, RoleCommander, None)]
  | None => []
  end.

(** The list [participants] built by [EndEventButton.callback]. *)
Definition participants (v : EventSignupView) : list Participant :=
  commander_entry TeamA (commander_a v)
  ++ commander_entry TeamB (commander_b v)
  ++ flat_map (crew_entries v TeamA) (crews_a v)
  ++ flat_map (crew_entries v TeamB) (crews_b v)
  ++ map (fun recruit => (Some recruit, None, RoleRecruit, None)) (recruits v).

Definition has_team (p : Participant) : bool :=
  match p_team p with Some _ => true | None => false end.

(** What the callback finds around the view while the event is ended. *)
Record Externals := mkExternals {
  (** [get_cog('ArmorEvents')] found the cog *)
  cog_loaded : bool;
  (** the update of the event status raised nothing *)
  status_update_ok : bool;
  (** [self.view_ref.event_type], which names the roles of the event *)
  event_type : string;
  (** the roles of the guild and of its members when the removal starts *)
  guild_state : Roles.Guild;
  (** what Discord does at the call of [remove_event_role] for the
      participant of that index *)
  discord_at : nat -> Roles.Discord;
  (** one entry per channel of the event category, true when its deletion went through *)
  channel_deleted : list bool;
  (** [message.edit] raised nothing *)
  message_edit_ok : bool
}.

(** [for user, team, role_type, crew_name in participants: if team:
    removed = await cog.remove_event_role(user, event_type); if removed:
    role_removal_count += 1], from the participant of index [i] on: the count and
    the guild afterwards.  With [None] as the user, [remove_event_role]
    catches the [AttributeError] of [user.guild] and returns [False]. *)
Fixpoint remove_roles (ext : Externals) (ps : list Participant) (i : nat)
    (g : Roles.Guild) : nat * Roles.Guild :=
  match ps with
  | [] => (0, g)
  | p :: rest =>
      if has_team p then
        match p_user p with
        | Some user =>
            let '(removed, g1) :=
              Roles.remove_event_role (discord_at ext i) user (event_type ext) g in
            let '(count, g2) := remove_roles ext rest (S i) g1 in
            (match removed with Some true => S count | _ => count end, g2)
        | None => remove_roles ext rest (S i) g
        end
      else remove_roles ext rest (S i) g
  end.

(** [any(role.name in ADMIN_ROLES for role in interaction.user.roles)] *)
Definition is_admin (role_names : list string) : bool :=
  existsb (fun name => existsb (String.eqb name) ADMIN_ROLES) role_names.

Definition EndEventButton_callback (role_names : list string) (ext : Externals)
    (v : EventSignupView) : Outcome * EventSignupView :=
  if negb (is_admin role_names) then (Sent OnlyAdmins, v)
  else
    let ps := participants v in
    if cog_loaded ext && truthy_id (event_id v) && negb (status_update_ok ext)
    then (Sent ErrorEndingEvent, v)
    else if negb (cog_loaded ext) && existsb has_team ps
    then (Sent ErrorEndingEvent, v)
    else
      let role_removal_count := fst (remove_roles ext ps 0 (guild_state ext)) in
      let channels_deleted := length (List.filter (fun b : bool => b) (channel_deleted ext)) in
      let v1 := set_children (map (fun item => mkItem (kind item) true) (children v)) v in
      match build_embed v1 with
      | Some _ => (Sent ErrorEndingEvent, v1)
      | None =>
          if negb message || negb (message_edit_ok ext) then (Sent ErrorEndingEvent, v1)
          else (Sent (EventEndedSuccessfully (length ps) role_removal_count channels_deleted),
                v1)
      end.

(** *** Joining with a saved crew: the entry button *)

(** What [JoinWithCrewButton.callback] and the dropdown answer. *)
Inductive CrewLinkResponse :=
| LinkAlreadyRegistered
| CrewSystemUnavailable
| MustBeCrewCommander
| CrewMemberAlreadyRegistered (m : User)
| ShowTeamSelectView (crew : PersistentCrew)
| ShowCrewSelectionView (crews : list PersistentCrew)
| NoAnswer.

(** [for member_id in members: if member_id: member = guild.get_member(member_id);
    if member and is_user_registered(member): ... return] *)
Fixpoint first_registered_id (v : EventSignupView) (ids : list (option Z)) : option User :=
  match ids with
  | [] => None
  | member_id :: rest =>
      if truthy_id member_id then
        match member_id with
        | Some i =>
            match get_member i with
            | Some member =>
                if is_user_registered v member then Some member
                else first_registered_id v rest
            | None => first_registered_id v rest
            end
        | None => first_registered_id v rest
        end
      else first_registered_id v rest
  end.

(** [members = [crew['commander_id'], crew['gunner_id'], crew['driver_id']]] *)
Definition member_ids (crew : PersistentCrew) : list (option Z) :=
  [Some (commander_id crew); gunner_id crew; driver_id crew].

(** The outer loop [for crew in commander_crews]. *)
Fixpoint first_registered_crew_member (v : EventSignupView)
    (crews : list PersistentCrew) : option User :=
  match crews with
  | [] => None
  | crew :: rest =>
      match first_registered_id v (member_ids crew) with
      | Some member => Some member
      | None => first_registered_crew_member v rest
      end
  end.

(** [JoinWithCrewButton.callback]; [crew_cog] is [None] when the crew
    management cog is not loaded, and otherwise holds what
    [get_user_crews(user.id, guild.id)] returns.  The view is only read. *)
Definition JoinWithCrewButton_callback (user : User)
    (crew_cog : option (list PersistentCrew)) (v : EventSignupView) : CrewLinkResponse :=
  if is_user_registered v user then LinkAlreadyRegistered
  else
    match crew_cog with
    | None => CrewSystemUnavailable
    | Some user_crews =>
        let commander_crews :=
          List.filter (fun crew => Z.eqb (commander_id crew) user) user_crews in
        match commander_crews with
        | [] => MustBeCrewCommander
        | first :: others =>
            match first_registered_crew_member v commander_crews with
            | Some member => CrewMemberAlreadyRegistered member
            | None =>
                match others with
                | [] => ShowTeamSelectView first
                | _ :: _ => ShowCrewSelectionView commander_crews
                end
            end
        end
    end.

(** [PersistentCrewDropdown.callback]; [crew_id] is [int(self.values[0])] and
    [crews] the list the selection view was built with. *)
Definition PersistentCrewDropdown_callback (crew_id : Z)
    (crews : list PersistentCrew) : CrewLinkResponse :=
  match find (fun crew => Z.eqb (pc_id crew) crew_id) crews with
  | Some selected_crew => ShowTeamSelectView selected_crew
  | None => NoAnswer
  end.

(** *** Sequences of callbacks *)

(** One callback run on the signup view, whatever its arguments and whatever
    the state of the secondary view it belongs to. *)
Inductive step (v : EventSignupView) : EventSignupView -> Prop :=
| step_commander user team :
    step v (snd (CommanderSelect_callback user team v))
| step_crew_name parent drv value :
    step v (snd (CrewNameModal_on_submit parent drv value v))
| step_join_allies crew team :
    step v (snd (JoinAlliesWithCrewButton_join_with_crew crew team v))
| step_join_axis crew team :
    step v (snd (JoinAxisWithCrewButton_join_with_crew crew team v))
| step_recruit_me user :
    step v (snd (RecruitMeButton_callback user v))
| step_assign_gunner rv :
    step v (snd (AssignGunnerButton_callback rv v))
| step_assign_driver rv :
    step v (snd (AssignDriverButton_callback rv v))
| step_update_gunner values view_parent :
    step v (snd (UpdateGunnerSelect_callback values view_parent v))
| step_update_driver values view_parent :
    step v (snd (UpdateDriverSelect_callback values view_parent v))
| step_leave user :
    step v (snd (LeaveEventButton_callback user v))
| step_end_event role_names ext :
    step v (snd (EndEventButton_callback role_names ext v)).

(** The views a signup view can be in: at its creation, or one callback
    after a view it can be in. *)
Inductive reachable (eid : option Z) : EventSignupView -> Prop :=
| reachable_init : reachable eid (EventSignupView_init eid)
| reachable_step v v' : reachable eid v -> step v v' -> reachable eid v'.

(** ** Properties *)

(** *** Python primitives *)

Lemma member_eqb_eq (a b : option User) : member_eqb a b = true <-> a = b.
Proof.
  destruct a as [x|], b as [y|]; simpl; split; intros H; try congruence.
  - apply Z.eqb_eq in H. congruence.
  - injection H as ->. apply Z.eqb_refl.
Qed.

Lemma member_eqb_neq (a b : option User) : member_eqb a b = false <-> a <> b.
Proof.
  rewrite <- member_eqb_eq. destruct (member_eqb a b); split; congruence.
Qed.

Lemma user_in_spec (user : User) (l : list (option User)) :
  user_in user l = true <-> In (Some user) l.
Proof.
  unfold user_in. rewrite existsb_exists. split.
  - intros (x & Hx & He). apply member_eqb_eq in He. now subst.
  - intros H. exists (Some user). split; [assumption|]. now apply member_eqb_eq.
Qed.

Lemma in_pool_spec (user : User) (l : list User) :
  in_pool user l = true <-> In user l.
Proof.
  unfold in_pool. rewrite existsb_exists. split.
  - intros (x & Hx & He). apply Z.eqb_eq in He. now subst.
  - intros H. exists user. split; [assumption|]. apply Z.eqb_refl.
Qed.

(** *** Field algebra *)

Lemma slot_list_set_slot_list t x v : slot_list t (set_slot_list t x v) = x.
Proof. now destruct t. Qed.

Lemma slot_list_set_dicts t d v : slot_list t (set_dicts d v) = slot_list t v.
Proof. now destruct t. Qed.

Lemma dicts_set_slot_list t x v : dicts (set_slot_list t x v) = dicts v.
Proof. now destruct t. Qed.

Lemma recruits_set_slot_list t x v : recruits (set_slot_list t x v) = recruits v.
Proof. now destruct t. Qed.

Lemma commander_a_set_slot_list t x v : commander_a (set_slot_list t x v) = commander_a v.
Proof. now destruct t. Qed.

Lemma commander_b_set_slot_list t x v : commander_b (set_slot_list t x v) = commander_b v.
Proof. now destruct t. Qed.



(** *** The scan for an empty slot *)

Lemma first_none_seq (slots : list (option ref)) (n s : nat) :
  s + n <= length slots ->
  match first_none slots (seq s n) with
  | inl _ => False
  | inr (Some i) =>
      s <= i < s + n /\ slots !! i = Some None /\
      forall j, s <= j < i -> slots !! j <> Some None
  | inr None => forall j, s <= j < s + n -> slots !! j <> Some None
  end.
Proof.
  revert s. induction n as [|n IH]; intros s Hlen; simpl.
  - intros j Hj. lia.
  - destruct (slots !! s) as [[r|]|] eqn:Hs.
    + specialize (IH (S s) ltac:(lia)).
      destruct (first_none slots (seq (S s) n)) as [e|[i|]]; [assumption| |].
      * destruct IH as (Hi & Hnone & Hlow). split; [lia|]. split; [assumption|].
        intros j Hj. destruct (Nat.eq_dec j s) as [->|Hne].
        -- rewrite Hs. discriminate.
        -- apply Hlow. lia.
      * intros j Hj. destruct (Nat.eq_dec j s) as [->|Hne].
        -- rewrite Hs. discriminate.
        -- apply IH. lia.
    + split; [lia|]. split; [assumption|]. intros j Hj. lia.
    + apply lookup_ge_None in Hs. lia.
Qed.

(** [i] is the lowest index of [slots] that holds [None]. *)
Definition lowest_empty (slots : list (option ref)) (i : nat) : Prop :=
  slots !! i = Some None /\ forall j, j < i -> slots !! j <> Some None.

Lemma first_none_range (slots : list (option ref)) :
  length slots = MAX_CREWS_PER_TEAM ->
  (exists i, first_none slots (seq 0 MAX_CREWS_PER_TEAM) = inr (Some i) /\
             i < MAX_CREWS_PER_TEAM /\ lowest_empty slots i)
  \/ (first_none slots (seq 0 MAX_CREWS_PER_TEAM) = inr None /\
      forall j, slots !! j <> Some None).
Proof.
  intros Hlen.
  pose proof (first_none_seq slots MAX_CREWS_PER_TEAM 0 ltac:(lia)) as H.
  destruct (first_none slots (seq 0 MAX_CREWS_PER_TEAM)) as [e|[i|]]; [contradiction| |].
  - left. exists i. destruct H as (Hi & Hnone & Hlow).
    split; [reflexivity|]. split; [lia|]. split; [assumption|].
    intros j Hj. apply Hlow. lia.
  - right. split; [reflexivity|]. intros j.
    destruct (Nat.lt_ge_cases j MAX_CREWS_PER_TEAM) as [Hj|Hj].
    + apply H. lia.
    + rewrite (proj2 (lookup_ge_None slots j)); [discriminate|lia].
Qed.

Lemma lowest_empty_unique (slots : list (option ref)) (i j : nat) :
  lowest_empty slots i -> lowest_empty slots j -> i = j.
Proof.
  intros [Hi Hli] [Hj Hlj].
  destruct (Nat.lt_trichotomy i j) as [H|[H|H]]; [|assumption|].
  - exfalso. now apply (Hlj i).
  - exfalso. now apply (Hli j).
Qed.

(** *** The refresh of the embed *)

Lemma In_lookup {X} (l : list X) (x : X) : In x l <-> exists j, l !! j = Some x.
Proof. rewrite <- list_elem_of_In. apply list_elem_of_lookup. Qed.

Lemma format_crew_raises v slot e : format_crew v slot = Some e -> e = AttributeError.
Proof.
  unfold format_crew. destruct slot as [r|]; [|discriminate].
  destruct (dicts v !! r) as [crew|]; [|discriminate].
  destruct (commander crew) as [c|], (gunner crew) as [g|], (driver crew) as [d|];
    simpl; repeat match goal with |- context [Z.eqb ?a ?b] => destruct (Z.eqb a b) end;
    simpl; congruence.
Qed.

(** [format_crew] raises exactly on a crew with a member that is [None]. *)
Lemma format_crew_spec v slot :
  format_crew v slot = Some AttributeError <->
  exists r crew, slot = Some r /\ dicts v !! r = Some crew /\
                 In None [commander crew; gunner crew; driver crew].
Proof.
  unfold format_crew. destruct slot as [r|].
  2:{ split; [discriminate|intros (r & crew & H & _); discriminate]. }
  destruct (dicts v !! r) as [crew|] eqn:Hr.
  2:{ split; [discriminate|intros (r' & crew & [= <-] & H & _); congruence]. }
  split.
  - intros H. exists r, crew. split; [reflexivity|]. split; [exact Hr|].
    destruct (commander crew) as [c|], (gunner crew) as [g|], (driver crew) as [d|];
      simpl in *; auto;
      repeat match goal with H : context [Z.eqb ?a ?b] |- _ => destruct (Z.eqb a b) end;
      simpl in *; discriminate.
  - intros (r' & crew' & [= <-] & Hr' & Hin). rewrite Hr in Hr'. injection Hr' as <-.
    destruct (commander crew) as [c|], (gunner crew) as [g|], (driver crew) as [d|];
      simpl in *; try reflexivity;
      try (destruct Hin as [H|[H|[H|[]]]]; discriminate);
      repeat match goal with |- context [Z.eqb ?a ?b] => destruct (Z.eqb a b) end;
      reflexivity.
Qed.

Lemma first_raised_Some results e :
  first_raised results = Some e -> In (Some e) results.
Proof.
  induction results as [|[x|] rest IH]; simpl; [discriminate| |].
  - intros [= ->]. now left.
  - intros H. right. now apply IH.
Qed.

Lemma first_raised_In results :
  (forall e, In (Some e) results -> e = AttributeError) ->
  (exists e, In (Some e) results) -> first_raised results = Some AttributeError.
Proof.
  induction results as [|[x|] rest IH]; simpl; intros Hall (e & Hin).
  - destruct Hin.
  - now rewrite (Hall x (or_introl eq_refl)).
  - destruct Hin as [Hin|Hin]; [discriminate|].
    apply IH; [|now exists e]. intros e' He'. apply Hall. now right.
Qed.

Lemma build_embed_raises v e : build_embed v = Some e -> e = AttributeError.
Proof.
  unfold build_embed. intros H. apply first_raised_Some in H.
  apply in_app_or in H. destruct H as [H|H]; apply in_map_iff in H;
    destruct H as (slot & H & _); exact (format_crew_raises v slot e H).
Qed.

(** [build_embed] raises exactly when some slot holds a crew with a member
    that is [None]. *)
Lemma build_embed_spec v :
  build_embed v = Some AttributeError <->
  exists t j r crew,
    slot_list t v !! j = Some (Some r) /\ dicts v !! r = Some crew /\
    In None [commander crew; gunner crew; driver crew].
Proof.
  unfold build_embed. split.
  - intros H. apply first_raised_Some in H. apply in_app_or in H.
    destruct H as [H|H]; apply in_map_iff in H; destruct H as (slot & H & Hin);
      apply format_crew_spec in H; destruct H as (r & crew & -> & Hr & Hnone);
      apply In_lookup in Hin; destruct Hin as [j Hj];
      [exists TeamA, j, r, crew|exists TeamB, j, r, crew]; auto.
  - intros (t & j & r & crew & Hj & Hr & Hnone). apply first_raised_In.
    + intros e H. apply in_app_or in H. destruct H as [H|H]; apply in_map_iff in H;
        destruct H as (slot & H & _); exact (format_crew_raises v slot e H).
    + exists AttributeError. apply in_or_app.
      assert (Hf : format_crew v (Some r) = Some AttributeError)
        by (apply format_crew_spec; now exists r, crew).
      destruct t; [left|right]; apply in_map_iff; exists (Some r);
        (split; [exact Hf|]); apply In_lookup; now exists j.
Qed.


(** *** Allocation of a slot *)

(** The two buttons that join with a saved crew run the same body. *)
Lemma join_with_crew_same crew team v :
  JoinAxisWithCrewButton_join_with_crew crew team v
  = JoinAlliesWithCrewButton_join_with_crew crew team v.
Proof. reflexivity. Qed.

(** [crew] has been written into the lowest empty slot of [team], and no
    other slot of the team has changed. *)
Definition written_first_fit (team : Team) (v v' : EventSignupView) (crew : Crew) : Prop :=
  exists i r,
    i < MAX_CREWS_PER_TEAM /\ lowest_empty (slot_list team v) i /\
    slot_list team v' !! i = Some (Some r) /\
    dicts v' !! r = Some crew /\
    forall j, j <> i -> slot_list team v' !! j = slot_list team v !! j.

Lemma allocate_written team v i crew :
  length (slot_list team v) = MAX_CREWS_PER_TEAM ->
  i < MAX_CREWS_PER_TEAM ->
  lowest_empty (slot_list team v) i ->
  written_first_fit team v
    (set_slot_list team (<[i := Some (length (dicts v))]> (slot_list team v))
       (set_dicts (dicts v ++ [crew]) v))
    crew.
Proof.
  intros Hlen Hi Hlow. exists i, (length (dicts v)).
  rewrite slot_list_set_slot_list, dicts_set_slot_list. simpl.
  split; [assumption|]. split; [assumption|]. split; [|split].
  - apply list_lookup_insert_eq. lia.
  - rewrite lookup_app_r by lia. now rewrite Nat.sub_diag.
  - intros j Hj. now apply list_lookup_insert_ne.
Qed.

Lemma on_submit_cases parent drv value v :
  length (slot_list (csv_team parent) v) = MAX_CREWS_PER_TEAM ->
  (exists i name,
      i < MAX_CREWS_PER_TEAM /\ lowest_empty (slot_list (csv_team parent) v) i /\
      CrewNameModal_on_submit parent drv value v
      = (Sent (CrewRegistered name (csv_team parent)),
         set_slot_list (csv_team parent)
           (<[i := Some (length (dicts v))]> (slot_list (csv_team parent) v))
           (set_dicts
              (dicts v ++ [mkCrew (Some (csv_commander parent)) name (csv_gunner parent)
                             (Some drv) None]) v)))
  \/ ((forall j, slot_list (csv_team parent) v !! j <> Some None) /\
      CrewNameModal_on_submit parent drv value v = (Sent TeamFull, v)).
Proof.
  intros Hlen. unfold CrewNameModal_on_submit.
  destruct (first_none_range _ Hlen) as [(i & -> & Hi & Hlow)|[-> Hfull]].
  - left. eexists i, _. split; [assumption|]. split; [assumption|]. reflexivity.
  - right. split; [assumption|reflexivity].
Qed.

Lemma join_with_crew_cases crew team v :
  length (slot_list team v) = MAX_CREWS_PER_TEAM ->
  (exists m, first_registered v (profile_members crew) = Some m /\
             JoinAlliesWithCrewButton_join_with_crew crew team v
             = (Sent (MemberAlreadyRegistered m), v))
  \/ (first_registered v (profile_members crew) = None /\
      exists i entry,
        i < MAX_CREWS_PER_TEAM /\ lowest_empty (slot_list team v) i /\
        persistent_crew_id entry = Some (pc_id crew) /\
        [commander entry; gunner entry; driver entry] = profile_members crew /\
        JoinAlliesWithCrewButton_join_with_crew crew team v
        = (refresh_then (CrewJoined (pc_crew_name crew) team)
             (set_slot_list team (<[i := Some (length (dicts v))]> (slot_list team v))
                (set_dicts (dicts v ++ [entry]) v)),
           set_slot_list team (<[i := Some (length (dicts v))]> (slot_list team v))
             (set_dicts (dicts v ++ [entry]) v)))
  \/ (first_registered v (profile_members crew) = None /\
      (forall j, slot_list team v !! j <> Some None) /\
      JoinAlliesWithCrewButton_join_with_crew crew team v = (Sent TeamFull, v)).
Proof.
  intros Hlen. unfold JoinAlliesWithCrewButton_join_with_crew.
  fold (profile_members crew).
  destruct (first_registered v (profile_members crew)) as [m|] eqn:Hreg.
  - left. exists m. split; reflexivity.
  - right. destruct (first_none_range _ Hlen) as [(i & -> & Hi & Hlow)|[-> Hfull]].
    + left. split; [reflexivity|]. eexists i, _.
      split; [assumption|]. split; [assumption|]. split; [|split]; [| |reflexivity];
        reflexivity.
    + right. split; [reflexivity|]. split; [assumption|reflexivity].
Qed.




(** *** Joining with a saved crew *)


Lemma first_registered_None v members :
  first_registered v members = None <->
  forall m, In (Some m) members -> is_user_registered v m = false.
Proof.
  induction members as [|[x|] rest IH]; simpl.
  - split; [intros _ m []|reflexivity].
  - destruct (is_user_registered v x) eqn:Hx.
    + split; [discriminate|]. intros H. specialize (H x (or_introl eq_refl)). congruence.
    + rewrite IH. split.
      * intros H m [[= <-]|Hin]; [assumption|now apply H].
      * intros H m Hin. apply H. now right.
  - rewrite IH. split.
    + intros H m [Hm|Hin]; [discriminate|now apply H].
    + intros H m Hin. apply H. now right.
Qed.

(** C8. When the faction has no empty slot, direct crew creation answers
    that the team is full and leaves the view as it was; so does the join
    with a saved crew whenever it gets to the scan for a slot (none of its
    members is registered), and it never changes the view. *)
Theorem team_full_no_change (team : Team) (v : EventSignupView) :
  length (slot_list team v) = MAX_CREWS_PER_TEAM ->
  (forall i, i < MAX_CREWS_PER_TEAM -> slot_list team v !! i <> Some None) ->
  (forall parent drv value,
      csv_team parent = team ->
      CrewNameModal_on_submit parent drv value v = (Sent TeamFull, v))
  /\ (forall join crew,
         In join [JoinAlliesWithCrewButton_join_with_crew;
                  JoinAxisWithCrewButton_join_with_crew] ->
         snd (join crew team v) = v /\
         (first_registered v (profile_members crew) = None ->
          join crew team v = (Sent TeamFull, v))).
Proof.
  intros Hlen Hfull. split.
  - intros parent drv value <-.
    destruct (on_submit_cases parent drv value v Hlen)
      as [(i & name & Hi & [Hnone _] & _)|[_ Heq]]; [|exact Heq].
    exfalso. now apply (Hfull i).
  - intros join crew Hjoin.
    assert (Hsame : join crew team v = JoinAlliesWithCrewButton_join_with_crew crew team v).
    { destruct Hjoin as [<-|[<-|[]]]; reflexivity. }
    rewrite Hsame.
    destruct (join_with_crew_cases crew team v Hlen)
      as [(m & Hm & Heq)|[(_ & i & entry & Hi & [Hnone _] & _)|(Hreg & _ & Heq)]].
    + rewrite Heq. split; [reflexivity|]. congruence.
    + exfalso. now apply (Hfull i).
    + rewrite Heq. split; reflexivity.
Qed.


(** *** Registration *)

(** Both slot arrays keep the length they are created with. *)
Definition well_formed (v : EventSignupView) : Prop :=
  length (crews_a v) = MAX_CREWS_PER_TEAM /\ length (crews_b v) = MAX_CREWS_PER_TEAM.

Lemma well_formed_slot_list t v :
  well_formed v -> length (slot_list t v) = MAX_CREWS_PER_TEAM.
Proof. intros [Ha Hb]. now destruct t. Qed.

Lemma slot_members_Some v slot x :
  In x (slot_members v slot) ->
  exists r crew, slot = Some r /\ dicts v !! r = Some crew /\
                 In x [commander crew; gunner crew; driver crew].
Proof.
  unfold slot_members. destruct slot as [r|]; [|intros []].
  destruct (dicts v !! r) as [crew|] eqn:Hr; [|intros []].
  intros H. now exists r, crew.
Qed.

Lemma slot_members_ref v r crew :
  dicts v !! r = Some crew ->
  slot_members v (Some r) = [commander crew; gunner crew; driver crew].
Proof. intros H. unfold slot_members. now rewrite H. Qed.

Lemma slot_members_dicts v v' slot :
  dicts v' = dicts v -> slot_members v' slot = slot_members v slot.
Proof. intros H. unfold slot_members. now rewrite H. Qed.

(** The places where [is_user_registered] finds a user. *)
Definition in_slot (v : EventSignupView) (user : User) (t : Team) (j : nat) : Prop :=
  exists r crew,
    slot_list t v !! j = Some (Some r) /\ dicts v !! r = Some crew /\
    In (Some user) [commander crew; gunner crew; driver crew].

Lemma existsb_slots v user (slots : list (option ref)) :
  existsb (fun crew => user_in user (slot_members v crew)) slots = true <->
  exists j r crew,
    slots !! j = Some (Some r) /\ dicts v !! r = Some crew /\
    In (Some user) [commander crew; gunner crew; driver crew].
Proof.
  rewrite existsb_exists. split.
  - intros (slot & Hin & Hu). apply user_in_spec in Hu.
    destruct (slot_members_Some _ _ _ Hu) as (r & crew & -> & Hr & Hm).
    apply In_lookup in Hin. destruct Hin as [j Hj]. now exists j, r, crew.
  - intros (j & r & crew & Hj & Hr & Hm). exists (Some r). split.
    + apply In_lookup. now exists j.
    + apply user_in_spec. now rewrite (slot_members_ref _ _ _ Hr).
Qed.

Lemma is_user_registered_spec v user :
  is_user_registered v user = true <->
  commander_a v = Some user \/ commander_b v = Some user
  \/ (exists t j, in_slot v user t j)
  \/ In user (recruits v).
Proof.
  unfold is_user_registered.
  destruct (user_in user [commander_a v; commander_b v]) eqn:Hc.
  { apply user_in_spec in Hc. split; [intros _|reflexivity].
    destruct Hc as [Hc|[Hc|[]]]; [left|right; left]; now symmetry. }
  assert (Hnc : ~ (commander_a v = Some user \/ commander_b v = Some user)).
  { intros H. apply not_true_iff_false in Hc. apply Hc. apply user_in_spec.
    destruct H as [H|H]; rewrite <- H; simpl; auto. }
  simpl existsb at 1. rewrite orb_false_r.
  destruct (existsb _ (crews_a v)) eqn:Ha.
  { apply existsb_slots in Ha. destruct Ha as (j & r & crew & H).
    split; [intros _|reflexivity]. right; right; left. exists TeamA, j, r, crew. exact H. }
  destruct (existsb _ (crews_b v)) eqn:Hb.
  { apply existsb_slots in Hb. destruct Hb as (j & r & crew & H).
    split; [intros _|reflexivity]. right; right; left. exists TeamB, j, r, crew. exact H. }
  simpl. rewrite in_pool_spec. split; [now do 3 right|].
  intros [H|[H|[(t & j & r & crew & H)|H]]];
    [exfalso; apply Hnc; now left|exfalso; apply Hnc; now right| |assumption].
  exfalso. destruct t.
  - apply not_true_iff_false in Ha. apply Ha. apply existsb_slots. now exists j, r, crew.
  - apply not_true_iff_false in Hb. apply Hb. apply existsb_slots. now exists j, r, crew.
Qed.

Lemma not_registered_slot v user t j slot :
  is_user_registered v user = false ->
  slot_list t v !! j = Some slot ->
  user_in user (slot_members v slot) = false.
Proof.
  intros Hreg Hj. apply not_true_iff_false. intros Hin.
  apply not_true_iff_false in Hreg. apply Hreg. apply is_user_registered_spec.
  right; right; left. apply user_in_spec in Hin.
  destruct (slot_members_Some _ _ _ Hin) as (r & crew & -> & Hr & Hm).
  now exists t, j, r, crew.
Qed.

(** *** Leaving *)

(** What the loop of [LeaveEventButton.callback] leaves in a slot. *)
Definition vacated (user : User) (v : EventSignupView) (slot : option ref) : option ref :=
  if user_in user (slot_members v slot) then None else slot.

(** The fields a loop over the slots does not write. *)
Definition same_outside_slots (v v' : EventSignupView) : Prop :=
  event_id v' = event_id v /\ commander_a v' = commander_a v /\
  commander_b v' = commander_b v /\ recruits v' = recruits v /\
  children v' = children v /\ dicts v' = dicts v.

Lemma set_slot_list_id t v : set_slot_list t (slot_list t v) v = v.
Proof. now destruct t, v. Qed.

Lemma same_outside_set_slot_list t x v : same_outside_slots v (set_slot_list t x v).
Proof. destruct t; repeat split. Qed.

Lemma same_outside_trans v1 v2 v3 :
  same_outside_slots v1 v2 -> same_outside_slots v2 v3 -> same_outside_slots v1 v3.
Proof.
  unfold same_outside_slots.
  intros (H1 & H2 & H3 & H4 & H5 & H6) (K1 & K2 & K3 & K4 & K5 & K6).
  repeat split; congruence.
Qed.

Lemma view_eq (v v' : EventSignupView) :
  same_outside_slots v v' -> crews_a v' = crews_a v -> crews_b v' = crews_b v -> v' = v.
Proof.
  destruct v, v'. unfold same_outside_slots. simpl.
  intros (-> & -> & -> & -> & -> & ->) -> ->. reflexivity.
Qed.

Lemma leave_slot_inr user t i v b slot :
  slot_list t v !! i = Some slot ->
  leave_slot user t i (v, b)
  = inr (set_slot_list t (<[i := vacated user v slot]> (slot_list t v)) v,
         b || user_in user (slot_members v slot)).
Proof.
  intros H. unfold leave_slot, vacated. simpl. rewrite H.
  destruct (user_in user (slot_members v slot)).
  - now rewrite orb_true_r.
  - rewrite list_insert_id by assumption. now rewrite set_slot_list_id, orb_false_r.
Qed.

(** The slots of [v'] are those of [v], the ones at an index from [lo] up
    to [hi], excluded, having been vacated. *)
Definition vacated_between (user : User) (lo hi : nat) (v v' : EventSignupView) : Prop :=
  forall t j,
    length (slot_list t v') = length (slot_list t v) /\
    (~ (lo <= j < hi) -> slot_list t v' !! j = slot_list t v !! j) /\
    (forall slot, lo <= j < hi -> slot_list t v !! j = Some slot ->
                  slot_list t v' !! j = Some (vacated user v slot)).

(** Some slot at an index from [lo] up to [hi] holds [user]. *)
Definition found_between (user : User) (lo hi : nat) (v : EventSignupView) : Prop :=
  exists t j slot,
    lo <= j < hi /\ slot_list t v !! j = Some slot /\
    user_in user (slot_members v slot) = true.

Lemma leave_loop_seq (user : User) (n : nat) :
  forall s v b,
    s + n <= length (crews_a v) -> s + n <= length (crews_b v) ->
    exists v' b',
      leave_loop user (seq s n) (v, b) = (None, (v', b')) /\
      same_outside_slots v v' /\
      vacated_between user s (s + n) v v' /\
      (b' = true <-> b = true \/ found_between user s (s + n) v).
Proof.
  induction n as [|n IH]; intros s v b Ha Hb.
  - exists v, b. split; [reflexivity|]. split; [repeat split|]. split.
    + intros t j. split; [reflexivity|]. split; [reflexivity|]. intros slot Hj. lia.
    + split; [now left|]. intros [H|(t & j & slot & Hj & _)]; [assumption|lia].
  - cbn [seq leave_loop].
    destruct (lookup_lt_is_Some_2 (crews_a v) s ltac:(lia)) as [sa Hsa].
    rewrite (leave_slot_inr user TeamA s v b sa Hsa).
    set (v1 := set_slot_list TeamA (<[s := vacated user v sa]> (slot_list TeamA v)) v).
    set (b1 := b || user_in user (slot_members v sa)).
    destruct (lookup_lt_is_Some_2 (crews_b v) s ltac:(lia)) as [sb Hsb].
    assert (Hsb1 : slot_list TeamB v1 !! s = Some sb) by exact Hsb.
    rewrite (leave_slot_inr user TeamB s v1 b1 sb Hsb1).
    set (v2 := set_slot_list TeamB (<[s := vacated user v1 sb]> (slot_list TeamB v1)) v1).
    set (b2 := b1 || user_in user (slot_members v1 sb)).
    assert (Hout : same_outside_slots v v2) by (repeat split).
    assert (Hd1 : dicts v1 = dicts v) by reflexivity.
    assert (Ha2 : crews_a v2 = <[s := vacated user v sa]> (crews_a v)) by reflexivity.
    assert (Hb2 : crews_b v2 = <[s := vacated user v sb]> (crews_b v)).
    { unfold v2, vacated. simpl. now rewrite (slot_members_dicts v v1 sb Hd1). }
    destruct (IH (S s) v2 b2) as (v' & b' & Heq & Hout' & Hvac & Hflag).
    { rewrite Ha2, length_insert. lia. }
    { rewrite Hb2, length_insert. lia. }
    exists v', b'. split; [exact Heq|]. split; [exact (same_outside_trans _ _ _ Hout Hout')|].
    assert (Hmem : forall slot, slot_members v2 slot = slot_members v slot).
    { intros slot. now apply slot_members_dicts. }
    assert (Hvac2 : forall slot, vacated user v2 slot = vacated user v slot).
    { intros slot. unfold vacated. now rewrite Hmem. }
    assert (Hs2 : forall t, slot_list t v2
                            = <[s := vacated user v (match t with TeamA => sa | TeamB => sb end)]>
                                (slot_list t v)).
    { intros []; assumption. }
    assert (Hst : forall t, slot_list t v !! s
                            = Some (match t with TeamA => sa | TeamB => sb end)).
    { intros []; assumption. }
    split.
    + intros t j. destruct (Hvac t j) as (Hlen & Hsame & Hin).
      rewrite Hs2 in Hlen, Hsame, Hin. rewrite length_insert in Hlen.
      split; [exact Hlen|]. split.
      * intros Hj. rewrite Hsame by lia. apply list_lookup_insert_ne. lia.
      * intros slot Hj Hslot. destruct (Nat.eq_dec j s) as [->|Hne].
        -- rewrite Hsame by lia. rewrite Hst in Hslot. injection Hslot as <-.
           apply list_lookup_insert_eq. destruct t; simpl; lia.
        -- rewrite <- Hvac2. apply Hin; [lia|].
           rewrite list_lookup_insert_ne by lia. exact Hslot.
    + rewrite Hflag. unfold b2, b1. rewrite (slot_members_dicts v v1 sb Hd1).
      rewrite !orb_true_iff. split.
      * intros [[[H|H]|H]|(t & j & slot & Hj & Hslot & Hu)].
        -- now left.
        -- right. exists TeamA, s, sa. split; [lia|]. split; assumption.
        -- right. exists TeamB, s, sb. split; [lia|]. split; assumption.
        -- right. rewrite Hs2 in Hslot. rewrite list_lookup_insert_ne in Hslot by lia.
           rewrite Hmem in Hu. exists t, j, slot. split; [lia|]. split; assumption.
      * intros [H|(t & j & slot & Hj & Hslot & Hu)]; [now left; left; left|].
        destruct (Nat.eq_dec j s) as [->|Hne].
        -- rewrite Hst in Hslot. injection Hslot as <-.
           destruct t; [left; left; right|left; right]; assumption.
        -- right. exists t, j, slot. split; [lia|]. split.
           ++ rewrite Hs2. rewrite list_lookup_insert_ne by lia. exact Hslot.
           ++ now rewrite Hmem.
Qed.

Lemma list_remove_In user l l' :
  list_remove user l = Some l' -> forall m, In m l' -> In m l.
Proof.
  revert l'. induction l as [|x l IH]; simpl; [discriminate|]. intros l'.
  destruct (Z.eqb x user).
  - intros [= <-] m Hm. now right.
  - destruct (list_remove user l) as [r|]; [|discriminate].
    intros [= <-] m [<-|Hm]; [now left|]. right. now apply (IH r).
Qed.

Lemma list_remove_in_pool user l :
  in_pool user l = true -> exists l', list_remove user l = Some l'.
Proof.
  induction l as [|x l IH]; simpl; [discriminate|].
  rewrite Z.eqb_sym. destruct (Z.eqb x user); [now eexists|].
  simpl. intros H. destruct (IH H) as [l' ->]. now eexists.
Qed.



(** C9. Leaving while registered nowhere answers that the user is not
    registered and leaves every field of the view as it was. *)
Theorem leave_unregistered (user : User) (v : EventSignupView) :
  well_formed v ->
  is_user_registered v user = false ->
  LeaveEventButton_callback user v = (Sent NotRegistered, v).
Proof.
  intros [Hla Hlb] Hreg.
  assert (Hn : ~ (commander_a v = Some user \/ commander_b v = Some user
                  \/ (exists t j, in_slot v user t j) \/ In user (recruits v))).
  { rewrite <- is_user_registered_spec. congruence. }
  unfold LeaveEventButton_callback.
  assert (Hca : member_eqb (Some user) (commander_a v) = false).
  { apply member_eqb_neq. intros H. apply Hn. now left. }
  assert (Hcb : member_eqb (Some user) (commander_b v) = false).
  { apply member_eqb_neq. intros H. apply Hn. right. now left. }
  rewrite Hca, Hcb.
  destruct (leave_loop_seq user MAX_CREWS_PER_TEAM 0 v false)
    as (v1 & b1 & -> & Hout & Hvac & Hflag); [lia|lia|].
  simpl in Hvac.
  assert (Hslots : forall t, slot_list t v1 = slot_list t v).
  { intros t. apply list_eq. intros j. destruct (Hvac t j) as (_ & Hsame & Hin).
    destruct (slot_list t v !! j) as [slot|] eqn:Hj.
    - assert (Hlt : j < MAX_CREWS_PER_TEAM).
      { apply lookup_lt_Some in Hj. destruct t; simpl in Hj; lia. }
      rewrite (Hin slot ltac:(lia) eq_refl). unfold vacated.
      now rewrite (not_registered_slot v user t j slot Hreg Hj).
    - destruct (Nat.lt_ge_cases j MAX_CREWS_PER_TEAM) as [Hlt|Hge].
      + apply lookup_ge_None in Hj. destruct t; simpl in Hj; lia.
      + apply Hsame. lia. }
  assert (Hv1 : v1 = v).
  { apply view_eq; [assumption|apply (Hslots TeamA)|apply (Hslots TeamB)]. }
  subst v1.
  assert (Hb1 : b1 = false).
  { apply not_true_iff_false. intros H. apply Hflag in H.
    destruct H as [H|(t & j & slot & _ & Hj & Hu)]; [discriminate|].
    rewrite (not_registered_slot v user t j slot Hreg Hj) in Hu. discriminate. }
  subst b1.
  assert (Hpool : in_pool user (recruits v) = false).
  { apply not_true_iff_false. rewrite in_pool_spec. intros H. apply Hn. now do 3 right. }
  now rewrite Hpool.
Qed.


(** *** Editing a position *)

(** The callback of the select that edits position [p], were it given an
    [EditCrewView] as its [view_parent]. *)
Definition update_select (p : Position) (values : list User) (ev : EditCrewView) :=
  match p with
  | Gunner => UpdateGunnerSelect_callback values (AnEditCrewView ev)
  | Driver => UpdateDriverSelect_callback values (AnEditCrewView ev)
  end.


Definition position (p : Position) (crew : Crew) : option User :=
  match p with Gunner => gunner crew | Driver => driver crew end.



Lemma commander_of_slot_registered v t j r crew c :
  slot_list t v !! j = Some (Some r) -> dicts v !! r = Some crew ->
  commander crew = Some c -> is_user_registered v c = true.
Proof.
  intros Hj Hr Hc. apply is_user_registered_spec. right; right; left.
  exists t, j, r, crew. split; [assumption|]. split; [assumption|].
  rewrite Hc. now left.
Qed.

(** *** Ending the event *)

(** The slot holds a crew. *)
Definition occupied (slot : option ref) : bool :=
  match slot with Some _ => true | None => false end.

Lemma In_commander_entry t c p :
  In p (commander_entry t c) <->
  exists u, c = Some u /\ p = (Some u, Some t, RoleCommander, None).
Proof.
  destruct c as [u|]; simpl; split.
  - intros [<-|[]]. now exists u.
  - intros (u' & [= <-] & ->). now left.
  - intros [].
  - intros (u & H & _). discriminate.
Qed.

Lemma In_crew_entries v t slot p :
  In p (crew_entries v t slot) <->
  exists r crew,
    slot = Some r /\ dicts v !! r = Some crew /\
    (p = (commander crew, Some t, RoleCommander, Some (crew_name crew))
     \/ (gunner crew <> commander crew /\
         p = (gunner crew, Some t, RoleGunner, Some (crew_name crew)))
     \/ (driver crew <> commander crew /\
         p = (driver crew, Some t, RoleDriver, Some (crew_name crew)))).
Proof.
  unfold crew_entries. destruct slot as [r|].
  2:{ split; [intros []|intros (r & crew & H & _); discriminate]. }
  destruct (dicts v !! r) as [crew|] eqn:Hr.
  2:{ split; [intros []|intros (r' & crew & [= <-] & H & _); congruence]. }
  assert (Hg := member_eqb_neq (gunner crew) (commander crew)).
  assert (Hd := member_eqb_neq (driver crew) (commander crew)).
  split.
  - intros Hin. exists r, crew. split; [reflexivity|]. split; [exact Hr|].
    destruct Hin as [<-|Hin]; [now left|]. apply in_app_or in Hin.
    destruct Hin as [Hin|Hin].
    + destruct (member_eqb (gunner crew) (commander crew)); simpl in Hin; [contradiction|].
      destruct Hin as [<-|[]]. right; left. split; [now apply Hg|reflexivity].
    + destruct (member_eqb (driver crew) (commander crew)); simpl in Hin; [contradiction|].
      destruct Hin as [<-|[]]. right; right. split; [now apply Hd|reflexivity].
  - intros (r' & crew' & [= <-] & Hr' & H). rewrite Hr in Hr'. injection Hr' as <-.
    destruct H as [->|[[Hne ->]|[Hne ->]]]; [now left| |]; right; apply in_or_app.
    + left. rewrite (proj2 Hg Hne). now left.
    + right. rewrite (proj2 Hd Hne). now left.
Qed.

Lemma In_flat_map_entries v t slots p :
  In p (flat_map (crew_entries v t) slots) <->
  exists j r crew,
    slots !! j = Some (Some r) /\ dicts v !! r = Some crew /\
    (p = (commander crew, Some t, RoleCommander, Some (crew_name crew))
     \/ (gunner crew <> commander crew /\
         p = (gunner crew, Some t, RoleGunner, Some (crew_name crew)))
     \/ (driver crew <> commander crew /\
         p = (driver crew, Some t, RoleDriver, Some (crew_name crew)))).
Proof.
  rewrite in_flat_map. split.
  - intros (slot & Hslot & Hin). apply In_crew_entries in Hin.
    destruct Hin as (r & crew & -> & Hr & H). apply In_lookup in Hslot.
    destruct Hslot as [j Hj]. now exists j, r, crew.
  - intros (j & r & crew & Hj & Hr & H). exists (Some r). split.
    + apply In_lookup. now exists j.
    + apply In_crew_entries. now exists r, crew.
Qed.

Lemma flat_map_occupied v t slots :
  flat_map (crew_entries v t) slots
  = flat_map (crew_entries v t) (List.filter occupied slots).
Proof.
  induction slots as [|[r|] slots IH]; simpl; [reflexivity| |assumption].
  now rewrite IH.
Qed.

Lemma crew_entries_distinct v t r crew :
  dicts v !! r = Some crew ->
  gunner crew <> commander crew -> driver crew <> commander crew ->
  crew_entries v t (Some r)
  = [(commander crew, Some t, RoleCommander, Some (crew_name crew));
     (gunner crew, Some t, RoleGunner, Some (crew_name crew));
     (driver crew, Some t, RoleDriver, Some (crew_name crew))].
Proof.
  intros Hr Hg Hd. unfold crew_entries. rewrite Hr.
  now rewrite (proj2 (member_eqb_neq _ _) Hg), (proj2 (member_eqb_neq _ _) Hd).
Qed.

(** The participant list in the words of the specification: the positions
    of a crew that are recorded are the commander, and the gunner and the
    driver unless they equal the commander. *)
Definition recorded_positions (crew : Crew) : list (option User * Role) :=
  (commander crew, RoleCommander)
  :: List.filter (fun position => negb (member_eqb (fst position) (commander crew)))
       [(gunner crew, RoleGunner); (driver crew, RoleDriver)].

Definition seat_spec (team : Team) (c : option User) : list Participant :=
  map (fun u => (Some u, Some team, RoleCommander, None))
    (match c with Some u => [u] | None => [] end).

Definition slot_spec (v : EventSignupView) (team : Team) (slot : option ref) :
    list Participant :=
  match slot with
  | Some r =>
      match dicts v !! r with
      | Some crew =>
          map (fun position => (fst position, Some team, snd position, Some (crew_name crew)))
            (recorded_positions crew)
      | None => []
      end
  | None => []
  end.

Definition finalize_spec (v : EventSignupView) : list Participant :=
  seat_spec TeamA (commander_a v) ++ seat_spec TeamB (commander_b v)
  ++ concat (map (slot_spec v TeamA) (crews_a v))
  ++ concat (map (slot_spec v TeamB) (crews_b v))
  ++ map (fun u => (Some u, None, RoleRecruit, None)) (recruits v).

Lemma crew_entries_slot_spec v t slot : crew_entries v t slot = slot_spec v t slot.
Proof.
  unfold crew_entries, slot_spec, recorded_positions.
  destruct slot as [r|]; [|reflexivity].
  destruct (dicts v !! r) as [crew|]; [|reflexivity]. simpl.
  destruct (negb (member_eqb (gunner crew) (commander crew)));
    destruct (negb (member_eqb (driver crew) (commander crew))); reflexivity.
Qed.

Lemma member_eqb_refl (a : option User) : member_eqb a a = true.
Proof. now apply member_eqb_eq. Qed.

(** C5. The participant list is the one the specification describes, entry
    by entry and in its order: the commander of each faction that has one,
    with the role of commander and no crew name; for every occupied slot the
    commander of the crew with the crew name, the gunner unless the gunner
    is the commander, the driver unless the driver is the commander; and
    every recruit with no faction; nothing else.  In the entries of a slot,
    the commander of the crew is the user of exactly one, the one with the
    role of commander; a crew whose commander guns and drives adds one
    entry.  With both commanders, one crew whose gunner and driver differ
    from its commander and two recruits, the list has seven entries and five
    of them carry a faction. *)
Theorem finalize_participants (v : EventSignupView) :
  (forall p,
      In p (participants v) <->
      (exists u, commander_a v = Some u /\ p = (Some u, Some TeamA, RoleCommander, None))
      \/ (exists u, commander_b v = Some u /\ p = (Some u, Some TeamB, RoleCommander, None))
      \/ (exists t j r crew,
             slot_list t v !! j = Some (Some r) /\ dicts v !! r = Some crew /\
             (p = (commander crew, Some t, RoleCommander, Some (crew_name crew))
              \/ (gunner crew <> commander crew /\
                  p = (gunner crew, Some t, RoleGunner, Some (crew_name crew)))
              \/ (driver crew <> commander crew /\
                  p = (driver crew, Some t, RoleDriver, Some (crew_name crew)))))
      \/ (exists u, In u (recruits v) /\ p = (Some u, None, RoleRecruit, None)))
  /\ (forall t r crew,
         dicts v !! r = Some crew ->
         gunner crew = commander crew -> driver crew = commander crew ->
         crew_entries v t (Some r)
         = [(commander crew, Some t, RoleCommander, Some (crew_name crew))])
  /\ (forall a b r crew u1 u2,
         commander_a v = Some a -> commander_b v = Some b ->
         List.filter occupied (crews_a v ++ crews_b v) = [Some r] ->
         dicts v !! r = Some crew ->
         gunner crew <> commander crew -> driver crew <> commander crew ->
         recruits v = [u1; u2] ->
         length (participants v) = 7 /\
         length (List.filter has_team (participants v)) = 5)
  /\ participants v = finalize_spec v
  /\ (forall t r crew,
         dicts v !! r = Some crew ->
         List.filter (fun p => member_eqb (p_user p) (commander crew))
           (crew_entries v t (Some r))
         = [(commander crew, Some t, RoleCommander, Some (crew_name crew))]
         /\ length (crew_entries v t (Some r))
            = 1 + (if member_eqb (gunner crew) (commander crew) then 0 else 1)
              + (if member_eqb (driver crew) (commander crew) then 0 else 1)).
Proof.
  split; [|split; [|split; [|split]]].
  - intros p. unfold participants. rewrite !in_app_iff, !In_commander_entry,
      !In_flat_map_entries, in_map_iff. split.
    + intros [H|[H|[(j & r & crew & H)|[(j & r & crew & H)|(u & Hp & Hu)]]]].
      * now left.
      * right. now left.
      * right; right; left. now exists TeamA, j, r, crew.
      * right; right; left. now exists TeamB, j, r, crew.
      * do 3 right. now exists u.
    + intros [H|[H|[(t & j & r & crew & H)|(u & Hu & Hp)]]].
      * now left.
      * right. now left.
      * destruct t; [right; right; left|do 3 right; left]; now exists j, r, crew.
      * do 4 right. now exists u.
  - intros t r crew Hr Hg Hd. unfold crew_entries. rewrite Hr, Hg, Hd.
    now rewrite (proj2 (member_eqb_eq _ _) eq_refl).
  - intros a b r crew u1 u2 Ha Hb Hocc Hr Hg Hd Hrec.
    unfold participants. rewrite Ha, Hb, Hrec.
    rewrite (flat_map_occupied v TeamA), (flat_map_occupied v TeamB).
    rewrite List.filter_app in Hocc. apply app_eq_unit in Hocc.
    destruct Hocc as [[-> ->]|[-> ->]]; cbn [flat_map];
      rewrite (crew_entries_distinct v _ r crew Hr Hg Hd); split; reflexivity.
  - unfold participants, finalize_spec. rewrite !flat_map_concat_map.
    assert (Hslots : forall t slots,
               map (crew_entries v t) slots = map (slot_spec v t) slots).
    { intros t slots. apply map_ext. intros slot. apply crew_entries_slot_spec. }
    rewrite !Hslots.
    assert (Hseat : forall t c, commander_entry t c = seat_spec t c)
      by (intros t [u|]; reflexivity).
    now rewrite !Hseat.
  - intros t r crew Hr. unfold crew_entries. rewrite Hr.
    cbn [List.filter p_user fst]. rewrite member_eqb_refl.
    destruct (member_eqb (gunner crew) (commander crew)) eqn:Eg;
      destruct (member_eqb (driver crew) (commander crew)) eqn:Ed;
      cbn [negb app List.filter p_user fst length]; rewrite ?Eg, ?Ed; split; reflexivity.
Qed.

(** C4, amended. Ending the event writes none of the roster fields; when
    it answers that the event has ended, every component of the signup
    view is disabled and the count it reports is the length of the
    participant list. *)
Theorem end_event_disables_components (role_names : list string) (ext : Externals)
    (v v' : EventSignupView) (o : Outcome) :
  EndEventButton_callback role_names ext v = (o, v') ->
  (commander_a v' = commander_a v /\ commander_b v' = commander_b v /\
   crews_a v' = crews_a v /\ crews_b v' = crews_b v /\
   recruits v' = recruits v /\ dicts v' = dicts v)
  /\ map kind (children v') = map kind (children v)
  /\ (forall n roles channels,
         o = Sent (EventEndedSuccessfully n roles channels) ->
         n = length (participants v) /\
         forall item, In item (children v') -> disabled item = true).
Proof.
  unfold EndEventButton_callback. intros Hrun.
  assert (Hkind : forall l : list Item,
             map kind (map (fun item => mkItem (kind item) true) l) = map kind l).
  { intros l. rewrite map_map. reflexivity. }
  assert (Hdis : forall (l : list Item) item,
             In item (map (fun item => mkItem (kind item) true) l) -> disabled item = true).
  { intros l item Hin. apply in_map_iff in Hin. destruct Hin as (x & <- & _). reflexivity. }
  destruct (negb (is_admin role_names)).
  { injection Hrun as <- <-. repeat split; discriminate. }
  destruct (cog_loaded ext && truthy_id (event_id v) && negb (status_update_ok ext)).
  { injection Hrun as <- <-. repeat split; discriminate. }
  destruct (negb (cog_loaded ext) && existsb has_team (participants v)).
  { injection Hrun as <- <-. repeat split; discriminate. }
  cbv zeta in Hrun.
  destruct (build_embed _) in Hrun.
  { injection Hrun as <- <-. simpl. split; [repeat split|]. split; [apply Hkind|].
    intros n roles channels H. discriminate. }
  destruct (negb message || negb (message_edit_ok ext)); injection Hrun as <- <-; simpl.
  - split; [repeat split|]. split; [apply Hkind|]. intros n roles channels H. discriminate.
  - split; [repeat split|]. split; [apply Hkind|]. intros n roles channels [= <- _ _].
    split; [reflexivity|]. apply Hdis.
Qed.

(** *** What every reachable view satisfies *)

(** Every reference held by a slot points into the store. *)
Definition refs_in_store (v : EventSignupView) : Prop :=
  forall t j r, slot_list t v !! j = Some (Some r) -> r < length (dicts v).

(** No dict is held by two slots. *)
Definition refs_distinct (v : EventSignupView) : Prop :=
  forall t j t' j' r,
    slot_list t v !! j = Some (Some r) -> slot_list t' v !! j' = Some (Some r) ->
    t = t' /\ j = j'.

(** Nobody commands both factions. *)
Definition commanders_differ (v : EventSignupView) : Prop :=
  forall u, commander_a v = Some u -> commander_b v <> Some u.

Definition consistent (v : EventSignupView) : Prop :=
  well_formed v /\ NoDup (recruits v) /\ refs_in_store v /\ refs_distinct v /\
  commanders_differ v.

(** [v'] has the commanders, slots and pool of [v], and a store as long. *)
Definition same_roster (v v' : EventSignupView) : Prop :=
  commander_a v' = commander_a v /\ commander_b v' = commander_b v /\
  crews_a v' = crews_a v /\ crews_b v' = crews_b v /\
  recruits v' = recruits v /\ length (dicts v') = length (dicts v).

Lemma same_roster_slot_list v v' t :
  same_roster v v' -> slot_list t v' = slot_list t v.
Proof. intros (_ & _ & Ha & Hb & _). now destruct t. Qed.

Lemma consistent_same_roster v v' :
  same_roster v v' -> consistent v -> consistent v'.
Proof.
  intros Hs (Hwf & Hnd & Hin & Hdis & Hcd).
  pose proof (same_roster_slot_list v v') as Hsl.
  destruct Hs as (Ha & Hb & Hca & Hcb & Hr & Hlen).
  assert (Hs : same_roster v v') by (repeat split; assumption).
  split; [|split; [|split; [|split]]].
  - destruct Hwf. split; congruence.
  - now rewrite Hr.
  - intros t j r Hj. rewrite Hlen. apply (Hin t j r). now rewrite <- (Hsl t Hs).
  - intros t j t' j' r Hj Hj'. apply (Hdis t j t' j' r).
    + now rewrite <- (Hsl t Hs).
    + now rewrite <- (Hsl t' Hs).
  - intros u Hu. rewrite Hb. apply Hcd. congruence.
Qed.

Lemma same_roster_refl v : same_roster v v.
Proof. repeat split. Qed.

Lemma same_roster_dict_update r f v : same_roster v (dict_update r f v).
Proof. unfold dict_update. repeat split. simpl. apply length_alter. Qed.

Lemma list_remove_NoDup user l l' :
  list_remove user l = Some l' -> NoDup l -> NoDup l'.
Proof.
  revert l'. induction l as [|x l IH]; simpl; [discriminate|]. intros l'.
  destruct (Z.eqb x user).
  - intros [= <-] H. now apply NoDup_cons in H.
  - destruct (list_remove user l) as [r|] eqn:Hr; [|discriminate].
    intros [= <-] H. apply NoDup_cons in H. destruct H as [Hx Hl].
    apply NoDup_cons. split.
    + intros Hin. apply Hx. apply list_elem_of_In.
      apply list_elem_of_In in Hin. exact (list_remove_In _ _ _ Hr x Hin).
    + now apply IH.
Qed.

Lemma consistent_set_recruits pool v :
  NoDup pool -> consistent v -> consistent (set_recruits pool v).
Proof.
  intros Hnd (Hwf & _ & Hin & Hdis & Hcd).
  split; [exact Hwf|]. split; [exact Hnd|]. split; [exact Hin|].
  split; [exact Hdis|exact Hcd].
Qed.

(** Writing a new dict into an empty slot. *)
Lemma consistent_allocate t i crew v :
  i < MAX_CREWS_PER_TEAM ->
  consistent v ->
  consistent (set_slot_list t (<[i := Some (length (dicts v))]> (slot_list t v))
                (set_dicts (dicts v ++ [crew]) v)).
Proof.
  intros Hi (Hwf & Hnd & Hin & Hdis & Hcd).
  set (v' := set_slot_list t _ _).
  assert (Hlen : length (slot_list t v) = MAX_CREWS_PER_TEAM)
    by now apply well_formed_slot_list.
  assert (Hd : dicts v' = dicts v ++ [crew]).
  { unfold v'. now rewrite dicts_set_slot_list. }
  assert (Hlook : forall t' j r,
             slot_list t' v' !! j = Some (Some r) ->
             (t' = t /\ j = i /\ r = length (dicts v))
             \/ ((t' <> t \/ j <> i) /\ slot_list t' v !! j = Some (Some r))).
  { intros t' j r Hj. unfold v' in Hj.
    destruct t, t'; simpl in Hj, Hlen |- *;
      try (right; split; [left; discriminate|exact Hj]);
      (destruct (Nat.eq_dec j i) as [->|Hne];
       [rewrite list_lookup_insert_eq in Hj by lia; injection Hj as <-; now left
       |rewrite list_lookup_insert_ne in Hj by congruence;
        right; split; [now right|exact Hj]]). }
  split; [|split; [|split; [|split]]].
  - destruct Hwf as [Ha Hb]. unfold v'. destruct t; split; simpl;
      rewrite ?length_insert; assumption.
  - unfold v'. now rewrite recruits_set_slot_list.
  - intros t' j r Hj. rewrite Hd, length_app. simpl.
    destruct (Hlook t' j r Hj) as [(_ & _ & ->)|[_ Hold]]; [lia|].
    pose proof (Hin t' j r Hold). lia.
  - intros t1 j1 t2 j2 r H1 H2.
    destruct (Hlook t1 j1 r H1) as [(-> & -> & ->)|[Hn1 Ho1]];
      destruct (Hlook t2 j2 _ H2) as [(-> & -> & Hr2)|[Hn2 Ho2]].
    + now split.
    + pose proof (Hin t2 j2 _ Ho2). lia.
    + subst r. pose proof (Hin t1 j1 _ Ho1). lia.
    + exact (Hdis t1 j1 t2 j2 r Ho1 Ho2).
  - unfold v'. intros u. rewrite commander_a_set_slot_list, commander_b_set_slot_list.
    apply Hcd.
Qed.

Lemma consistent_commander user team v :
  consistent v -> consistent (snd (CommanderSelect_callback user team v)).
Proof.
  intros Hc. unfold CommanderSelect_callback.
  destruct (is_user_registered v user) eqn:Hreg; [exact Hc|].
  assert (Hn : ~ (commander_a v = Some user \/ commander_b v = Some user
                  \/ (exists t j, in_slot v user t j) \/ In user (recruits v))).
  { rewrite <- is_user_registered_spec. congruence. }
  destruct Hc as (Hwf & Hnd & Hin & Hdis & Hcd).
  destruct team; simpl; (split; [exact Hwf|]); (split; [exact Hnd|]);
    (split; [exact Hin|]); (split; [exact Hdis|]); intros u; simpl.
  - intros [= <-] Hb. apply Hn. right. now left.
  - intros Ha [= <-]. apply Hn. now left.
Qed.

Lemma consistent_crew_name parent drv value v :
  consistent v -> consistent (snd (CrewNameModal_on_submit parent drv value v)).
Proof.
  intros Hc.
  destruct (on_submit_cases parent drv value v)
    as [(i & name & Hi & _ & ->)|[_ ->]]; [|now apply consistent_allocate|exact Hc].
  apply well_formed_slot_list. apply Hc.
Qed.

Lemma consistent_join crew team v :
  consistent v ->
  consistent (snd (JoinAlliesWithCrewButton_join_with_crew crew team v)).
Proof.
  intros Hc.
  destruct (join_with_crew_cases crew team v)
    as [(m & _ & ->)|[(_ & i & entry & Hi & _ & _ & _ & ->)|(_ & _ & ->)]];
    [|exact Hc|now apply consistent_allocate|exact Hc].
  apply well_formed_slot_list. apply Hc.
Qed.

Lemma consistent_recruit_me user v :
  consistent v -> consistent (snd (RecruitMeButton_callback user v)).
Proof.
  intros Hc. unfold RecruitMeButton_callback.
  destruct (is_user_registered v user) eqn:Hreg; [exact Hc|].
  apply consistent_set_recruits; [|exact Hc].
  assert (Hn : ~ In user (recruits v)).
  { intros H. apply not_true_iff_false in Hreg. apply Hreg.
    apply is_user_registered_spec. now do 3 right. }
  destruct Hc as (_ & Hnd & _).
  apply NoDup_app. split; [exact Hnd|]. split.
  - intros x Hx Hx'. apply list_elem_of_In in Hx, Hx'. destruct Hx' as [<-|[]].
    now apply Hn.
  - apply NoDup_singleton.
Qed.

Lemma consistent_assign (set : option User -> Crew -> Crew) (p : Position) rv v o v' :
  match rsv_crew rv with
  | None => (Raised TypeError, v)
  | Some crew =>
      let v1 := dict_update crew (set (rsv_selected_recruit rv)) v in
      match rsv_selected_recruit rv with
      | None => (Raised ValueError, v1)
      | Some recruit =>
          match list_remove recruit (recruits v1) with
          | None => (Raised ValueError, v1)
          | Some pool => (Sent (Recruited (Some recruit) p), set_recruits pool v1)
          end
      end
  end = (o, v') ->
  consistent v -> consistent v'.
Proof.
  intros Hrun Hc. destruct (rsv_crew rv) as [crew|]; [|now injection Hrun as _ <-].
  pose proof (consistent_same_roster _ _
                (same_roster_dict_update crew (set (rsv_selected_recruit rv)) v) Hc) as Hc1.
  destruct (rsv_selected_recruit rv) as [recruit|]; [|now injection Hrun as _ <-].
  simpl in Hrun. destruct (list_remove recruit (recruits v)) as [pool|] eqn:Hrm;
    injection Hrun as _ <-; [|exact Hc1].
  apply consistent_set_recruits; [|exact Hc1].
  apply (list_remove_NoDup _ _ _ Hrm). apply Hc.
Qed.

(** [LeaveEventButton.callback], field by field. *)
Lemma leave_callback_fields user v :
  well_formed v ->
  exists o v',
    LeaveEventButton_callback user v = (o, v') /\
    event_id v' = event_id v /\ children v' = children v /\ dicts v' = dicts v /\
    commander_a v'
    = (if member_eqb (Some user) (commander_a v) then None else commander_a v) /\
    commander_b v'
    = (if member_eqb (Some user) (commander_a v) then commander_b v
       else if member_eqb (Some user) (commander_b v) then None else commander_b v) /\
    (forall t, slot_list t v' = map (vacated user v) (slot_list t v)) /\
    (if in_pool user (recruits v)
     then list_remove user (recruits v) = Some (recruits v')
     else recruits v' = recruits v) /\
    o = (if is_user_registered v user then Sent RemovedFromEvent else Sent NotRegistered).
Proof.
  intros Hwf. pose proof Hwf as [Hla Hlb]. unfold LeaveEventButton_callback.
  set (s0 := if member_eqb (Some user) (commander_a v) then (set_commander_a None v, true)
             else if member_eqb (Some user) (commander_b v) then (set_commander_b None v, true)
             else (v, false)).
  assert (Hs0 : (forall t, slot_list t (fst s0) = slot_list t v) /\
                event_id (fst s0) = event_id v /\ children (fst s0) = children v /\
                dicts (fst s0) = dicts v /\ recruits (fst s0) = recruits v /\
                commander_a (fst s0)
                = (if member_eqb (Some user) (commander_a v) then None else commander_a v) /\
                commander_b (fst s0)
                = (if member_eqb (Some user) (commander_a v) then commander_b v
                   else if member_eqb (Some user) (commander_b v) then None
                        else commander_b v) /\
                snd s0 = user_in user [commander_a v; commander_b v]).
  { unfold s0, user_in. cbn [existsb].
    destruct (member_eqb (Some user) (commander_a v));
      [|destruct (member_eqb (Some user) (commander_b v))]; cbn [fst snd orb];
      (split; [intros []; reflexivity|]); repeat split. }
  destruct s0 as [v0 b0]. cbn [fst snd] in Hs0.
  destruct Hs0 as (Hsl & He0 & Hch0 & Hd0 & Hr0 & Hca & Hcb & Hb0).
  destruct (leave_loop_seq user MAX_CREWS_PER_TEAM 0 v0 b0)
    as (v1 & b1 & -> & Hout & Hvac & Hflag).
  { pose proof (Hsl TeamA) as H. simpl in H. rewrite H. lia. }
  { pose proof (Hsl TeamB) as H. simpl in H. rewrite H. lia. }
  destruct Hout as (He1 & Ha1 & Hb1 & Hr1 & Hch1 & Hd1). simpl in Hvac.
  assert (Hslots : forall t, slot_list t v1 = map (vacated user v) (slot_list t v)).
  { intros t. apply list_eq. intros j. rewrite list_lookup_fmap.
    destruct (Hvac t j) as (_ & Hsame & Hin). rewrite (Hsl t) in Hsame, Hin.
    destruct (slot_list t v !! j) as [slot|] eqn:Hj; simpl.
    - assert (Hlt : j < MAX_CREWS_PER_TEAM).
      { apply lookup_lt_Some in Hj. now rewrite (well_formed_slot_list t v Hwf) in Hj. }
      rewrite (Hin slot ltac:(lia) eq_refl). unfold vacated.
      now rewrite (slot_members_dicts v v0 slot Hd0).
    - apply Hsame. apply lookup_ge_None in Hj.
      rewrite (well_formed_slot_list t v Hwf) in Hj. lia. }
  assert (Hreg : is_user_registered v user
                 = b1 || in_pool user (recruits v)).
  { apply eq_true_iff_eq. rewrite orb_true_iff, Hflag, is_user_registered_spec,
      in_pool_spec, Hb0, user_in_spec. split.
    - intros [H|[H|[(t & j & r & crew & Hj & Hr & Hm)|H]]].
      + left; left. now left.
      + left; left. right. now left.
      + left; right. exists t, j, (Some r). split.
        * apply lookup_lt_Some in Hj. rewrite (well_formed_slot_list t v Hwf) in Hj. lia.
        * split; [now rewrite Hsl|]. apply user_in_spec.
          rewrite (slot_members_dicts v v0 _ Hd0).
          now rewrite (slot_members_ref v r crew Hr).
      + now right.
    - intros [[[H|[H|[]]]|(t & j & slot & _ & Hj & Hu)]|H].
      + now left.
      + right. now left.
      + right; right; left. rewrite Hsl in Hj.
        rewrite (slot_members_dicts v v0 slot Hd0) in Hu. apply user_in_spec in Hu.
        destruct (slot_members_Some _ _ _ Hu) as (r & crew & -> & Hr & Hm).
        now exists t, j, r, crew.
      + now do 3 right. }
  rewrite Hr1, Hr0.
  destruct (in_pool user (recruits v)) eqn:Hpool.
  - destruct (list_remove_in_pool _ _ Hpool) as [pool Hrm]. rewrite Hrm.
    exists (Sent RemovedFromEvent), (set_recruits pool v1). split; [reflexivity|].
    unfold set_recruits.
    cbn [event_id children dicts commander_a commander_b recruits].
    do 5 (split; [congruence|]).
    split; [intros t; rewrite <- Hslots; now destruct t|].
    split; [reflexivity|]. rewrite Hreg. now rewrite orb_true_r.
  - exists (if b1 then Sent RemovedFromEvent else Sent NotRegistered), v1.
    split; [now destruct b1|]. do 5 (split; [congruence|]).
    split; [exact Hslots|]. split; [congruence|].
    rewrite Hreg. now rewrite orb_false_r.
Qed.

Lemma vacated_Some user v slot r : vacated user v slot = Some r -> slot = Some r.
Proof. unfold vacated. now destruct (user_in user (slot_members v slot)). Qed.

Lemma lookup_vacated user v (slots : list (option ref)) j r :
  map (vacated user v) slots !! j = Some (Some r) ->
  slots !! j = Some (Some r) /\ user_in user (slot_members v (Some r)) = false.
Proof.
  rewrite list_lookup_fmap. destruct (slots !! j) as [slot|]; [|discriminate].
  intros H. cbv [fmap option_fmap option_map] in H. injection H as H.
  pose proof (vacated_Some _ _ _ _ H) as ->. split; [reflexivity|].
  unfold vacated in H.
  destruct (user_in user (slot_members v (Some r))); [discriminate H|reflexivity].
Qed.

Lemma consistent_leave user v :
  consistent v -> consistent (snd (LeaveEventButton_callback user v)).
Proof.
  intros (Hwf & Hnd & Hin & Hdis & Hcd).
  destruct (leave_callback_fields user v Hwf)
    as (o & v' & -> & _ & _ & Hd & Hca & Hcb & Hsl & Hpool & _).
  simpl. split; [|split; [|split; [|split]]].
  - destruct Hwf as [Ha Hb]. pose proof (Hsl TeamA) as HA. pose proof (Hsl TeamB) as HB.
    simpl in HA, HB. split; [rewrite HA|rewrite HB]; now rewrite length_map.
  - destruct (in_pool user (recruits v)); [|now rewrite Hpool].
    exact (list_remove_NoDup _ _ _ Hpool Hnd).
  - intros t j r Hj. rewrite Hsl in Hj. apply lookup_vacated in Hj.
    rewrite Hd. exact (Hin t j r (proj1 Hj)).
  - intros t j t' j' r Hj Hj'. rewrite Hsl in Hj, Hj'.
    apply lookup_vacated in Hj, Hj'. exact (Hdis t j t' j' r (proj1 Hj) (proj1 Hj')).
  - intros u Ha Hb. rewrite Hca in Ha. rewrite Hcb in Hb.
    destruct (member_eqb (Some user) (commander_a v)); [discriminate|].
    destruct (member_eqb (Some user) (commander_b v)); [discriminate|].
    exact (Hcd u Ha Hb).
Qed.

Lemma consistent_update (p : Position) values ev v :
  consistent v -> consistent (snd (update_select p values ev v)).
Proof.
  intros Hc.
  destruct p, values as [|u values]; simpl;
    unfold UpdateGunnerSelect_callback, UpdateDriverSelect_callback;
    try (destruct (is_user_registered v u); [exact Hc|]); simpl;
    exact (consistent_same_roster _ _ (same_roster_dict_update _ _ v) Hc).
Qed.

(** The view ending the event leaves behind: the view it found, with or
    without its components disabled. *)
Lemma end_event_view role_names ext v :
  snd (EndEventButton_callback role_names ext v) = v
  \/ snd (EndEventButton_callback role_names ext v)
     = set_children (map (fun item => mkItem (kind item) true) (children v)) v.
Proof.
  unfold EndEventButton_callback.
  destruct (negb (is_admin role_names)); [now left|].
  destruct (cog_loaded ext && truthy_id (event_id v) && negb (status_update_ok ext));
    [now left|].
  destruct (negb (cog_loaded ext) && existsb has_team (participants v)); [now left|].
  cbv zeta. destruct (build_embed _); [now right|].
  destruct (negb message || negb (message_edit_ok ext)); now right.
Qed.

Lemma consistent_end_event role_names ext v :
  consistent v -> consistent (snd (EndEventButton_callback role_names ext v)).
Proof.
  intros Hc. destruct (end_event_view role_names ext v) as [-> | ->]; [exact Hc|].
  apply (consistent_same_roster v); try exact Hc; repeat split.
Qed.

Lemma consistent_init eid : consistent (EventSignupView_init eid).
Proof.
  split; [|split; [|split; [|split]]].
  - split; simpl; apply repeat_length.
  - apply NoDup_nil_2.
  - intros t j r Hj. exfalso.
    assert (H : In (Some r) (repeat (@None nat) MAX_CREWS_PER_TEAM)).
    { apply In_lookup. exists j. now destruct t. }
    apply repeat_spec in H. discriminate.
  - intros t j t' j' r Hj. exfalso.
    assert (H : In (Some r) (repeat (@None nat) MAX_CREWS_PER_TEAM)).
    { apply In_lookup. exists j. now destruct t. }
    apply repeat_spec in H. discriminate.
  - intros u H. discriminate.
Qed.

Lemma consistent_step v v' : step v v' -> consistent v -> consistent v'.
Proof.
  intros Hstep Hc. destruct Hstep.
  - now apply consistent_commander.
  - now apply consistent_crew_name.
  - now apply consistent_join.
  - rewrite join_with_crew_same. now apply consistent_join.
  - now apply consistent_recruit_me.
  - destruct (AssignGunnerButton_callback rv v) as [o v'] eqn:Hrun.
    exact (consistent_assign set_gunner Gunner rv v o v' Hrun Hc).
  - destruct (AssignDriverButton_callback rv v) as [o v'] eqn:Hrun.
    exact (consistent_assign set_driver Driver rv v o v' Hrun Hc).
  - destruct view_parent as [ev|parent|parent];
      [exact (consistent_update Gunner values ev v Hc)|exact Hc|exact Hc].
  - destruct view_parent as [ev|parent|parent];
      [exact (consistent_update Driver values ev v Hc)|exact Hc|exact Hc].
  - now apply consistent_leave.
  - now apply consistent_end_event.
Qed.

(** X1. Whatever callbacks have run on a signup view since its creation,
    with whatever arguments, both slot arrays have their configured length,
    the recruit pool holds nobody twice, every slot points to a dict of its
    own, and nobody commands both factions. *)
Theorem reachable_consistent (eid : option Z) (v : EventSignupView) :
  reachable eid v -> consistent v.
Proof.
  induction 1 as [|v v' _ IH Hstep].
  - apply consistent_init.
  - exact (consistent_step v v' Hstep IH).
Qed.


Lemma list_remove_not_In user l l' :
  NoDup l -> list_remove user l = Some l' -> ~ In user l'.
Proof.
  revert l'. induction l as [|x l IH]; simpl; [discriminate|]. intros l' Hnd.
  apply NoDup_cons in Hnd. destruct Hnd as [Hx Hl].
  destruct (Z.eqb x user) eqn:Hxu.
  - intros [= <-]. apply Z.eqb_eq in Hxu. subst x.
    intros H. apply Hx. now apply list_elem_of_In.
  - destruct (list_remove user l) as [r|] eqn:Hr; [|discriminate].
    intros [= <-] [H|H].
    + subst x. now rewrite Z.eqb_refl in Hxu.
    + exact (IH r Hl eq_refl H).
Qed.

Lemma list_remove_other user l l' m :
  list_remove user l = Some l' -> m <> user -> In m l -> In m l'.
Proof.
  revert l'. induction l as [|x l IH]; simpl; [discriminate|]. intros l'.
  destruct (Z.eqb x user) eqn:Hxu.
  - intros [= <-] Hne [H|H]; [|assumption]. apply Z.eqb_eq in Hxu. congruence.
  - destruct (list_remove user l) as [r|] eqn:Hr; [|discriminate].
    intros [= <-] Hne [H|H]; [now left|]. right. now apply (IH r).
Qed.

Lemma not_registered_places v user :
  is_user_registered v user = false ->
  commander_a v <> Some user /\ commander_b v <> Some user /\ ~ In user (recruits v).
Proof.
  intros Hreg.
  assert (Hn : ~ is_user_registered v user = true) by congruence.
  rewrite is_user_registered_spec in Hn.
  repeat split; intros H; apply Hn; auto.
Qed.

Lemma map_vacated_unregistered user v t :
  is_user_registered v user = false ->
  map (vacated user v) (slot_list t v) = slot_list t v.
Proof.
  intros Hreg. apply list_eq. intros j. rewrite list_lookup_fmap.
  destruct (slot_list t v !! j) as [slot|] eqn:Hj; [|reflexivity]. simpl.
  unfold vacated. now rewrite (not_registered_slot v user t j slot Hreg Hj).
Qed.

Lemma view_ext (v v' : EventSignupView) :
  event_id v' = event_id v -> commander_a v' = commander_a v ->
  commander_b v' = commander_b v -> crews_a v' = crews_a v ->
  crews_b v' = crews_b v -> recruits v' = recruits v ->
  children v' = children v -> dicts v' = dicts v -> v' = v.
Proof.
  destruct v, v'. simpl. intros -> -> -> -> -> -> -> ->. reflexivity.
Qed.

Lemma leave_not_registered user v :
  well_formed v -> is_user_registered v user = false ->
  LeaveEventButton_callback user v = (Sent NotRegistered, v).
Proof.
  intros Hwf Hreg.
  destruct (leave_callback_fields user v Hwf)
    as (o & v' & -> & He & Hch & Hd & Hca & Hcb & Hsl & Hpool & ->).
  rewrite Hreg. f_equal.
  destruct (not_registered_places v user Hreg) as (Ha & Hb & Hp).
  assert (Ea : member_eqb (Some user) (commander_a v) = false)
    by (apply member_eqb_neq; congruence).
  assert (Eb : member_eqb (Some user) (commander_b v) = false)
    by (apply member_eqb_neq; congruence).
  rewrite Ea in Hca, Hcb. rewrite Eb in Hcb.
  assert (Hin : in_pool user (recruits v) = false).
  { apply not_true_iff_false. now rewrite in_pool_spec. }
  rewrite Hin in Hpool.
  apply view_ext; try assumption.
  - pose proof (Hsl TeamA) as H.
    rewrite (map_vacated_unregistered user v TeamA Hreg) in H. exact H.
  - pose proof (Hsl TeamB) as H.
    rewrite (map_vacated_unregistered user v TeamB Hreg) in H. exact H.
Qed.

(** X3. On a view that callbacks can reach, a user who leaves is registered
    nowhere afterwards, so leaving a second time is answered with "not
    registered" and changes nothing. *)
Theorem leave_is_complete (user : User) (v : EventSignupView) :
  consistent v ->
  exists o v',
    LeaveEventButton_callback user v = (o, v') /\
    is_user_registered v' user = false /\
    LeaveEventButton_callback user v' = (Sent NotRegistered, v').
Proof.
  intros Hc. pose proof (consistent_leave user v Hc) as Hc'.
  destruct Hc as (Hwf & Hnd & _ & _ & Hcd).
  destruct (leave_callback_fields user v Hwf)
    as (o & v' & Hrun & _ & _ & Hd & Hca & Hcb & Hsl & Hpool & _).
  rewrite Hrun in Hc'. simpl in Hc'.
  exists o, v'. split; [exact Hrun|].
  assert (Hreg : is_user_registered v' user = false).
  { apply not_true_iff_false. rewrite is_user_registered_spec.
    intros [H|[H|[(t & j & r & crew & Hj & Hr & Hm)|H]]].
    - rewrite Hca in H. destruct (member_eqb (Some user) (commander_a v)) eqn:E;
        [discriminate|]. apply member_eqb_neq in E. congruence.
    - rewrite Hcb in H. destruct (member_eqb (Some user) (commander_a v)) eqn:Ea.
      + apply member_eqb_eq in Ea. exact (Hcd user (eq_sym Ea) H).
      + destruct (member_eqb (Some user) (commander_b v)) eqn:Eb; [discriminate|].
        apply member_eqb_neq in Eb. congruence.
    - rewrite Hsl in Hj. apply lookup_vacated in Hj. destruct Hj as [_ Hu].
      apply not_true_iff_false in Hu. apply Hu. apply user_in_spec.
      rewrite Hd in Hr. now rewrite (slot_members_ref v r crew Hr).
    - destruct (in_pool user (recruits v)) eqn:E.
      + exact (list_remove_not_In _ _ _ Hnd Hpool H).
      + apply not_true_iff_false in E. apply E. apply in_pool_spec. congruence. }
  split; [exact Hreg|]. apply leave_not_registered; [apply Hc'|exact Hreg].
Qed.

(** X4. Who is still registered once [user] has left: exactly those who
    held a commander seat, sat in a slot without [user] in it, or were in the
    pool. *)
Theorem leave_keeps_the_others (user m : User) (v : EventSignupView) :
  well_formed v ->
  m <> user ->
  is_user_registered (snd (LeaveEventButton_callback user v)) m = true <->
  commander_a v = Some m \/ commander_b v = Some m
  \/ (exists t j, in_slot v m t j /\ ~ in_slot v user t j)
  \/ In m (recruits v).
Proof.
  intros Hwf Hne.
  destruct (leave_callback_fields user v Hwf)
    as (o & v' & -> & _ & _ & Hd & Hca & Hcb & Hsl & Hpool & _).
  simpl. rewrite is_user_registered_spec. rewrite Hca, Hcb.
  assert (Ea : forall c, c = Some m -> member_eqb (Some user) c = false).
  { intros c ->. apply member_eqb_neq. congruence. }
  split.
  - intros [H|[H|[(t & j & r & crew & Hj & Hr & Hm)|H]]].
    + left. now destruct (member_eqb (Some user) (commander_a v)).
    + right; left. destruct (member_eqb (Some user) (commander_a v)); [assumption|].
      now destruct (member_eqb (Some user) (commander_b v)).
    + right; right; left. rewrite Hsl in Hj. apply lookup_vacated in Hj.
      destruct Hj as [Hj Hu]. rewrite Hd in Hr. exists t, j. split.
      * now exists r, crew.
      * intros (r' & crew' & Hj' & Hr' & Hm').
        rewrite Hj in Hj'. injection Hj' as <-.
        apply not_true_iff_false in Hu. apply Hu. apply user_in_spec.
        now rewrite (slot_members_ref v r crew' Hr').
    + do 3 right. destruct (in_pool user (recruits v)).
      * exact (list_remove_In _ _ _ Hpool m H).
      * congruence.
  - intros [H|[H|[(t & j & (r & crew & Hj & Hr & Hm) & Hnot)|H]]].
    + left. now rewrite (Ea _ H).
    + right; left. rewrite (Ea _ H).
      destruct (member_eqb (Some user) (commander_a v)); assumption.
    + right; right; left. exists t, j, r, crew. rewrite Hd. split; [|now split].
      rewrite Hsl, list_lookup_fmap, Hj. simpl. unfold vacated.
      destruct (user_in user (slot_members v (Some r))) eqn:Hu; [|reflexivity].
      exfalso. apply Hnot. exists r, crew. split; [assumption|]. split; [assumption|].
      apply user_in_spec in Hu. now rewrite (slot_members_ref v r crew Hr) in Hu.
    + do 3 right. destruct (in_pool user (recruits v)).
      * exact (list_remove_other _ _ _ m Hpool Hne H).
      * congruence.
Qed.





(** *** Finding the crew a user commands *)

(** The slot holds a crew whose commander is [user]. *)
Definition commands (v : EventSignupView) (user : User) (t : Team) (j : nat) (r : ref) : Prop :=
  slot_list t v !! j = Some (Some r) /\ dict_commander r v = Some user /\
  exists crew, dicts v !! r = Some crew.

Lemma find_commanded_Some v user slots i r k :
  find_commanded v user slots i = Some (r, k) ->
  i <= k /\ slots !! (k - i) = Some (Some r) /\ dict_commander r v = Some user /\
  (exists crew, dicts v !! r = Some crew) /\
  forall j r', j < k - i -> slots !! j = Some (Some r') -> dict_commander r' v <> Some user.
Proof.
  revert i. induction slots as [|slot slots IH]; intros i; simpl; [discriminate|].
  assert (Hrest : find_commanded v user slots (S i) = Some (r, k) ->
                  (forall r', slot = Some r' -> dict_commander r' v <> Some user) ->
                  i <= k /\ (slot :: slots) !! (k - i) = Some (Some r) /\
                  dict_commander r v = Some user /\
                  (exists crew, dicts v !! r = Some crew) /\
                  forall j r', j < k - i -> (slot :: slots) !! j = Some (Some r') ->
                               dict_commander r' v <> Some user).
  { intros H Hslot. destruct (IH (S i) H) as (Hle & Hk & Hc & Hex & Hlow).
    split; [lia|]. replace (k - i) with (S (k - S i)) by lia.
    split; [exact Hk|]. split; [exact Hc|]. split; [exact Hex|].
    intros [|j] r' Hj Hr'.
    - injection Hr' as ->. now apply Hslot.
    - apply (Hlow j r'); [lia|exact Hr']. }
  destruct slot as [r0|].
  2:{ intros H. apply Hrest; [exact H|discriminate]. }
  unfold dict_commander in *.
  destruct (dicts v !! r0) as [crew|] eqn:Hr0.
  2:{ intros H. apply Hrest; [exact H|]. intros r' [= <-]. rewrite Hr0. discriminate. }
  destruct (member_eqb (commander crew) (Some user)) eqn:E.
  - intros [= <- <-]. apply member_eqb_eq in E. split; [lia|].
    rewrite Nat.sub_diag. split; [reflexivity|]. rewrite Hr0.
    split; [exact E|]. split; [now exists crew|]. intros j r' Hj. lia.
  - intros H. apply Hrest; [exact H|]. intros r' [= <-]. rewrite Hr0.
    now apply member_eqb_neq.
Qed.

Lemma find_commanded_None v user slots i :
  find_commanded v user slots i = None ->
  forall j r, slots !! j = Some (Some r) -> dict_commander r v <> Some user.
Proof.
  revert i. induction slots as [|slot slots IH]; intros i; simpl.
  - intros _ j r H. destruct j; discriminate.
  - unfold dict_commander in *. destruct slot as [r0|].
    + destruct (dicts v !! r0) as [crew|] eqn:Hr0.
      * destruct (member_eqb (commander crew) (Some user)) eqn:E; [discriminate|].
        intros H [|j] r Hj.
        -- injection Hj as <-. rewrite Hr0. now apply member_eqb_neq.
        -- exact (IH (S i) H j r Hj).
      * intros H [|j] r Hj.
        -- injection Hj as <-. rewrite Hr0. discriminate.
        -- exact (IH (S i) H j r Hj).
    + intros H [|j] r Hj; [discriminate|]. exact (IH (S i) H j r Hj).
Qed.

(** X7. [get_user_crew] answers with the first slot whose crew the user
    commands, the Allies slots coming before the Axis ones and a lower index
    before a higher one, and with nothing exactly when the user commands no
    crew; gunners and drivers are not found by it.  A user it finds is
    registered. *)
Theorem get_user_crew_first (user : User) (v : EventSignupView) :
  (forall r t i,
      get_user_crew v user = Some (r, t, i) ->
      commands v user t i r /\
      (forall j r', j < i -> ~ commands v user t j r') /\
      (t = TeamB -> forall j r', ~ commands v user TeamA j r') /\
      is_user_registered v user = true)
  /\ (get_user_crew v user = None <-> forall t j r, ~ commands v user t j r)
  /\ (is_user_commander v user = true <-> exists t j r, commands v user t j r).
Proof.
  assert (Hsome : forall r t i,
             get_user_crew v user = Some (r, t, i) ->
             commands v user t i r /\
             (forall j r', j < i -> ~ commands v user t j r') /\
             (t = TeamB -> forall j r', ~ commands v user TeamA j r')).
  { intros r t i. unfold get_user_crew.
    destruct (find_commanded v user (crews_a v) 0) as [[ra ia]|] eqn:Ha.
    - intros [= <- <- <-].
      destruct (find_commanded_Some _ _ _ _ _ _ Ha) as (_ & Hk & Hc & Hex & Hlow).
      rewrite Nat.sub_0_r in Hk, Hlow. split; [now split|]. split; [|discriminate].
      intros j r' Hj (Hs & Hc' & _). exact (Hlow j r' Hj Hs Hc').
    - destruct (find_commanded v user (crews_b v) 0) as [[rb ib]|] eqn:Hb; [|discriminate].
      intros [= <- <- <-].
      destruct (find_commanded_Some _ _ _ _ _ _ Hb) as (_ & Hk & Hc & Hex & Hlow).
      rewrite Nat.sub_0_r in Hk, Hlow. split; [now split|]. split.
      + intros j r' Hj (Hs & Hc' & _). exact (Hlow j r' Hj Hs Hc').
      + intros _ j r' (Hs & Hc' & _). exact (find_commanded_None _ _ _ _ Ha j r' Hs Hc'). }
  assert (Hnone : get_user_crew v user = None <-> forall t j r, ~ commands v user t j r).
  { split.
    - unfold get_user_crew.
      destruct (find_commanded v user (crews_a v) 0) as [[ra ia]|] eqn:Ha; [discriminate|].
      destruct (find_commanded v user (crews_b v) 0) as [[rb ib]|] eqn:Hb; [discriminate|].
      intros _ t j r (Hs & Hc & _). destruct t.
      + exact (find_commanded_None _ _ _ _ Ha j r Hs Hc).
      + exact (find_commanded_None _ _ _ _ Hb j r Hs Hc).
    - intros Hno. destruct (get_user_crew v user) as [[[r t] i]|] eqn:Hg; [|reflexivity].
      exfalso. exact (Hno t i r (proj1 (Hsome r t i eq_refl))). }
  split; [|split; [exact Hnone|]].
  - intros r t i Hg. destruct (Hsome r t i Hg) as (Hcmd & Hlow & Hb).
    split; [exact Hcmd|]. split; [exact Hlow|]. split; [exact Hb|].
    destruct Hcmd as (Hs & Hc & crew & Hr). unfold dict_commander in Hc. rewrite Hr in Hc.
    exact (commander_of_slot_registered v t i r crew user Hs Hr Hc).
  - unfold is_user_commander.
    destruct (get_user_crew v user) as [[[r t] i]|] eqn:Hg.
    + split; [intros _|reflexivity]. exists t, i, r. exact (proj1 (Hsome r t i eq_refl)).
    + split; [discriminate|]. intros (t & j & r & Hcmd).
      exfalso. exact (proj1 Hnone eq_refl t j r Hcmd).
Qed.

Lemma In_participants v p :
  In p (participants v) <->
  (exists u, commander_a v = Some u /\ p = (Some u, Some TeamA, RoleCommander, None))
  \/ (exists u, commander_b v = Some u /\ p = (Some u, Some TeamB, RoleCommander, None))
  \/ (exists t j r crew,
         slot_list t v !! j = Some (Some r) /\ dicts v !! r = Some crew /\
         (p = (commander crew, Some t, RoleCommander, Some (crew_name crew))
          \/ (gunner crew <> commander crew /\
              p = (gunner crew, Some t, RoleGunner, Some (crew_name crew)))
          \/ (driver crew <> commander crew /\
              p = (driver crew, Some t, RoleDriver, Some (crew_name crew)))))
  \/ (exists u, In u (recruits v) /\ p = (Some u, None, RoleRecruit, None)).
Proof.
  unfold participants. rewrite !in_app_iff, !In_commander_entry,
    !In_flat_map_entries, in_map_iff. split.
  - intros [H|[H|[(j & r & crew & H)|[(j & r & crew & H)|(u & Hp & Hu)]]]].
    + now left.
    + right. now left.
    + right; right; left. now exists TeamA, j, r, crew.
    + right; right; left. now exists TeamB, j, r, crew.
    + do 3 right. now exists u.
  - intros [H|[H|[(t & j & r & crew & H)|(u & Hu & Hp)]]].
    + now left.
    + right. now left.
    + destruct t; [right; right; left|do 3 right; left]; now exists j, r, crew.
    + do 4 right. now exists u.
Qed.

(** X8. The users the participant list names are exactly the registered
    ones: ending the event records everybody who is signed up and nobody
    else. *)
Theorem participants_are_the_registered (user : User) (v : EventSignupView) :
  In (Some user) (map p_user (participants v)) <-> is_user_registered v user = true.
Proof.
  rewrite in_map_iff, is_user_registered_spec. split.
  - intros (p & Hp & Hin). apply In_participants in Hin.
    destruct Hin as [(u & Hc & ->)|[(u & Hc & ->)|[(t & j & r & crew & Hj & Hr & H)|(u & Hu & ->)]]];
      unfold p_user in Hp; simpl in Hp.
    + left. congruence.
    + right; left. congruence.
    + right; right; left. exists t, j, r, crew. split; [assumption|]. split; [assumption|].
      destruct H as [->|[[_ ->]|[_ ->]]]; simpl in Hp; rewrite Hp; simpl; auto.
    + do 3 right. congruence.
  - intros [H|[H|[(t & j & r & crew & Hj & Hr & Hm)|H]]].
    + exists (Some user, Some TeamA, RoleCommander, None). split; [reflexivity|].
      apply In_participants. left. now exists user.
    + exists (Some user, Some TeamB, RoleCommander, None). split; [reflexivity|].
      apply In_participants. right; left. now exists user.
    + destruct Hm as [Hm|[Hm|[Hm|[]]]].
      * exists (commander crew, Some t, RoleCommander, Some (crew_name crew)).
        split; [exact Hm|]. apply In_participants. right; right; left.
        exists t, j, r, crew. split; [assumption|]. split; [assumption|]. now left.
      * destruct (member_eqb (gunner crew) (commander crew)) eqn:E.
        -- apply member_eqb_eq in E.
           exists (commander crew, Some t, RoleCommander, Some (crew_name crew)).
           split; [unfold p_user; simpl; congruence|].
           apply In_participants. right; right; left. exists t, j, r, crew. split; [assumption|]. split; [assumption|]. now left.
        -- apply member_eqb_neq in E.
           exists (gunner crew, Some t, RoleGunner, Some (crew_name crew)).
           split; [exact Hm|]. apply In_participants. right; right; left.
           exists t, j, r, crew. split; [assumption|]. split; [assumption|].
           right; left. now split.
      * destruct (member_eqb (driver crew) (commander crew)) eqn:E.
        -- apply member_eqb_eq in E.
           exists (commander crew, Some t, RoleCommander, Some (crew_name crew)).
           split; [unfold p_user; simpl; congruence|].
           apply In_participants. right; right; left. exists t, j, r, crew. split; [assumption|]. split; [assumption|]. now left.
        -- apply member_eqb_neq in E.
           exists (driver crew, Some t, RoleDriver, Some (crew_name crew)).
           split; [exact Hm|]. apply In_participants. right; right; left.
           exists t, j, r, crew. split; [assumption|]. split; [assumption|].
           right; right. now split.
    + exists (Some user, None, RoleRecruit, None). split; [reflexivity|].
      apply In_participants. do 3 right. now exists user.
Qed.

(** *** One place per user *)

(** The places a user can hold: the seat of a faction commander, a crew
    slot (in any of its three positions), the recruit pool. *)
Inductive Place := SeatA | SeatB | Slot (t : Team) (j : nat) | Pool.

Definition holds (v : EventSignupView) (user : User) (p : Place) : Prop :=
  match p with
  | SeatA => commander_a v = Some user
  | SeatB => commander_b v = Some user
  | Slot t j => in_slot v user t j
  | Pool => In user (recruits v)
  end.

Lemma registered_holds v user :
  is_user_registered v user = true <-> exists p, holds v user p.
Proof.
  rewrite is_user_registered_spec. split.
  - intros [H|[H|[(t & j & H)|H]]].
    + now exists SeatA.
    + now exists SeatB.
    + now exists (Slot t j).
    + now exists Pool.
  - intros ([| |t j|] & H); simpl in H; [now left|right; now left| |now do 3 right].
    right; right; left. now exists t, j.
Qed.

Lemma not_registered_holds v user p :
  is_user_registered v user = false -> ~ holds v user p.
Proof.
  intros Hreg H. apply not_true_iff_false in Hreg. apply Hreg.
  apply registered_holds. now exists p.
Qed.

(** Nobody holds two places. *)
Definition unique (v : EventSignupView) : Prop :=
  forall user p q, holds v user p -> holds v user q -> p = q.

(** Uniqueness carries over when the newcomers get one and the same place
    and everybody else holds only places held before. *)
Lemma unique_grow v v' (fresh : User -> Prop) (new : Place -> Prop) :
  unique v ->
  (forall u p, holds v' u p -> (fresh u /\ new p) \/ (~ fresh u /\ holds v u p)) ->
  (forall p q, new p -> new q -> p = q) ->
  unique v'.
Proof.
  intros Hu Hcls Hnew u p q Hp Hq.
  destruct (Hcls u p Hp) as [[Hf Hnp]|[Hnf Hop]];
    destruct (Hcls u q Hq) as [[Hf' Hnq]|[Hnf' Hoq]]; try contradiction.
  - now apply Hnew.
  - exact (Hu u p q Hop Hoq).
Qed.

Lemma unique_shrink v v' :
  unique v -> (forall u p, holds v' u p -> holds v u p) -> unique v'.
Proof.
  intros Hu H. apply (unique_grow v v' (fun _ => False) (fun _ => False) Hu).
  - intros u p Hp. right. split; [intros []|now apply H].
  - intros p q [].
Qed.

Lemma unique_init eid : unique (EventSignupView_init eid).
Proof.
  intros u p q Hp. exfalso. revert Hp.
  apply not_registered_holds. unfold is_user_registered, EventSignupView_init. simpl.
  rewrite orb_false_r.
  assert (H : forall n, existsb (fun crew : option nat =>
                          user_in u (slot_members
                            (mkView eid None None (repeat None MAX_CREWS_PER_TEAM)
                               (repeat None MAX_CREWS_PER_TEAM) []
                               (map (fun k => mkItem k false) all_items) []) crew))
                         (repeat None n) = false).
  { induction n as [|n IH]; [reflexivity|exact IH]. }
  now rewrite !H.
Qed.

Lemma holds_same_roster v v' u p :
  commander_a v' = commander_a v -> commander_b v' = commander_b v ->
  crews_a v' = crews_a v -> crews_b v' = crews_b v ->
  recruits v' = recruits v -> dicts v' = dicts v ->
  holds v' u p -> holds v u p.
Proof.
  intros Ha Hb Hca Hcb Hr Hd. destruct p as [| |t j|]; simpl; try congruence.
  intros (r & crew & Hj & Hr' & Hm). exists r, crew.
  split; [destruct t; simpl in *; congruence|]. split; [congruence|assumption].
Qed.

Lemma unique_commander user team v :
  unique v -> unique (snd (CommanderSelect_callback user team v)).
Proof.
  intros Hu. unfold CommanderSelect_callback.
  destruct (is_user_registered v user) eqn:Hreg; [exact Hu|].
  pose proof (fun p => not_registered_holds v user p Hreg) as Hno.
  destruct team; simpl.
  - apply (unique_grow v _ (fun u => u = user) (fun p => p = SeatA) Hu);
      [|intros p q -> ->; reflexivity].
    intros u [| |t j|] Hp; simpl in Hp.
    + left. split; [congruence|reflexivity].
    + right. split; [intros ->; exact (Hno SeatB Hp)|exact Hp].
    + right. split; [intros ->; exact (Hno (Slot t j) Hp)|exact Hp].
    + right. split; [intros ->; exact (Hno Pool Hp)|exact Hp].
  - apply (unique_grow v _ (fun u => u = user) (fun p => p = SeatB) Hu);
      [|intros p q -> ->; reflexivity].
    intros u [| |t j|] Hp; simpl in Hp.
    + right. split; [intros ->; exact (Hno SeatA Hp)|exact Hp].
    + left. split; [congruence|reflexivity].
    + right. split; [intros ->; exact (Hno (Slot t j) Hp)|exact Hp].
    + right. split; [intros ->; exact (Hno Pool Hp)|exact Hp].
Qed.

Lemma unique_recruit_me user v :
  unique v -> unique (snd (RecruitMeButton_callback user v)).
Proof.
  intros Hu. unfold RecruitMeButton_callback.
  destruct (is_user_registered v user) eqn:Hreg; [exact Hu|].
  pose proof (fun p => not_registered_holds v user p Hreg) as Hno. simpl.
  apply (unique_grow v _ (fun u => u = user) (fun p => p = Pool) Hu);
    [|intros p q -> ->; reflexivity].
  intros u [| |t j|] Hp; simpl in Hp.
  - right. split; [intros ->; exact (Hno SeatA Hp)|exact Hp].
  - right. split; [intros ->; exact (Hno SeatB Hp)|exact Hp].
  - right. split; [intros ->; exact (Hno (Slot t j) Hp)|exact Hp].
  - apply in_app_or in Hp. destruct Hp as [Hp|[<-|[]]].
    + right. split; [intros ->; exact (Hno Pool Hp)|exact Hp].
    + left. split; reflexivity.
Qed.

Lemma unique_leave user v :
  well_formed v -> unique v -> unique (snd (LeaveEventButton_callback user v)).
Proof.
  intros Hwf Hu.
  destruct (leave_callback_fields user v Hwf)
    as (o & v' & -> & _ & _ & Hd & Hca & Hcb & Hsl & Hpool & _).
  simpl. apply (unique_shrink v v' Hu).
  intros u [| |t j|] Hp; simpl in Hp |- *.
  - rewrite Hca in Hp. now destruct (member_eqb (Some user) (commander_a v)).
  - rewrite Hcb in Hp. destruct (member_eqb (Some user) (commander_a v)); [exact Hp|].
    now destruct (member_eqb (Some user) (commander_b v)).
  - destruct Hp as (r & crew & Hj & Hr & Hm). rewrite Hsl in Hj.
    apply lookup_vacated in Hj. rewrite Hd in Hr. exists r, crew.
    split; [exact (proj1 Hj)|]. split; assumption.
  - destruct (in_pool user (recruits v)).
    + exact (list_remove_In _ _ _ Hpool u Hp).
    + congruence.
Qed.

Lemma unique_end_event role_names ext v :
  unique v -> unique (snd (EndEventButton_callback role_names ext v)).
Proof.
  intros Hu. destruct (end_event_view role_names ext v) as [-> | ->]; [exact Hu|].
  apply (unique_shrink v _ Hu); intros u p; apply holds_same_roster; reflexivity.
Qed.

Lemma lookup_allocated t i (x : option ref) v t' j r :
  length (slot_list t v) = MAX_CREWS_PER_TEAM -> i < MAX_CREWS_PER_TEAM ->
  slot_list t' (set_slot_list t (<[i := x]> (slot_list t v)) v) !! j = Some (Some r) ->
  (t' = t /\ j = i /\ x = Some r)
  \/ ((t' <> t \/ j <> i) /\ slot_list t' v !! j = Some (Some r)).
Proof.
  intros Hlen Hi Hj.
  destruct t, t'; simpl in Hj, Hlen |- *;
    try (right; split; [left; discriminate|exact Hj]);
    (destruct (Nat.eq_dec j i) as [->|Hne];
     [rewrite list_lookup_insert_eq in Hj by lia; injection Hj as ->; now left
     |rewrite list_lookup_insert_ne in Hj by congruence;
      right; split; [now right|exact Hj]]).
Qed.

(** Writing a crew of unregistered members into a slot. *)
Lemma unique_allocate t i crew v :
  consistent v -> unique v -> i < MAX_CREWS_PER_TEAM ->
  (forall u, In (Some u) [commander crew; gunner crew; driver crew] ->
             is_user_registered v u = false) ->
  unique (set_slot_list t (<[i := Some (length (dicts v))]> (slot_list t v))
            (set_dicts (dicts v ++ [crew]) v)).
Proof.
  intros (Hwf & _ & Hin & _) Hu Hi Hnew.
  pose proof (well_formed_slot_list t v Hwf) as Hlen.
  apply (unique_grow v _
           (fun u => In (Some u) [commander crew; gunner crew; driver crew])
           (fun p => p = Slot t i) Hu); [|intros p q -> ->; reflexivity].
  assert (Hold : forall u p, holds v u p ->
                 ~ In (Some u) [commander crew; gunner crew; driver crew] /\ holds v u p).
  { intros u p Hp. split; [|exact Hp]. intros Hf.
    exact (not_registered_holds v u p (Hnew u Hf) Hp). }
  intros u [| |t' j|] Hp; simpl in Hp.
  - right. apply (Hold u SeatA). simpl. now rewrite commander_a_set_slot_list in Hp.
  - right. apply (Hold u SeatB). simpl. now rewrite commander_b_set_slot_list in Hp.
  - destruct Hp as (r & crew' & Hj & Hr & Hm).
    rewrite dicts_set_slot_list in Hr. simpl in Hr.
    change (slot_list t (set_dicts (dicts v ++ [crew]) v)) with (slot_list t v) in Hj.
    assert (Hj' : slot_list t' (set_slot_list t
                    (<[i := Some (length (dicts v))]> (slot_list t v)) v) !! j
                  = Some (Some r)).
    { destruct t, t'; exact Hj. }
    destruct (lookup_allocated t i _ v t' j r Hlen Hi Hj') as [(-> & -> & Hx)|[_ Hjv]].
    + injection Hx as <-. rewrite lookup_app_r in Hr by lia.
      rewrite Nat.sub_diag in Hr. injection Hr as <-. left. now split.
    + right. apply (Hold u (Slot t' j)). exists r, crew'. split; [exact Hjv|].
      split; [|exact Hm]. rewrite lookup_app_l in Hr; [exact Hr|].
      exact (Hin t' j r Hjv).
  - right. apply (Hold u Pool). simpl. now rewrite recruits_set_slot_list in Hp.
Qed.

Lemma set_recruits_id v : set_recruits (recruits v) v = v.
Proof. now destruct v. Qed.

(** Writing a position of a dict and taking its new holder out of the pool. *)
Lemma unique_write r f (newu : option User) pool v :
  consistent v -> unique v ->
  (forall crew x,
      In x [commander (f crew); gunner (f crew); driver (f crew)] ->
      In x [commander crew; gunner crew; driver crew] \/ x = newu) ->
  (forall m, In m pool -> In m (recruits v) /\ Some m <> newu) ->
  (forall u p, newu = Some u -> holds v u p -> p = Pool) ->
  unique (set_recruits pool (dict_update r f v)).
Proof.
  intros (_ & _ & _ & Hdis & _) Hu Hf Hpool Hnew.
  apply (unique_grow v _ (fun m => newu = Some m)
           (fun p => exists t j, p = Slot t j /\ slot_list t v !! j = Some (Some r)) Hu).
  2:{ intros p q (t & j & -> & Hj) (t' & j' & -> & Hj').
      destruct (Hdis t j t' j' r Hj Hj') as [-> ->]. reflexivity. }
  assert (Hold : forall m p, p <> Pool -> holds v m p -> ~ newu = Some m /\ holds v m p).
  { intros m p Hp H. split; [|exact H]. intros Hm. exact (Hp (Hnew m p Hm H)). }
  intros m [| |t j|] Hp; simpl in Hp.
  - right. apply (Hold m SeatA); [discriminate|exact Hp].
  - right. apply (Hold m SeatB); [discriminate|exact Hp].
  - destruct Hp as (r' & crew' & Hj & Hr & Hm).
    assert (Hjv : slot_list t v !! j = Some (Some r')) by (destruct t; exact Hj).
    clear Hj. simpl in Hr. destruct (Nat.eq_dec r r') as [<-|Hne].
    + rewrite list_lookup_alter_eq in Hr.
      destruct (dicts v !! r) as [crew|] eqn:Hrv; [|discriminate].
      injection Hr as <-. destruct (Hf crew (Some m) Hm) as [Hin|Hin].
      * right. apply (Hold m (Slot t j)); [discriminate|]. now exists r, crew.
      * left. split; [now symmetry|]. now exists t, j.
    + rewrite list_lookup_alter_ne in Hr by assumption.
      right. apply (Hold m (Slot t j)); [discriminate|]. now exists r', crew'.
  - destruct (Hpool m Hp) as [Hin Hne]. right. split; [congruence|exact Hin].
Qed.

Lemma unique_update (p : Position) values ev v :
  consistent v -> unique v -> unique (snd (update_select p values ev v)).
Proof.
  intros Hc Hu.
  assert (Hclear : forall f : Crew -> Crew,
             (forall crew x, In x [commander (f crew); gunner (f crew); driver (f crew)] ->
                             In x [commander crew; gunner crew; driver crew] \/ x = None) ->
             unique (dict_update (ecv_crew ev) f v)).
  { intros f Hf. rewrite <- (set_recruits_id (dict_update _ f v)).
    apply (unique_write _ f None (recruits v) v Hc Hu Hf).
    - intros m Hm. split; [exact Hm|discriminate].
    - intros u q H. discriminate. }
  assert (Hset : forall (f : Crew -> Crew) u,
             is_user_registered v u = false ->
             (forall crew x, In x [commander (f crew); gunner (f crew); driver (f crew)] ->
                             In x [commander crew; gunner crew; driver crew] \/ x = Some u) ->
             unique (dict_update (ecv_crew ev) f v)).
  { intros f u Hreg Hf. rewrite <- (set_recruits_id (dict_update _ f v)).
    apply (unique_write _ f (Some u) (recruits v) v Hc Hu Hf).
    - intros m Hm. split; [exact Hm|]. intros [= ->].
      exact (not_registered_holds v u Pool Hreg Hm).
    - intros u' q [= <-] H. exfalso. exact (not_registered_holds v u q Hreg H). }
  destruct p, values as [|u values]; simpl;
    unfold UpdateGunnerSelect_callback, UpdateDriverSelect_callback;
    try (destruct (is_user_registered v u) eqn:Hreg; [exact Hu|]); simpl.
  - apply Hclear. intros crew x. simpl.
    intros [H|[H|[H|[]]]]; first [right; symmetry; exact H|left; auto].
  - apply (Hset _ u Hreg). intros crew x. simpl.
    intros [H|[H|[H|[]]]]; first [right; symmetry; exact H|left; auto].
  - apply Hclear. intros crew x. simpl.
    intros [H|[H|[H|[]]]]; first [right; symmetry; exact H|left; auto].
  - apply (Hset _ u Hreg). intros crew x. simpl.
    intros [H|[H|[H|[]]]]; first [right; symmetry; exact H|left; auto].
Qed.

Lemma unique_assign (set : option User -> Crew -> Crew) (p : Position) rv recruit v o v' :
  (forall x crew y,
      In y [commander (set x crew); gunner (set x crew); driver (set x crew)] ->
      In y [commander crew; gunner crew; driver crew] \/ y = x) ->
  match rsv_crew rv with
  | None => (Raised TypeError, v)
  | Some crew =>
      let v1 := dict_update crew (set (rsv_selected_recruit rv)) v in
      match rsv_selected_recruit rv with
      | None => (Raised ValueError, v1)
      | Some recruit =>
          match list_remove recruit (recruits v1) with
          | None => (Raised ValueError, v1)
          | Some pool => (Sent (Recruited (Some recruit) p), set_recruits pool v1)
          end
      end
  end = (o, v') ->
  rsv_selected_recruit rv = Some recruit -> In recruit (recruits v) ->
  consistent v -> unique v -> unique v'.
Proof.
  intros Hset Hrun Hsel Hin Hc Hu. rewrite Hsel in Hrun.
  destruct (rsv_crew rv) as [crew|]; [|now injection Hrun as _ <-].
  simpl in Hrun.
  destruct (list_remove_in_pool recruit (recruits v) (proj2 (in_pool_spec _ _) Hin))
    as [pool Hrm].
  rewrite Hrm in Hrun. injection Hrun as _ <-.
  apply (unique_write crew (set (Some recruit)) (Some recruit) pool v Hc Hu).
  - intros c y. apply Hset.
  - intros m Hm. split; [exact (list_remove_In _ _ _ Hrm m Hm)|].
    intros [= ->]. destruct Hc as (_ & Hnd & _).
    exact (list_remove_not_In _ _ _ Hnd Hrm Hm).
  - intros u q [= <-] H. exact (Hu recruit q Pool H Hin).
Qed.

(** A callback run on the signup view, the crew name modal being submitted
    while its three members are unregistered and a recruit being assigned
    while in the pool. *)
Inductive checked_step (v : EventSignupView) : EventSignupView -> Prop :=
| checked_commander user team :
    checked_step v (snd (CommanderSelect_callback user team v))
| checked_crew_name parent drv value :
    is_user_registered v (csv_commander parent) = false ->
    (forall g, csv_gunner parent = Some g -> is_user_registered v g = false) ->
    is_user_registered v drv = false ->
    checked_step v (snd (CrewNameModal_on_submit parent drv value v))
| checked_join_allies crew team :
    checked_step v (snd (JoinAlliesWithCrewButton_join_with_crew crew team v))
| checked_join_axis crew team :
    checked_step v (snd (JoinAxisWithCrewButton_join_with_crew crew team v))
| checked_recruit_me user :
    checked_step v (snd (RecruitMeButton_callback user v))
| checked_assign_gunner rv recruit :
    rsv_selected_recruit rv = Some recruit -> In recruit (recruits v) ->
    checked_step v (snd (AssignGunnerButton_callback rv v))
| checked_assign_driver rv recruit :
    rsv_selected_recruit rv = Some recruit -> In recruit (recruits v) ->
    checked_step v (snd (AssignDriverButton_callback rv v))
| checked_update_gunner values view_parent :
    checked_step v (snd (UpdateGunnerSelect_callback values view_parent v))
| checked_update_driver values view_parent :
    checked_step v (snd (UpdateDriverSelect_callback values view_parent v))
| checked_leave user :
    checked_step v (snd (LeaveEventButton_callback user v))
| checked_end_event role_names ext :
    checked_step v (snd (EndEventButton_callback role_names ext v)).

Inductive checked_reachable (eid : option Z) : EventSignupView -> Prop :=
| checked_init : checked_reachable eid (EventSignupView_init eid)
| checked_next v v' :
    checked_reachable eid v -> checked_step v v' -> checked_reachable eid v'.

Lemma checked_step_step v v' : checked_step v v' -> step v v'.
Proof. intros H. destruct H; constructor. Qed.

Lemma unique_crew_name parent drv value v :
  consistent v -> unique v ->
  is_user_registered v (csv_commander parent) = false ->
  (forall g, csv_gunner parent = Some g -> is_user_registered v g = false) ->
  is_user_registered v drv = false ->
  unique (snd (CrewNameModal_on_submit parent drv value v)).
Proof.
  intros Hc Hu Hcmd Hgun Hdrv.
  destruct (on_submit_cases parent drv value v)
    as [(i & name & Hi & _ & ->)|[_ ->]]; [|simpl|exact Hu].
  { apply well_formed_slot_list. apply Hc. }
  apply unique_allocate; try assumption.
  intros u [H|[H|[H|[]]]]; simpl in H.
  - now injection H as <-.
  - now apply Hgun.
  - now injection H as <-.
Qed.

Lemma unique_join crew team v :
  consistent v -> unique v ->
  unique (snd (JoinAlliesWithCrewButton_join_with_crew crew team v)).
Proof.
  intros Hc Hu.
  destruct (join_with_crew_cases crew team v)
    as [(m & _ & ->)|[(Hreg & i & entry & Hi & _ & _ & Hmem & ->)|(_ & _ & ->)]];
    [|exact Hu|simpl|exact Hu].
  { apply well_formed_slot_list. apply Hc. }
  apply unique_allocate; try assumption.
  intros u Hin. rewrite Hmem in Hin.
  exact (proj1 (first_registered_None _ _) Hreg u Hin).
Qed.

Lemma set_gunner_members x crew y :
  In y [commander (set_gunner x crew); gunner (set_gunner x crew);
        driver (set_gunner x crew)] ->
  In y [commander crew; gunner crew; driver crew] \/ y = x.
Proof. simpl. intros [H|[H|[H|[]]]]; first [right; symmetry; exact H|left; auto]. Qed.

Lemma set_driver_members x crew y :
  In y [commander (set_driver x crew); gunner (set_driver x crew);
        driver (set_driver x crew)] ->
  In y [commander crew; gunner crew; driver crew] \/ y = x.
Proof. simpl. intros [H|[H|[H|[]]]]; first [right; symmetry; exact H|left; auto]. Qed.

Lemma unique_checked_step v v' :
  consistent v -> unique v -> checked_step v v' -> unique v'.
Proof.
  intros Hc Hu Hstep. destruct Hstep.
  - now apply unique_commander.
  - now apply unique_crew_name.
  - now apply unique_join.
  - rewrite join_with_crew_same. now apply unique_join.
  - now apply unique_recruit_me.
  - destruct (AssignGunnerButton_callback rv v) as [o v'] eqn:Hrun.
    exact (unique_assign set_gunner Gunner rv recruit v o v'
             set_gunner_members Hrun H H0 Hc Hu).
  - destruct (AssignDriverButton_callback rv v) as [o v'] eqn:Hrun.
    exact (unique_assign set_driver Driver rv recruit v o v'
             set_driver_members Hrun H H0 Hc Hu).
  - destruct view_parent as [ev|parent|parent];
      [exact (unique_update Gunner values ev v Hc Hu)|exact Hu|exact Hu].
  - destruct view_parent as [ev|parent|parent];
      [exact (unique_update Driver values ev v Hc Hu)|exact Hu|exact Hu].
  - apply unique_leave; [apply Hc|exact Hu].
  - now apply unique_end_event.
Qed.

(** X9. As long as the crew name modal is submitted while its commander,
    gunner and driver are unregistered, and a recruit is assigned while it is
    in the pool, nobody ever holds two places among the two commander seats,
    the crew slots and the recruit pool, whatever the other callbacks are
    given: those two are the only callbacks that write without a check of
    their own. *)
Theorem one_place_each (eid : option Z) (v : EventSignupView) :
  checked_reachable eid v -> unique v.
Proof.
  intros Hr.
  assert (H : consistent v /\ unique v); [|exact (proj2 H)].
  induction Hr as [|v v' _ [IHc IHu] Hstep].
  - split; [apply consistent_init|apply unique_init].
  - split.
    + exact (consistent_step v v' (checked_step_step v v' Hstep) IHc).
    + exact (unique_checked_step v v' IHc IHu Hstep).
Qed.

(** X10. The crew selection run straight through: when the button, the
    gunner select and the driver select all accept on one and the same view,
    submitting the name on that view keeps everybody at one place, and a
    crew that gets registered has its three members registered. *)
Theorem crew_creation_straight_through (user g d : User) (value : string)
    (pv pv' : CrewSelectView) (v : EventSignupView) :
  consistent v -> unique v ->
  JoinCrewAButton_callback user v = (Sent (ShowCrewSelectView pv), v)
  \/ JoinCrewBButton_callback user v = (Sent (ShowCrewSelectView pv), v) ->
  GunnerSelect_callback g pv v = (Sent ShowDriverSelectView, pv', v) ->
  DriverSelect_callback d pv' v = (Sent (ShowCrewNameModal d), v) ->
  csv_commander pv' = user /\ csv_gunner pv' = Some g /\
  unique (snd (CrewNameModal_on_submit pv' d value v)) /\
  (forall name team,
      fst (CrewNameModal_on_submit pv' d value v) = Sent (CrewRegistered name team) ->
      forall m, In m [user; g; d] ->
                is_user_registered (snd (CrewNameModal_on_submit pv' d value v)) m = true).
Proof.
  intros Hc Hu Hjoin Hgun Hdrv.
  assert (Huser : is_user_registered v user = false /\ csv_commander pv = user).
  { unfold JoinCrewAButton_callback, JoinCrewBButton_callback in Hjoin.
    destruct (is_user_registered v user); [destruct Hjoin; discriminate|].
    split; [reflexivity|]. destruct Hjoin as [[= <-]|[= <-]]; reflexivity. }
  destruct Huser as [Huser Hcmd].
  unfold GunnerSelect_callback in Hgun.
  destruct (is_user_registered v g) eqn:Hg; [discriminate|].
  injection Hgun as <-.
  unfold DriverSelect_callback in Hdrv.
  destruct (is_user_registered v d) eqn:Hd; [discriminate|]. clear Hdrv.
  simpl. split; [exact Hcmd|]. split; [reflexivity|]. split.
  - apply unique_crew_name; try assumption.
    + simpl. now rewrite Hcmd.
    + simpl. now intros g' [= <-].
  - intros name team Hout m Hm.
    set (pv' := mkCrewSelectView (csv_team pv) (csv_commander pv) (Some g)) in *.
    assert (Hlen : length (slot_list (csv_team pv') v) = MAX_CREWS_PER_TEAM).
    { apply well_formed_slot_list. apply Hc. }
    destruct (on_submit_cases pv' d value v Hlen)
      as [(i & name' & Hi & [Hnone _] & Heq)|[_ Heq]]; rewrite Heq in Hout |- *;
      [|discriminate].
    simpl. apply is_user_registered_spec. right; right; left.
    exists (csv_team pv), i, (length (dicts v)).
    eexists. rewrite slot_list_set_slot_list, dicts_set_slot_list. simpl.
    split; [|split].
    + apply list_lookup_insert_eq.
      apply lookup_lt_Some in Hnone. exact Hnone.
    + rewrite lookup_app_r by lia. rewrite Nat.sub_diag. reflexivity.
    + simpl. rewrite Hcmd. destruct Hm as [<-|[<-|[<-|[]]]]; auto.
Qed.

(** *** Recruiting, straight through *)

Lemma get_user_crew_commands v user r t i :
  get_user_crew v user = Some (r, t, i) -> commands v user t i r.
Proof.
  unfold get_user_crew.
  destruct (find_commanded v user (crews_a v) 0) as [[ra ia]|] eqn:Ha.
  - intros [= <- <- <-].
    destruct (find_commanded_Some _ _ _ _ _ _ Ha) as (_ & Hk & Hc & Hex & _).
    rewrite Nat.sub_0_r in Hk. now split.
  - destruct (find_commanded v user (crews_b v) 0) as [[rb ib]|] eqn:Hb; [|discriminate].
    intros [= <- <- <-].
    destruct (find_commanded_Some _ _ _ _ _ _ Hb) as (_ & Hk & Hc & Hex & _).
    rewrite Nat.sub_0_r in Hk. now split.
Qed.




(** *** The offer of a saved crew *)

Lemma first_registered_id_None v ids :
  first_registered_id v ids = None ->
  forall i m, In (Some i) ids -> i <> 0%Z -> get_member i = Some m ->
              is_user_registered v m = false.
Proof.
  induction ids as [|id ids IH]; simpl; [intros _ i m []|].
  intros H i m [->|Hin] Hi Hm.
  - simpl in H. rewrite (proj2 (Z.eqb_neq i 0) Hi) in H. simpl in H. rewrite Hm in H.
    destruct (is_user_registered v m); [discriminate|reflexivity].
  - apply (IH ltac:(destruct (truthy_id id); [destruct id as [i'|];
                     [destruct (get_member i') as [m'|];
                      [destruct (is_user_registered v m'); [discriminate|]|]|]|];
                     exact H) i m Hin Hi Hm).
Qed.

Lemma first_registered_crew_member_None v crews :
  first_registered_crew_member v crews = None ->
  forall crew, In crew crews -> first_registered_id v (member_ids crew) = None.
Proof.
  induction crews as [|c crews IH]; cbn [first_registered_crew_member];
    [intros _ crew []|].
  destruct (first_registered_id v (member_ids c)) eqn:E; [discriminate|].
  intros H crew [<-|Hin]; [exact E|now apply IH].
Qed.

(** Writing a crew without a [None] member keeps the embed buildable. *)
Lemma build_embed_allocated team i entry v :
  build_embed v = None ->
  ~ In None [commander entry; gunner entry; driver entry] ->
  build_embed
    (set_slot_list team (<[i := Some (length (dicts v))]> (slot_list team v))
       (set_dicts (dicts v ++ [entry]) v)) = None.
Proof.
  intros Hv Hentry.
  match goal with |- build_embed ?w = None => destruct (build_embed w) as [e|] eqn:E end;
    [|reflexivity].
  exfalso. pose proof (build_embed_raises _ _ E) as ->.
  apply build_embed_spec in E. destruct E as (t & j & r & c & Hj & Hr & Hnone).
  rewrite dicts_set_slot_list in Hr. simpl in Hr.
  destruct (Nat.lt_trichotomy r (length (dicts v))) as [Hlt|[->|Hgt]].
  - rewrite lookup_app_l in Hr by assumption.
    assert (Hj' : slot_list t v !! j = Some (Some r)).
    { assert (Hold : forall l : list (option ref),
                 <[i := Some (length (dicts v))]> l !! j = Some (Some r) ->
                 l !! j = Some (Some r)).
      { intros l H. destruct (Nat.eq_dec i j) as [->|Hij].
        - destruct (Nat.lt_ge_cases j (length l)) as [Hin|Hout].
          + rewrite list_lookup_insert_eq in H by assumption. injection H as <-. lia.
          + rewrite list_insert_ge in H by assumption. exact H.
        - rewrite list_lookup_insert_ne in H by assumption. exact H. }
      destruct t, team; simpl in Hj |- *; first [exact Hj|exact (Hold _ Hj)]. }
    assert (Hraise : build_embed v = Some AttributeError)
      by (apply build_embed_spec; now exists t, j, r, c).
    congruence.
  - rewrite lookup_app_r in Hr by lia. rewrite Nat.sub_diag in Hr.
    injection Hr as <-. contradiction.
  - rewrite lookup_ge_None_2 in Hr; [discriminate|]. rewrite length_app. simpl. lia.
Qed.

(** X12. A crew the entry button offers, directly or through the
    dropdown, is one of the caller's crews with the caller as its commander,
    and joining with it on the same view is never refused for a registered
    member: it either finds the team full and changes nothing, or writes the
    crew into the lowest empty slot.  After the write it answers that the
    crew has joined when the message is not set, or when the embed could be
    built before and the guild resolves the three members of the crew. *)
Theorem offered_crew_can_join (user : User) (user_crews : list PersistentCrew)
    (v : EventSignupView) (crew : PersistentCrew) (team : Team) :
  (forall i m, get_member i = Some m -> m = i) ->
  well_formed v ->
  JoinWithCrewButton_callback user (Some user_crews) v = ShowTeamSelectView crew
  \/ (exists crews crew_id,
         JoinWithCrewButton_callback user (Some user_crews) v = ShowCrewSelectionView crews
         /\ PersistentCrewDropdown_callback crew_id crews = ShowTeamSelectView crew) ->
  In crew user_crews /\ commander_id crew = user /\
  is_user_registered v user = false /\
  (JoinAlliesWithCrewButton_join_with_crew crew team v = (Sent TeamFull, v)
   \/ exists v' entry,
        JoinAlliesWithCrewButton_join_with_crew crew team v
        = (refresh_then (CrewJoined (pc_crew_name crew) team) v', v') /\
        written_first_fit team v v' entry /\
        [commander entry; gunner entry; driver entry] = profile_members crew /\
        (message = false
         \/ (build_embed v = None /\ ~ In None (profile_members crew)) ->
         refresh_then (CrewJoined (pc_crew_name crew) team) v'
         = Sent (CrewJoined (pc_crew_name crew) team))).
Proof.
  intros Hguild Hwf Hoffer.
  set (mine := List.filter (fun c => Z.eqb (commander_id c) user) user_crews).
  assert (H : is_user_registered v user = false /\ In crew mine /\
              first_registered_crew_member v mine = None).
  { unfold JoinWithCrewButton_callback in Hoffer. fold mine in Hoffer.
    destruct (is_user_registered v user);
      [destruct Hoffer as [H|(cs & id & H & _)]; discriminate|].
    split; [reflexivity|].
    destruct mine as [|first others] eqn:Hmine;
      [destruct Hoffer as [H|(cs & id & H & _)]; discriminate|].
    destruct (first_registered_crew_member v (first :: others)) eqn:Hreg;
      [destruct Hoffer as [H|(cs & id & H & _)]; discriminate|].
    split; [|reflexivity].
    destruct Hoffer as [H|(cs & id & H & Hdrop)].
    - destruct others; [|discriminate]. injection H as <-. now left.
    - destruct others as [|second others]; [discriminate|]. injection H as <-.
      unfold PersistentCrewDropdown_callback in Hdrop.
      destruct (find _ (first :: second :: others)) as [c|] eqn:Hf; [|discriminate].
      injection Hdrop as <-. exact (proj1 (find_some _ _ Hf)). }
  destruct H as (Huser & Hin & Hnone).
  apply List.filter_In in Hin. destruct Hin as [Hin Hcmd]. apply Z.eqb_eq in Hcmd.
  split; [exact Hin|]. split; [exact Hcmd|]. split; [exact Huser|].
  assert (Hids : first_registered_id v (member_ids crew) = None).
  { apply (first_registered_crew_member_None v mine Hnone).
    apply List.filter_In. split; [exact Hin|]. now apply Z.eqb_eq. }
  assert (Hcommander : forall m, get_member (commander_id crew) = Some m ->
                                 is_user_registered v m = false).
  { intros m Hm. rewrite (Hguild _ _ Hm), Hcmd. exact Huser. }
  assert (Hother : forall id, In id [gunner_id crew; driver_id crew] ->
             forall m,
               (if truthy_id id
                then match id with Some g => get_member g | None => None end
                else get_member (commander_id crew)) = Some m ->
               is_user_registered v m = false).
  { intros id Hid m. destruct id as [g|]; simpl.
    - destruct (Z.eqb g 0) eqn:E; simpl; [apply Hcommander|].
      apply Z.eqb_neq in E. intros Hm.
      apply (first_registered_id_None v _ Hids g m); [|exact E|exact Hm].
      unfold member_ids. destruct Hid as [<-|[<-|[]]]; simpl; auto.
    - apply Hcommander. }
  assert (Hmembers : first_registered v (profile_members crew) = None).
  { apply first_registered_None. unfold profile_members.
    intros m [Hm|[Hm|[Hm|[]]]].
    - now apply Hcommander.
    - apply (Hother (gunner_id crew)); [now left|exact Hm].
    - apply (Hother (driver_id crew)); [right; now left|exact Hm]. }
  destruct (join_with_crew_cases crew team v (well_formed_slot_list team v Hwf))
    as [(m & Hm & _)|[(_ & i & entry & Hi & Hlow & _ & Hmem & Heq)|(_ & _ & Heq)]].
  - congruence.
  - right. eexists _, entry. split; [exact Heq|].
    split; [apply allocate_written; [now apply well_formed_slot_list|exact Hi|exact Hlow]|].
    split; [exact Hmem|].
    unfold refresh_then, update_embed. intros [->|[Hv Hres]]; [reflexivity|].
    rewrite <- Hmem in Hres. rewrite (build_embed_allocated team i entry v Hv Hres).
    now destruct message.
  - now left.
Qed.

Lemma filter_has_team_crew_entries v t slots :
  List.filter has_team (flat_map (crew_entries v t) slots)
  = flat_map (crew_entries v t) slots.
Proof.
  induction slots as [|slot slots IH]; [reflexivity|]. simpl.
  rewrite List.filter_app, IH. f_equal.
  unfold crew_entries. destruct slot as [r|]; [|reflexivity].
  destruct (dicts v !! r) as [crew|]; [|reflexivity].
  destruct (negb (member_eqb (gunner crew) (commander crew)));
    destruct (negb (member_eqb (driver crew) (commander crew))); reflexivity.
Qed.

Lemma participants_with_team v :
  length (List.filter has_team (participants v)) + length (recruits v)
  = length (participants v).
Proof.
  unfold participants. rewrite !List.filter_app, !filter_has_team_crew_entries.
  rewrite !length_app, length_map.
  assert (Hrec : forall l : list User,
             List.filter has_team (map (fun recruit => (Some recruit, None, RoleRecruit, None)) l)
             = []).
  { induction l as [|x l IH]; [reflexivity|exact IH]. }
  rewrite Hrec.
  assert (Hcmd : forall t c, List.filter has_team (commander_entry t c) = commander_entry t c).
  { intros t [u|]; reflexivity. }
  rewrite !Hcmd. simpl. lia.
Qed.

(** The users of the participants that have a faction, in their order. *)
Definition team_users (ps : list Participant) : list User :=
  flat_map (fun p => if has_team p
                     then match p_user p with Some u => [u] | None => [] end
                     else []) ps.

(** The user holds one of the roles [remove_event_role] looks for. *)
Definition holds_event_role (title : string) (g : Roles.Guild) (u : User) : bool :=
  existsb (fun role => match role with
                       | Some r => Roles.has_role g u r
                       | None => false
                       end) (Roles.event_roles title g).

Lemma holds_event_role_spec title g u :
  holds_event_role title g u = true <->
  exists role, In (Some role) (Roles.event_roles title g) /\ Roles.has_role g u role = true.
Proof.
  unfold holds_event_role. rewrite existsb_exists. split.
  - intros ([role|] & Hin & H); [|discriminate]. now exists role.
  - intros (role & Hin & H). now exists (Some role).
Qed.

(** One removal: nobody comes to hold a role of the event, and a user for
    whom it returns true held one before and holds none afterwards. *)
Lemma remove_event_role_holders api u title g :
  exists removed g',
    Roles.remove_event_role api u title g = (removed, g') /\
    (forall x, holds_event_role title g' x = true -> holds_event_role title g x = true) /\
    (removed = Some true ->
     holds_event_role title g u = true /\ holds_event_role title g' u = false).
Proof.
  assert (Hmono : forall g',
             Roles.guild_roles g' = Roles.guild_roles g ->
             (forall m, m <> u -> Roles.roles_of g' m = Roles.roles_of g m) ->
             (forall role, Roles.has_role g' u role = true -> Roles.has_role g u role = true) ->
             forall x, holds_event_role title g' x = true -> holds_event_role title g x = true).
  { intros g' Hg Hm Hless x. rewrite !holds_event_role_spec.
    intros (role & Hin & Hhas). exists role. unfold Roles.event_roles in *.
    rewrite Hg in Hin. split; [exact Hin|].
    destruct (Z.eq_dec x u) as [->|Hx]; [now apply Hless|].
    unfold Roles.has_role in *. now rewrite <- (Hm x Hx). }
  destruct (Roles.remove_event_role_cases api u title g)
    as [[Hnone Heq]|[(_ & _ & g' & Heq & Hg & Hm & Hless)
                    |((role & Hin & Hhas) & _ & g' & Heq & Hg & Hm & Hless & Hclear)]].
  - exists None, g. split; [exact Heq|]. split; [trivial|discriminate].
  - exists (Some false), g'. split; [exact Heq|]. split; [now apply Hmono|discriminate].
  - exists (Some true), g'. split; [exact Heq|]. split; [now apply Hmono|].
    intros _. split.
    + apply holds_event_role_spec. now exists role.
    + apply not_true_iff_false. rewrite holds_event_role_spec.
      intros (r & Hr & Hh). rewrite (Hclear r Hr) in Hh. discriminate.
Qed.

Lemma distinct_le (l k : list Z) :
  (forall x, In x l -> In x k) -> length (remove_dups l) <= length (remove_dups k).
Proof.
  intros Hincl. apply submseteq_length. apply NoDup_submseteq.
  - apply NoDup_remove_dups.
  - intros x. rewrite !elem_of_remove_dups, !list_elem_of_In. apply Hincl.
Qed.

Lemma distinct_lt (u : Z) (l k : list Z) :
  In u k -> ~ In u l -> (forall x, In x l -> In x k) ->
  S (length (remove_dups l)) <= length (remove_dups k).
Proof.
  intros Hu Hnot Hincl.
  change (length (u :: remove_dups l) <= length (remove_dups k)).
  apply submseteq_length. apply NoDup_submseteq.
  - apply NoDup_cons. split; [|apply NoDup_remove_dups].
    rewrite elem_of_remove_dups, list_elem_of_In. exact Hnot.
  - intros x. rewrite elem_of_cons, !elem_of_remove_dups, !list_elem_of_In.
    intros [->|H]; [exact Hu|now apply Hincl].
Qed.

(** Each user gives at most one removal that counts: the count is bounded
    by the distinct users with a faction who hold a role of the event when
    the loop starts. *)
Lemma remove_roles_distinct ext ps :
  forall i g,
    fst (remove_roles ext ps i g)
    <= length (remove_dups
                 (List.filter (holds_event_role (event_type ext) g) (team_users ps))).
Proof.
  induction ps as [|p ps IH]; intros i g; [apply Nat.le_0_l|].
  cbn [remove_roles team_users flat_map].
  destruct (has_team p); [|exact (IH (S i) g)].
  destruct (p_user p) as [u|]; [|exact (IH (S i) g)].
  destruct (remove_event_role_holders (discord_at ext i) u (event_type ext) g)
    as (removed & g' & -> & Hmono & Htrue).
  specialize (IH (S i) g').
  destruct (remove_roles ext ps (S i) g') as [count g2]. cbn [fst] in IH |- *.
  fold (team_users ps).
  assert (Hincl : forall x,
             In x (List.filter (holds_event_role (event_type ext) g') (team_users ps)) ->
             In x (List.filter (holds_event_role (event_type ext) g)
                     ([u] ++ team_users ps))).
  { intros x Hx. apply List.filter_In in Hx. destruct Hx as [Hin Hx].
    apply List.filter_In. split; [now right|now apply Hmono]. }
  assert (Hsame : count
                  <= length (remove_dups
                               (List.filter (holds_event_role (event_type ext) g)
                                  ([u] ++ team_users ps)))).
  { etransitivity; [exact IH|]. now apply distinct_le. }
  destruct removed as [[|]|]; try exact Hsame.
  destruct (Htrue eq_refl) as [Hbefore Hafter].
  etransitivity; [apply le_n_S; exact IH|]. apply (distinct_lt u).
  - apply List.filter_In. split; [now left|exact Hbefore].
  - intros Hx. apply List.filter_In in Hx. destruct Hx as [_ Hx]. congruence.
  - exact Hincl.
Qed.

Lemma remove_roles_le ext ps :
  forall i g, fst (remove_roles ext ps i g) <= length (List.filter has_team ps).
Proof.
  induction ps as [|p ps IH]; intros i g; [apply Nat.le_0_l|].
  cbn [remove_roles List.filter].
  destruct (has_team p); [|exact (IH (S i) g)].
  destruct (p_user p) as [u|]; [|cbn [length]; specialize (IH (S i) g); lia].
  destruct (Roles.remove_event_role (discord_at ext i) u (event_type ext) g)
    as [removed g1].
  specialize (IH (S i) g1). destruct (remove_roles ext ps (S i) g1) as [count g2].
  cbn [fst length] in IH |- *. destruct removed as [[|]|]; lia.
Qed.

(** X13. Only an administrator gets the event ended, and the event is
    reported as ended only when the message is set and the embed can be
    built.  The summary counts every participant, recruits included, while
    roles are taken only from participants with a faction, and a user
    listed more than once gives up its roles at the first call: the roles
    counted are at most the participants who are not recruits, and at most
    the distinct users with a faction who hold a role of the event when the
    removal starts.  The channels counted are at most those of the
    category. *)
Theorem end_event_summary (role_names : list string) (ext : Externals)
    (v : EventSignupView) :
  (is_admin role_names = false ->
   EndEventButton_callback role_names ext v = (Sent OnlyAdmins, v))
  /\ (forall n roles channels v',
         EndEventButton_callback role_names ext v
         = (Sent (EventEndedSuccessfully n roles channels), v') ->
         is_admin role_names = true /\ message = true /\ build_embed v = None /\
         n = length (participants v) /\
         roles + length (recruits v) <= n /\
         roles <= length (remove_dups
                            (List.filter
                               (holds_event_role (event_type ext) (guild_state ext))
                               (team_users (participants v)))) /\
         roles <= length (remove_dups (team_users (participants v))) /\
         channels <= length (channel_deleted ext)).
Proof.
  unfold EndEventButton_callback. split.
  - intros ->. reflexivity.
  - intros n roles channels v'.
    destruct (is_admin role_names); [|discriminate]. simpl negb. cbv iota.
    destruct (cog_loaded ext && truthy_id (event_id v) && negb (status_update_ok ext));
      [discriminate|].
    destruct (negb (cog_loaded ext) && existsb has_team (participants v)); [discriminate|].
    cbv zeta.
    change (build_embed (set_children _ v)) with (build_embed v).
    destruct (build_embed v); [discriminate|].
    destruct message; [|discriminate]. simpl negb. cbv iota.
    destruct (negb (message_edit_ok ext)); [discriminate|].
    intros [= <- <- <- _]. split; [reflexivity|]. split; [reflexivity|].
    split; [reflexivity|]. split; [reflexivity|].
    pose proof (remove_roles_distinct ext (participants v) 0 (guild_state ext)) as Hd.
    split; [|split; [exact Hd|split]].
    + rewrite <- (participants_with_team v). apply Nat.add_le_mono_r.
      apply remove_roles_le.
    + etransitivity; [exact Hd|]. apply distinct_le.
      intros x Hx. apply List.filter_In in Hx. exact (proj1 Hx).
    + induction (channel_deleted ext) as [|b l IH]; [apply Nat.le_refl|]. simpl.
      destruct b; simpl; lia.
Qed.

(** *** Editing, straight through *)

(** X17. The edit button lets in exactly the users who command a crew and
    binds the edit view to the dict in their slot.  The two buttons of that
    view build their select with the new gunner or driver view as its
    [view_parent], which has none of the attributes the callback reads: with
    whatever selection, the callback raises [AttributeError] and the signup
    view stays as it was, so no position is edited this way. *)
Theorem editing_straight_through (user : User) (v : EventSignupView) :
  (EditCrewButton_callback user v = (Sent MustBeCommander, v) <->
   forall t j r, ~ commands v user t j r)
  /\ (forall ev,
         EditCrewButton_callback user v = (Sent (ShowEditCrewView ev), v) ->
         (exists crew,
             slot_list (ecv_team ev) v !! ecv_slot_index ev = Some (Some (ecv_crew ev)) /\
             dicts v !! ecv_crew ev = Some crew /\ commander crew = Some user) /\
         forall values v0,
           UpdateGunnerSelect_callback values (EditGunnerView_init ev) v0
           = (Raised AttributeError, v0) /\
           UpdateDriverSelect_callback values (EditDriverView_init ev) v0
           = (Raised AttributeError, v0)).
Proof.
  unfold EditCrewButton_callback. split.
  - destruct (get_user_crew v user) as [[[r t] i]|] eqn:Hg.
    + split; [discriminate|]. intros Hno. exfalso.
      exact (Hno t i r (get_user_crew_commands v user r t i Hg)).
    + split; [intros _|reflexivity]. intros t j r (Hs & Hc & _).
      unfold get_user_crew in Hg.
      destruct (find_commanded v user (crews_a v) 0) as [[ra ia]|] eqn:Ha; [discriminate|].
      destruct (find_commanded v user (crews_b v) 0) as [[rb ib]|] eqn:Hb; [discriminate|].
      destruct t.
      * exact (find_commanded_None _ _ _ _ Ha j r Hs Hc).
      * exact (find_commanded_None _ _ _ _ Hb j r Hs Hc).
  - intros ev. destruct (get_user_crew v user) as [[[r t] i]|] eqn:Hg; [|discriminate].
    intros [= <-]. simpl.
    destruct (get_user_crew_commands v user r t i Hg) as (Hslot & Hcmd & crew & Hr).
    unfold dict_commander in Hcmd. rewrite Hr in Hcmd.
    split; [exists crew; split; [exact Hslot|split; [exact Hr|exact Hcmd]]|].
    intros values v0. split; reflexivity.
Qed.

End Callbacks.

(** ** The scenarios of the specification, three crews a team *)

Module Scenario.

(** A guild that has a member for every id, one display name for all, and
    crew names typed without blanks around them. *)
Definition guild (i : Z) : option Z := Some i.
Definition name_of (u : Z) : string := "Tanker"%string.
Definition as_typed (s : string) : string := s.

Definition on_submit := CrewNameModal_on_submit 3 name_of as_typed.
(** The signup message is set, as [schedule_event] leaves it. *)
Definition join_allies := JoinAlliesWithCrewButton_join_with_crew 3 guild true.
Definition leave := LeaveEventButton_callback 3.
Definition end_event := EndEventButton_callback ["Admin"%string] true.

Definition fresh : EventSignupView := EventSignupView_init 3 (Some 1%Z).

(** The view after commander [c] has gone through the crew selection with
    gunner [g] and driver [d] for team [t]. *)
Definition with_crew (c g d : Z) (t : Team) (v : EventSignupView) : EventSignupView :=
  snd (on_submit (mkCrewSelectView t c (Some g)) d "Crew"%string v).

Definition one_crew : EventSignupView := with_crew 1 2 3 TeamA fresh.

Definition full_allies : EventSignupView :=
  with_crew 7 8 9 TeamA (with_crew 4 5 6 TeamA one_crew).

(** A saved crew whose commander guns and drives. *)
Definition saved : PersistentCrew := mkPersistentCrew 5 "Saved"%string 20 None None.

(** A Discord that lets everything through and numbers a created role 7. *)
Definition obliging : Roles.Discord := Roles.mkDiscord true 7 1 true true 0.

(** The event "Brawl", with its Allies role held by every member. *)
Definition brawl_roles : Roles.Guild :=
  Roles.mkGuild [Roles.mkRole 7 "Brawl Allies"%string] (fun _ => [7]).

(** Collaborators that all do their part. *)
Definition all_fine : Externals :=
  mkExternals true true "Brawl"%string brawl_roles (fun _ => obliging) [true; true] true.

Example three_allocations_then_full :
  crews_a full_allies = [Some 0; Some 1; Some 2]
  /\ on_submit (mkCrewSelectView TeamA 10 (Some 11%Z)) 12 "Crew"%string full_allies
     = (Sent TeamFull, full_allies).
Proof. split; reflexivity. Qed.

Example recruit_cannot_command :
  let v := snd (RecruitMeButton_callback 30 fresh) in
  CommanderSelect_callback 30 TeamA v = (Sent AlreadyRegistered, v)
  /\ recruits v = [30%Z].
Proof. split; reflexivity. Qed.

Example profile_member_in_pool :
  let v := snd (RecruitMeButton_callback 42 fresh) in
  join_allies (mkPersistentCrew 5 "Saved"%string 40 (Some 41%Z) (Some 42%Z)) TeamA v
  = (Sent (MemberAlreadyRegistered 42), v)
  /\ recruits v = [42%Z].
Proof. split; reflexivity. Qed.

(** A guild that has lost member 41. *)
Definition without_41 (i : Z) : option Z := if Z.eqb i 41 then None else Some i.

(** User 41 is in the pool and the guild no longer resolves the id: the
    join is not refused, the crew is written with no gunner, and the
    refresh of the embed raises. *)
Example unresolved_member_joins :
  let v := snd (RecruitMeButton_callback 41 fresh) in
  exists v',
    JoinAlliesWithCrewButton_join_with_crew 3 without_41 true
      (mkPersistentCrew 5 "Saved"%string 40 (Some 41%Z) (Some 42%Z)) TeamA v
    = (Raised AttributeError, v')
    /\ is_user_registered v 41 = true
    /\ crews_a v' = [Some 0; None; None]
    /\ dicts v' !! 0
       = Some (mkCrew (Some 40%Z) "Saved"%string None (Some 42%Z) (Some 5%Z)).
Proof. eexists. repeat split; reflexivity. Qed.

(** Commander 1 with user 2 as both gunner and driver: user 2 is listed
    twice, and gives up its role at the first of the two removals. *)
Definition doubled : EventSignupView := with_crew 1 2 2 TeamA fresh.

Example role_counted_once :
  map p_user (participants doubled) = [Some 1%Z; Some 2%Z; Some 2%Z]
  /\ fst (end_event ["Admin"%string] all_fine doubled)
     = Sent (EventEndedSuccessfully 3 2 2).
Proof. split; reflexivity. Qed.

End Scenario.

(** ** Instances of the theorems *)


Lemma team_full_no_change_witness :
  length (slot_list TeamA Scenario.full_allies) = 3
  /\ (forall i, i < 3 -> slot_list TeamA Scenario.full_allies !! i <> Some None)
  /\ Scenario.on_submit (mkCrewSelectView TeamA 10 (Some 11%Z)) 12 "Late"%string
       Scenario.full_allies
     = (Sent TeamFull, Scenario.full_allies)
  /\ Scenario.join_allies Scenario.saved TeamA Scenario.full_allies
     = (Sent TeamFull, Scenario.full_allies).
Proof.
  assert (Hfull : forall i, i < 3 -> slot_list TeamA Scenario.full_allies !! i <> Some None).
  { intros i Hi. destruct i as [|[|[|i]]]; [discriminate|discriminate|discriminate|lia]. }
  split; [reflexivity|]. split; [exact Hfull|].
  destruct (team_full_no_change 3 Scenario.guild Scenario.name_of Scenario.as_typed
              true TeamA Scenario.full_allies eq_refl Hfull) as [Hdirect Hjoin].
  split.
  - exact (Hdirect (mkCrewSelectView TeamA 10 (Some 11%Z)) 12%Z "Late"%string eq_refl).
  - exact (proj2 (Hjoin (JoinAlliesWithCrewButton_join_with_crew 3 Scenario.guild true)
                    Scenario.saved (or_introl eq_refl)) eq_refl).
Defined.


Lemma end_event_disables_components_witness :
  exists v',
    Scenario.end_event ["Admin"%string] Scenario.all_fine Scenario.one_crew
    = (Sent (EventEndedSuccessfully 3 3 2), v')
    /\ crews_a v' = crews_a Scenario.one_crew
    /\ forall item, In item (children v') -> disabled item = true.
Proof.
  eexists. split; [reflexivity|].
  destruct (end_event_disables_components ["Admin"%string] true ["Admin"%string]
              Scenario.all_fine Scenario.one_crew _ _ eq_refl)
    as ((_ & _ & Ha & _) & _ & H).
  split; [exact Ha|]. exact (proj2 (H 3 3 2 eq_refl)).
Defined.

(** Both commanders, the crew of 1, 2 and 3, and two recruits. *)
Definition seven_participants : EventSignupView :=
  snd (RecruitMeButton_callback 31
         (snd (RecruitMeButton_callback 30
                 (snd (CommanderSelect_callback 21 TeamB
                         (snd (CommanderSelect_callback 20 TeamA Scenario.one_crew))))))).

Lemma finalize_participants_witness :
  commander_a seven_participants = Some 20%Z
  /\ commander_b seven_participants = Some 21%Z
  /\ recruits seven_participants = [30%Z; 31%Z]
  /\ length (participants seven_participants) = 7
  /\ length (List.filter has_team (participants seven_participants)) = 5.
Proof.
  split; [reflexivity|]. split; [reflexivity|]. split; [reflexivity|].
  destruct (finalize_participants seven_participants) as (_ & _ & H & _).
  apply (H 20%Z 21%Z 0 (mkCrew (Some 1%Z) "Crew"%string (Some 2%Z) (Some 3%Z) None)
           30%Z 31%Z); try reflexivity; discriminate.
Defined.

Lemma leave_unregistered_witness :
  well_formed 3 Scenario.one_crew
  /\ is_user_registered Scenario.one_crew 99 = false
  /\ Scenario.leave 99 Scenario.one_crew = (Sent NotRegistered, Scenario.one_crew).
Proof.
  assert (Hwf : well_formed 3 Scenario.one_crew) by (split; reflexivity).
  split; [exact Hwf|]. split; [reflexivity|].
  exact (leave_unregistered 3 99%Z Scenario.one_crew Hwf eq_refl).
Defined.


(** ** Where the code departs from the specification *)


(** C4. A crew selection opened before the event is ended still registers
    its crew afterwards: the modal answers with the registration and the
    slot array changes. *)
Lemma crew_registered_after_end :
  let pv := mkCrewSelectView TeamA 1 None in
  JoinCrewAButton_callback 1 Scenario.fresh = (Sent (ShowCrewSelectView pv), Scenario.fresh)
  /\ let pv' := mkCrewSelectView TeamA 1 (Some 2%Z) in
     GunnerSelect_callback 2 pv Scenario.fresh = (Sent ShowDriverSelectView, pv', Scenario.fresh)
  /\ DriverSelect_callback 3 pv' Scenario.fresh = (Sent (ShowCrewNameModal 3), Scenario.fresh)
  /\ exists ended,
       Scenario.end_event ["Admin"%string] Scenario.all_fine Scenario.fresh
       = (Sent (EventEndedSuccessfully 0 0 2), ended)
       /\ (forall item, In item (children ended) -> disabled item = true)
       /\ exists v',
            Scenario.on_submit pv' 3 "Crew"%string ended
            = (Sent (CrewRegistered "Crew"%string TeamA), v')
            /\ crews_a ended = [None; None; None]
            /\ crews_a v' = [Some 0; None; None].
Proof.
  split; [reflexivity|]. split; [reflexivity|]. split; [reflexivity|].
  eexists. split; [reflexivity|]. split.
  - intros item Hin. simpl in Hin.
    repeat (destruct Hin as [<-|Hin]; [reflexivity|]). contradiction.
  - eexists. split; [reflexivity|]. split; reflexivity.
Qed.

(** C7. Commander 1 opens the edit view of its crew, presses the button
    for the gunner and selects user 50, who is registered nowhere.  The
    select has been built with the gunner view as its [view_parent]: the
    callback raises [AttributeError] and the gunner of the crew is still
    user 2.  The same goes for the driver and for an empty selection. *)
Lemma edit_position_raises :
  let ev := mkEditCrewView 0 TeamA 0 in
  EditCrewButton_callback 1 Scenario.one_crew
  = (Sent (ShowEditCrewView ev), Scenario.one_crew)
  /\ is_user_registered Scenario.one_crew 50 = false
  /\ UpdateGunnerSelect_callback [50%Z] (EditGunnerView_init ev) Scenario.one_crew
     = (Raised AttributeError, Scenario.one_crew)
  /\ UpdateDriverSelect_callback [50%Z] (EditDriverView_init ev) Scenario.one_crew
     = (Raised AttributeError, Scenario.one_crew)
  /\ UpdateGunnerSelect_callback [] (EditGunnerView_init ev) Scenario.one_crew
     = (Raised AttributeError, Scenario.one_crew)
  /\ UpdateDriverSelect_callback [] (EditDriverView_init ev) Scenario.one_crew
     = (Raised AttributeError, Scenario.one_crew)
  /\ dicts Scenario.one_crew !! 0
     = Some (mkCrew (Some 1%Z) "Crew"%string (Some 2%Z) (Some 3%Z) None).
Proof. repeat split; reflexivity. Qed.

(** C1. User 1 opens the crew selection, then joins the recruit pool, then
    completes the selection: every callback accepts, and user 1 ends up
    both in the pool and as the commander of the crew in slot 0 of team A. *)
Lemma registered_twice :
  let pv := mkCrewSelectView TeamA 1 None in
  let pv' := mkCrewSelectView TeamA 1 (Some 2%Z) in
  JoinCrewAButton_callback 1 Scenario.fresh
  = (Sent (ShowCrewSelectView pv), Scenario.fresh)
  /\ exists v1,
       RecruitMeButton_callback 1 Scenario.fresh = (Sent AddedToRecruitPool, v1)
       /\ GunnerSelect_callback 2 pv v1 = (Sent ShowDriverSelectView, pv', v1)
       /\ DriverSelect_callback 3 pv' v1 = (Sent (ShowCrewNameModal 3), v1)
       /\ exists v2,
            Scenario.on_submit pv' 3 "Crew"%string v1
            = (Sent (CrewRegistered "Crew"%string TeamA), v2)
            /\ In 1%Z (recruits v2)
            /\ in_slot v2 1 TeamA 0
            /\ dict_commander 0 v2 = Some 1%Z.
Proof.
  split; [reflexivity|]. eexists. split; [reflexivity|].
  split; [reflexivity|]. split; [reflexivity|].
  eexists. split; [reflexivity|]. split; [now left|]. split; [|reflexivity].
  exists 0, (mkCrew (Some 1%Z) "Crew"%string (Some 2%Z) (Some 3%Z) None).
  split; [reflexivity|]. split; [reflexivity|]. now left.
Qed.

(** C6. The commander of a crew selects recruit 5 and assigns it as gunner;
    the position buttons stay in place, and assigning it as driver as well
    finds the recruit gone from the pool: the driver is written all the
    same and [list.remove] raises. *)
Lemma assign_recruit_not_in_pool :
  let crewed := Scenario.with_crew 1 1 1 TeamA Scenario.fresh in
  exists v rv rv' v1 v2,
    RecruitMeButton_callback 5 crewed = (Sent AddedToRecruitPool, v)
    /\ RecruitPlayersButton_callback 1 v = (Sent (ShowRecruitSelectionView rv), v)
    /\ RecruitSelect_callback 5 rv v = (Sent ShowPositionSelectView, rv', v)
    /\ AssignGunnerButton_callback rv' v = (Sent (Recruited (Some 5%Z) Gunner), v1)
    /\ in_pool 5 (recruits v1) = false
    /\ AssignDriverButton_callback rv' v1 = (Raised ValueError, v2)
    /\ dicts v1 !! 0 = Some (mkCrew (Some 1%Z) "Crew"%string (Some 5%Z) (Some 1%Z) None)
    /\ dicts v2 !! 0 = Some (mkCrew (Some 1%Z) "Crew"%string (Some 5%Z) (Some 5%Z) None)
    /\ v2 <> v1.
Proof.
  do 5 eexists.
  split; [reflexivity|]. split; [reflexivity|]. split; [reflexivity|].
  split; [reflexivity|]. split; [reflexivity|]. split; [reflexivity|].
  split; [reflexivity|]. split; [reflexivity|]. discriminate.
Qed.

(** ** Instances of the further theorems *)

Module Instances.

Import Scenario.

Definition admins : list string := ["Admin"%string].
Definition opened : CrewSelectView := mkCrewSelectView TeamA 1 None.
Definition picked : CrewSelectView := mkCrewSelectView TeamA 1 (Some 2%Z).

Lemma well_formed_one_crew : well_formed 3 one_crew.
Proof. split; reflexivity. Defined.

Lemma consistent_fresh : consistent 3 fresh.
Proof. exact (consistent_init 3 (Some 1%Z)). Defined.

Lemma consistent_one_crew : consistent 3 one_crew.
Proof.
  exact (consistent_crew_name 3 name_of as_typed picked 3%Z "Crew"%string fresh
           consistent_fresh).
Defined.



Lemma reachable_consistent_witness :
  reachable 3 admins guild name_of as_typed true (Some 1%Z) one_crew
  /\ consistent 3 one_crew.
Proof.
  assert (Hr : reachable 3 admins guild name_of as_typed true (Some 1%Z) one_crew).
  { apply (reachable_step 3 admins guild name_of as_typed true (Some 1%Z) fresh one_crew).
    - apply reachable_init.
    - exact (step_crew_name 3 admins guild name_of as_typed true fresh picked 3%Z
               "Crew"%string). }
  split; [exact Hr|].
  exact (reachable_consistent 3 admins guild name_of as_typed true (Some 1%Z) one_crew Hr).
Defined.


Lemma leave_is_complete_witness :
  exists o v',
    leave 2 one_crew = (o, v')
    /\ is_user_registered v' 2 = false
    /\ leave 2 v' = (Sent NotRegistered, v').
Proof. exact (leave_is_complete 3 2%Z one_crew consistent_one_crew). Defined.

Lemma leave_keeps_the_others_witness :
  is_user_registered (snd (leave 2 one_crew)) 3 = true <->
  commander_a one_crew = Some 3%Z \/ commander_b one_crew = Some 3%Z
  \/ (exists t j, in_slot one_crew 3 t j /\ ~ in_slot one_crew 2 t j)
  \/ In 3%Z (recruits one_crew).
Proof.
  apply (leave_keeps_the_others 3 2%Z 3%Z one_crew well_formed_one_crew).
  discriminate.
Defined.



Lemma get_user_crew_first_witness :
  commands one_crew 1 TeamA 0 0 /\ is_user_registered one_crew 1 = true.
Proof.
  destruct (proj1 (get_user_crew_first 1%Z one_crew) 0 TeamA 0 eq_refl)
    as (Hcmd & _ & _ & Hreg).
  split; [exact Hcmd|exact Hreg].
Defined.

Lemma participants_are_the_registered_witness :
  In (Some 2%Z) (map p_user (participants one_crew)).
Proof. exact (proj2 (participants_are_the_registered 2%Z one_crew) eq_refl). Defined.

Lemma one_place_each_witness :
  checked_reachable 3 admins guild name_of as_typed true (Some 1%Z) one_crew
  /\ unique one_crew.
Proof.
  assert (Hr : checked_reachable 3 admins guild name_of as_typed true (Some 1%Z) one_crew).
  { apply (checked_next 3 admins guild name_of as_typed true (Some 1%Z) fresh one_crew).
    - apply checked_init.
    - apply (checked_crew_name 3 admins guild name_of as_typed true fresh picked 3%Z
               "Crew"%string).
      + reflexivity.
      + intros g Hg. injection Hg as <-. reflexivity.
      + reflexivity. }
  split; [exact Hr|].
  exact (one_place_each 3 admins guild name_of as_typed true (Some 1%Z) one_crew Hr).
Defined.

Lemma crew_creation_straight_through_witness :
  unique (snd (on_submit picked 3 "Crew"%string fresh))
  /\ is_user_registered (snd (on_submit picked 3 "Crew"%string fresh)) 2 = true.
Proof.
  destruct (crew_creation_straight_through 3 name_of as_typed 1%Z 2%Z 3%Z "Crew"%string
              opened picked fresh consistent_fresh (unique_init 3 (Some 1%Z))
              (or_introl eq_refl) eq_refl eq_refl)
    as (_ & _ & Hu & Hreg).
  split; [exact Hu|].
  apply (Hreg "Crew"%string TeamA eq_refl). right. now left.
Defined.


Lemma offered_crew_can_join_witness :
  JoinWithCrewButton_callback guild 20 (Some [saved]) one_crew = ShowTeamSelectView saved
  /\ (join_allies saved TeamB one_crew = (Sent TeamFull, one_crew)
      \/ exists v' entry,
           join_allies saved TeamB one_crew
           = (Sent (CrewJoined (pc_crew_name saved) TeamB), v')
           /\ written_first_fit 3 TeamB one_crew v' entry).
Proof.
  split; [reflexivity|].
  assert (Hguild : forall i m, guild i = Some m -> m = i).
  { intros i m H. injection H as <-. reflexivity. }
  destruct (proj2 (proj2 (proj2
              (offered_crew_can_join 3 guild true 20%Z [saved] one_crew saved TeamB Hguild
                 well_formed_one_crew (or_introl eq_refl)))))
    as [Hfull|(v' & entry & Hrun & Hw & _ & Hans)]; [now left|].
  right. exists v', entry. split; [|exact Hw].
  unfold join_allies. rewrite Hrun. f_equal. apply Hans. right.
  split; [reflexivity|]. intros [H|[H|[H|[]]]]; discriminate.
Defined.

Lemma end_event_summary_witness :
  end_event admins all_fine doubled
  = (Sent (EventEndedSuccessfully 3 2 2), snd (end_event admins all_fine doubled))
  /\ length (participants doubled) = 3
  /\ 2 <= length (remove_dups (team_users (participants doubled))).
Proof.
  assert (Hrun : end_event admins all_fine doubled
                 = (Sent (EventEndedSuccessfully 3 2 2),
                    snd (end_event admins all_fine doubled))) by reflexivity.
  split; [exact Hrun|].
  destruct (proj2 (end_event_summary admins true admins all_fine doubled) 3 2 2 _ Hrun)
    as (_ & _ & _ & Hn & _ & _ & Hdistinct & _).
  split; [symmetry; exact Hn|exact Hdistinct].
Defined.

Lemma editing_straight_through_witness :
  UpdateGunnerSelect_callback [50%Z] (EditGunnerView_init (mkEditCrewView 0 TeamA 0))
    one_crew
  = (Raised AttributeError, one_crew)
  /\ exists crew, dicts one_crew !! 0 = Some crew /\ commander crew = Some 1%Z.
Proof.
  destruct (proj2 (editing_straight_through 1%Z one_crew) (mkEditCrewView 0 TeamA 0)
              eq_refl) as [(crew & _ & Hr & Hcmd) H].
  split; [exact (proj1 (H [50%Z] one_crew))|].
  exists crew. split; [exact Hr|exact Hcmd].
Defined.

(** A guild without roles. *)
Definition no_roles : Roles.Guild := Roles.mkGuild [] (fun _ => []).
Definition allied : Roles.Guild :=
  snd (Roles.assign_event_role obliging 20 "Brawl"%string (Some TeamA) no_roles).

Lemma assign_gives_role_witness :
  exists role,
    Roles.utils_get (Roles.guild_roles allied) "Brawl Allies"%string = Some role
    /\ Roles.has_role allied 20 role = true.
Proof.
  exact (proj1 (proj2 (Roles.assign_gives_role obliging 20%Z "Brawl"%string (Some TeamA)
                         no_roles allied) eq_refl)).
Defined.

Lemma remove_clears_event_roles_witness :
  exists answer g',
    Roles.remove_event_role obliging 20 "Brawl"%string allied = (answer, g')
    /\ Roles.guild_roles g' = Roles.guild_roles allied
    /\ answer <> None.
Proof.
  destruct (Roles.remove_clears_event_roles obliging 20%Z "Brawl"%string allied)
    as (answer & g' & Hrun & Hroles & _ & Hnone & _).
  exists answer, g'. split; [exact Hrun|]. split; [exact Hroles|].
  intros Ha. pose proof (proj1 Hnone Ha (Roles.mkRole 7 "Brawl Allies"%string)
                           (or_introl eq_refl)) as H.
  discriminate H.
Defined.

Lemma assign_then_remove_witness :
  exists g2,
    Roles.remove_event_role obliging 20 "Brawl"%string allied = (Some true, g2)
    /\ forall t role,
         Roles.utils_get (Roles.guild_roles g2) (Roles.event_role_name "Brawl"%string t)
         = Some role ->
         Roles.has_role g2 20 role = false.
Proof.
  exact (Roles.assign_then_remove obliging obliging 20%Z "Brawl"%string (Some TeamA)
           no_roles allied eq_refl eq_refl).
Defined.

End Instances.
